(** * Stock, cart and order consistency of the record shop back end

    A shallow embedding of the service layer of the shop
    (recordService, cartService, orderService and the orders controller)
    over an explicit model of the four MongoDB collections they touch.

    - Quantities (stock, line amounts) are integers, [Z].
    - Prices and totals are JavaScript Numbers, IEEE 754 doubles. A finite
      double is stood for by the rational it denotes, [Q]; an operation
      computes the exact rational and rounds it to the nearest double,
      ties to even ([binary64]). [Math.round] is the floor of [x + 1/2].
    - The email of a user query goes through the casts of UserSchema
      (lowercase, trim) before it is compared.
    - A service function is a computation in a state-and-exception
      monad over the database: a thrown error keeps the writes that
      were already awaited, exactly as the async code does. *)

From Stdlib Require Import ZArith QArith Qround Ascii String Lia.
From Stdlib Require Floats Uint63.
From stdpp Require Import base option list gmap.

Close Scope Q_scope.
Local Open Scope Z_scope.

(** ** Documents *)

(** ObjectIds are compared through their canonical form only, so a
    number stands for one. *)
Abbreviation ObjectId := N.

(** models/Record.ts: the canonical [stock] is required with default 0;
    [Stock] is the capitalised duplicate that the schema still declares
    "to handle additional fields temporarily". *)
Record IRecord := mkRecord {
  rec_title : string;
  rec_imageRecord : option string;
  rec_price : Q;
  rec_stock : Z;
  rec_Stock : option Z
}.

(** models/Cart.ts *)
Record IRecordDetails := mkDetails {
  det_title : string;
  det_image : string
}.

Record ICartItem := mkItem {
  item_recordId : ObjectId;
  item_amount : Z;
  item_price : Q;
  item_recordDetails : IRecordDetails
}.

(** [userId] carries a unique index, so the collection is keyed by it
    and the cart document does not repeat it. *)
Record ICart := mkCart {
  cart_id : ObjectId;
  cart_userEmail : option string;
  cart_items : list ICartItem;
  cart_totalPrice : Q;
  cart_enabled : bool
}.

(** models/User.ts, the fields the services read or write. *)
Record IUser := mkUser {
  user_id : ObjectId;
  user_userEmail : string;
  user_cartId : option ObjectId
}.

(** models/Order.ts ([orderDate] is the wall clock and is left out). *)
Record IOrderItem := mkOrderItem {
  oi_recordId : ObjectId;
  oi_amount : Z;
  oi_price : Q
}.

Record IOrder := mkOrder {
  order_id : ObjectId;
  order_userId : ObjectId;
  order_userEmail : string;
  order_items : list IOrderItem;
  order_total : Q;
  order_paymentMethod : string
}.

(** ** The database *)

Record DB := mkDB {
  users : list IUser;
  records : gmap N IRecord;
  carts : gmap N ICart;
  orders : list IOrder;
  nextId : N
}.

Inductive collection := Users | Records | Carts | Orders.

(** Which collections accept a write during one call; [false] makes the
    awaited write reject. *)
Definition Storage := collection -> bool.

Definition allWrites : Storage := fun _ => true.

(** The messages of the errors the services throw. *)
Inductive error :=
  | UserNotFound
  | UserNotFoundWithEmail
  | RecordNotFound
  | NotEnoughStock
  | CartNotFound
  | CartNotFoundForUser
  | ItemNotFound
  | CannotRemoveMore
  | InvalidStockValue
  | CannotDecreaseStock
  | EmptyCartOrder
  | FailedToCreateOrder
  | ValidationError
  | StorageError
  | TypeError.

(** ** Computations *)

Inductive result (A : Type) :=
  | Ok (a : A)
  | Throw (e : error).
Arguments Ok {A} a.
Arguments Throw {A} e.

Definition M (A : Type) : Type := DB -> DB * result A.

Definition ret {A} (a : A) : M A := fun db => (db, Ok a).

Definition throw {A} (e : error) : M A := fun db => (db, Throw e).

Definition bind {A B} (c : M A) (k : A -> M B) : M B :=
  fun db =>
    match c db with
    | (db', Ok a) => k a db'
    | (db', Throw e) => (db', Throw e)
    end.

Definition gets {A} (f : DB -> A) : M A := fun db => (db, Ok (f db)).

Definition modify (f : DB -> DB) : M unit := fun db => (f db, Ok tt).

(** [try { c } catch (error) { throw new Error(e) }] *)
Definition rethrowAs {A} (e : error) (c : M A) : M A :=
  fun db =>
    match c db with
    | (db', Ok a) => (db', Ok a)
    | (db', Throw _) => (db', Throw e)
    end.

Notation "x <- c ;; k" := (bind c (fun x => k))
  (at level 100, c at next level, right associativity).
Notation "c ;;; k" := (bind c (fun _ => k))
  (at level 100, right associativity).

Definition isOk {A} (r : result A) : bool :=
  match r with Ok _ => true | Throw _ => false end.

(** An awaited write: rejects when the collection does. *)
Definition write (w : Storage) (c : collection) (f : DB -> DB) : M unit :=
  if w c then modify f else throw StorageError.

Definition setRecords (f : gmap N IRecord -> gmap N IRecord) (db : DB) : DB :=
  mkDB (users db) (f (records db)) (carts db) (orders db) (nextId db).

Definition setCarts (f : gmap N ICart -> gmap N ICart) (db : DB) : DB :=
  mkDB (users db) (records db) (f (carts db)) (orders db) (nextId db).

Definition setUsers (f : list IUser -> list IUser) (db : DB) : DB :=
  mkDB (f (users db)) (records db) (carts db) (orders db) (nextId db).

Definition setOrders (f : list IOrder -> list IOrder) (db : DB) : DB :=
  mkDB (users db) (records db) (carts db) (f (orders db)) (nextId db).

(** [new Model(...)] draws the document's [_id]. *)
Definition freshId : M N :=
  fun db =>
    (mkDB (users db) (records db) (carts db) (orders db) (N.succ (nextId db)),
     Ok (nextId db)).

(** ** recordService *)

Definition withStock (s : Z) (r : IRecord) : IRecord :=
  mkRecord (rec_title r) (rec_imageRecord r) (rec_price r) s (rec_Stock r).

Definition withLegacyStock (s : option Z) (r : IRecord) : IRecord :=
  mkRecord (rec_title r) (rec_imageRecord r) (rec_price r) (rec_stock r) s.

(** [Record.findById(id)] *)
Definition findRecordById (id : N) : M (option IRecord) :=
  gets (fun db => records db !! id).

(** [record.save()]: no validator of RecordSchema constrains the stock. *)
Definition saveRecord (w : Storage) (id : N) (r : IRecord) : M unit :=
  write w Records (setRecords (fun m => <[id := r]> m)).

(** The [Stock] that a query for a record loads: RecordSchema declares the
    field with [select: false], so [Record.findById] leaves it out whether
    the record stores it or not. *)
Definition hydratedStock (r : IRecord) : option Z := None.

(** What [.lean()] hands to [updateStock]: the two stock fields as plain,
    possibly missing, properties. A record of this model always carries
    [stock], so the fallback to [Stock] is written as in the source but is
    never the branch taken. *)
Record LeanRecord := mkLean {
  lean_stock : option Z;
  lean_Stock : option Z
}.

Definition lean (r : IRecord) : LeanRecord :=
  mkLean (Some (rec_stock r)) (hydratedStock r).

(** [Record.updateOne({ _id: id }, { $set: { stock }, $unset: { Stock: 1 } })] *)
Definition updateOneStock (w : Storage) (id : N) (newStock : Z) : M unit :=
  write w Records
    (setRecords (fun m => match m !! id with
                          | Some r => <[id := withLegacyStock None (withStock newStock r)]> m
                          | None => m
                          end)).

(** recordService.updateStock(id, amount): [amount] is a signed change. *)
Definition updateStock (w : Storage) (id : N) (amount : Z) : M Z :=
  record <- gets (fun db => lean <$> records db !! id) ;;
  match record with
  | None => throw RecordNotFound
  | Some record =>
      let currentStock :=
        match lean_stock record with
        | Some s => Some s
        | None => lean_Stock record
        end in
      match currentStock with
      | None => throw InvalidStockValue
      | Some currentStock =>
          if (amount <? 0) && (Z.abs amount >? currentStock)
          then throw CannotDecreaseStock
          else
            let newStockValue := currentStock + amount in
            updateOneStock w id newStockValue ;;;
            ret newStockValue
      end
  end.

(** ** Numbers

    The arithmetic of a Number on finite values. Infinity and NaN have no
    rational: a result beyond the largest double (about 1.8e308) is
    outside this model, and so is the sign of a zero. *)

(** The integer nearest to [n / d], for [0 <= n] and [0 < d]; a tie goes
    to the even one. *)
Definition roundHalfEven (n d : Z) : Z :=
  let q := n / d in
  match 2 * (n mod d) ?= d with
  | Lt => q
  | Gt => q + 1
  | Eq => if Z.even q then q else q + 1
  end.

(** The floor of the binary logarithm of [n / d], for positive [n] and [d]. *)
Definition floorLog2 (n d : Z) : Z :=
  let k := Z.log2 n - Z.log2 d in
  if n * 2 ^ Z.max 0 (- k) <? d * 2 ^ Z.max 0 k then k - 1 else k.

(** The double nearest to [x]: a significand of 53 bits, or fewer below
    the smallest normal number, where the exponent stays at -1074. *)
Definition binary64 (x : Q) : Q :=
  let x := Qred x in
  let n := Z.abs (Qnum x) in
  let d := Z.pos (Qden x) in
  if n =? 0 then 0%Q
  else
    let e := Z.max (floorLog2 n d - 52) (-1074) in
    let m := Z.sgn (Qnum x) * roundHalfEven (n * 2 ^ Z.max 0 (- e)) (d * 2 ^ Z.max 0 e) in
    Qred (if 0 <=? e then inject_Z (m * 2 ^ e) else Qmake m (Z.to_pos (2 ^ (- e)))).

(** [x + y], [x * y] and [x / y] on Numbers. *)
Definition fadd (x y : Q) : Q := binary64 (x + y).

Definition fmul (x y : Q) : Q := binary64 (x * y).

Definition fdiv (x y : Q) : Q := binary64 (x / y).

(** Rocq's primitive floats, which are the doubles of the machine, to
    compare with: the rational a finite one denotes, and the quotient of
    two small integers. *)
Definition rationalOf (f : PrimFloat.float) : option Q :=
  match FloatOps.Prim2SF f with
  | SpecFloat.S754_zero _ => Some 0%Q
  | SpecFloat.S754_finite s m e =>
      let v := if 0 <=? e then inject_Z (Z.pos m * 2 ^ e)
               else Qmake (Z.pos m) (Z.to_pos (2 ^ (- e))) in
      Some (Qred (if s then - v else v)%Q)
  | _ => None
  end.

Definition doubleOf (p q : Z) : PrimFloat.float :=
  PrimFloat.div (PrimFloat.of_uint63 (Uint63.of_Z p)) (PrimFloat.of_uint63 (Uint63.of_Z q)).

(** ** The Cart model *)

(** JavaScript's [x || d] on the values the services apply it to. *)
Definition orZero (q : Q) : Q := if Qeq_bool q 0 then 0%Q else q.

Definition orZeroZ (z : Z) : Z := if z =? 0 then 0 else z.

Definition orString (s d : string) : string :=
  if String.eqb s EmptyString then d else s.

(** [Math.round]: the nearest integer, halves going up. *)
Definition mathRound (x : Q) : Z := Qfloor (x + (1 # 2))%Q.

Definition withItems (items : list ICartItem) (c : ICart) : ICart :=
  mkCart (cart_id c) (cart_userEmail c) items (cart_totalPrice c) (cart_enabled c).

Definition withTotalPrice (t : Q) (c : ICart) : ICart :=
  mkCart (cart_id c) (cart_userEmail c) (cart_items c) t (cart_enabled c).

Definition withEnabled (b : bool) (c : ICart) : ICart :=
  mkCart (cart_id c) (cart_userEmail c) (cart_items c) (cart_totalPrice c) b.

Definition withAmount (a : Z) (it : ICartItem) : ICartItem :=
  mkItem (item_recordId it) a (item_price it) (item_recordDetails it).

(** The [reduce] of CartSchema.methods.recalculateTotal:
    [acc + (amount * price)] from 0, left to right. *)
Definition sumLines (items : list ICartItem) : Q :=
  fold_left (fun acc item => fadd acc (fmul (inject_Z (item_amount item)) (item_price item)))
            items 0%Q.

(** CartSchema.methods.recalculateTotal; its [typeof] guards let every
    number through. *)
Definition recalculateTotal (c : ICart) : ICart :=
  withTotalPrice (sumLines (cart_items c)) c.

(** The [reduce] of addItemToCart, with its [Number(x) || 0] guards. *)
Definition reduceTotal (items : list ICartItem) : Q :=
  fold_left (fun total item =>
               fadd total (fmul (inject_Z (orZeroZ (item_amount item)))
                                (orZero (item_price item))))
            items 0%Q.

(** [Math.round(total * 100) / 100] *)
Definition roundCents (total : Q) : Q :=
  fdiv (inject_Z (mathRound (fmul total 100))) 100.

(** CartItemSchema: [amount] has [min: 1]. The required [recordId],
    [price] and title are present in every line the services build. *)
Definition validItem (it : ICartItem) : bool := 1 <=? item_amount it.

Definition validCart (c : ICart) : bool := forallb validItem (cart_items c).

(** [Cart.findOne({ userId, enabled })] *)
Definition findCart (userId : N) (enabled : bool) : M (option ICart) :=
  gets (fun db =>
          match carts db !! userId with
          | Some c => if Bool.eqb (cart_enabled c) enabled then Some c else None
          | None => None
          end).

(** [cart.save()]: the schema validators run first, then the write. *)
Definition saveCart (w : Storage) (userId : N) (c : ICart) : M unit :=
  if validCart c
  then write w Carts (setCarts (fun m => <[userId := c]> m))
  else throw ValidationError.

Definition findUserById (id : N) : M (option IUser) :=
  gets (fun db => List.find (fun u => (user_id u =? id)%N) (users db)).

(** The casts UserSchema puts on [userEmail], [lowercase: true] and
    [trim: true], on ASCII text: the letters A to Z and the white space of
    that range; other characters are left as they are. Mongoose applies
    them to the value of a query filter as it does to a value it stores. *)
Definition lowerAscii (c : ascii) : ascii :=
  let n := nat_of_ascii c in
  if ((65 <=? n) && (n <=? 90))%nat then ascii_of_nat (n + 32) else c.

Fixpoint toLowerCase (s : string) : string :=
  match s with
  | EmptyString => EmptyString
  | String c s' => String (lowerAscii c) (toLowerCase s')
  end.

Definition isWhiteSpace (c : ascii) : bool :=
  let n := nat_of_ascii c in
  (((9 <=? n) && (n <=? 13)) || (n =? 32))%nat.

Fixpoint trimStart (s : string) : string :=
  match s with
  | EmptyString => EmptyString
  | String c s' => if isWhiteSpace c then trimStart s' else s
  end.

Fixpoint trimEnd (s : string) : string :=
  match s with
  | EmptyString => EmptyString
  | String c s' =>
      match trimEnd s' with
      | EmptyString => if isWhiteSpace c then EmptyString else String c EmptyString
      | rest => String c rest
      end
  end.

Definition trim (s : string) : string := trimEnd (trimStart s).

Definition castEmail (email : string) : string := trim (toLowerCase email).

(** Text made of ASCII characters only. *)
Fixpoint asciiText (s : string) : bool :=
  match s with
  | EmptyString => true
  | String c s' => (nat_of_ascii c <? 128)%nat && asciiText s'
  end.

(** [User.findOne({ userEmail: email })] *)
Definition findUserByEmail (email : string) : M (option IUser) :=
  gets (fun db =>
          List.find (fun u => String.eqb (user_userEmail u) (castEmail email)) (users db)).

(** [items.findIndex(p)], with [None] for -1. *)
Fixpoint findIndex {A} (p : A -> bool) (l : list A) : option nat :=
  match l with
  | [] => None
  | x :: l' => if p x then Some 0%nat else S <$> findIndex p l'
  end.

Definition isLineOf (recordId : N) (it : ICartItem) : bool :=
  (item_recordId it =? recordId)%N.

(** ** cartService *)

(** The object [getCartByUserId] builds from the populated cart. *)
Record PopulatedDetails := mkPopulatedDetails {
  pd_title : string;
  pd_image : option string;
  pd_price : Q;
  pd_stock : Z
}.

Record PopulatedItem := mkPopulatedItem {
  pi_recordId : ObjectId;
  pi_amount : Z;
  pi_price : Q;
  pi_recordDetails : PopulatedDetails
}.

Record PopulatedCart := mkPopulatedCart {
  pc_id : ObjectId;
  pc_userEmail : option string;
  pc_items : list PopulatedItem;
  pc_totalPrice : Q;
  pc_enabled : bool
}.

(** One step of [cart.items.map]: a line whose record is gone was populated
    with [null], and reading [record.Group] throws. *)
Definition populateItem (recs : gmap N IRecord) (item : ICartItem) : option PopulatedItem :=
  match recs !! item_recordId item with
  | Some record =>
      Some (mkPopulatedItem (item_recordId item) (item_amount item) (item_price item)
              (mkPopulatedDetails (rec_title record) (rec_imageRecord record)
                                  (rec_price record) (rec_stock record)))
  | None => None
  end.

(** cartService.getCartByUserId *)
Definition getCartByUserId (userId : N) : M (option PopulatedCart) :=
  cart <- findCart userId true ;;
  match cart with
  | None => ret None
  | Some cart =>
      recs <- gets records ;;
      match mapM (populateItem recs) (cart_items cart) with
      | None => throw TypeError
      | Some items =>
          user <- findUserById userId ;;
          let userEmail :=
            match cart_userEmail cart with
            | Some e => Some e
            | None => user_userEmail <$> user
            end in
          ret (Some (mkPopulatedCart (cart_id cart) userEmail items
                       (cart_totalPrice cart) (cart_enabled cart)))
      end
  end.

(** cartService.createCart *)
Definition createCart (w : Storage) (userId : N) : M ICart :=
  user <- findUserById userId ;;
  match user with
  | None => throw UserNotFound
  | Some _ =>
      existingCart <- findCart userId true ;;
      match existingCart with
      | Some existingCart => ret existingCart
      | None =>
          disabledCart <- findCart userId false ;;
          match disabledCart with
          | Some disabledCart =>
              let disabledCart :=
                withTotalPrice 0%Q (withItems [] (withEnabled true disabledCart)) in
              saveCart w userId disabledCart ;;;
              ret disabledCart
          | None =>
              newId <- freshId ;;
              let newCart := mkCart newId None [] 0%Q true in
              saveCart w userId newCart ;;;
              write w Users
                (setUsers (map (fun u => if (user_id u =? userId)%N
                                         then mkUser (user_id u) (user_userEmail u) (Some newId)
                                         else u))) ;;;
              ret newCart
          end
      end
  end.

(** cartService.addItemToCart. It resolves with the cart it saved, read
    back and populated for display. *)
Definition addItemToCart (w : Storage) (userId recordId : N) (amount : Z)
    (userEmail : string) : M ICart :=
  record <- findRecordById recordId ;;
  match record with
  | None => throw RecordNotFound
  | Some record =>
      let currentStock := rec_stock record in
      if currentStock <? amount then throw NotEnoughStock
      else
        found <- findCart userId true ;;
        cart <- match found with
                | Some cart => ret cart
                | None =>
                    disabledCart <- findCart userId false ;;
                    match disabledCart with
                    | Some disabledCart =>
                        ret (withTotalPrice 0%Q (withItems [] (withEnabled true disabledCart)))
                    | None =>
                        newId <- freshId ;;
                        ret (mkCart newId (Some userEmail) [] 0%Q true)
                    end
                end ;;
        let recordPrice := orZero (rec_price record) in
        let recordTitle := orString (rec_title record) "Untitled" in
        let recordImage := default EmptyString (rec_imageRecord record) in
        let existingItemIndex := findIndex (isLineOf recordId) (cart_items cart) in
        let items :=
          match existingItemIndex with
          | Some i =>
              match cart_items cart !! i with
              | Some existingItem =>
                  <[i := mkItem (item_recordId existingItem)
                                (item_amount existingItem + amount)
                                recordPrice
                                (mkDetails recordTitle recordImage)]> (cart_items cart)
              | None => cart_items cart
              end
          | None =>
              cart_items cart ++
                [mkItem recordId amount recordPrice (mkDetails recordTitle recordImage)]
          end in
        let totalPrice := reduceTotal items in
        let totalPrice := roundCents totalPrice in
        let cart := withTotalPrice totalPrice (withItems items cart) in
        saveRecord w recordId (withStock (rec_stock record - amount) record) ;;;
        saveCart w userId cart ;;;
        ret cart
  end.

(** cartService.removeItemFromCartByEmail *)
Definition removeItemFromCartByEmail (w : Storage) (email : string) (recordId : N)
    (amount : Z) : M (option PopulatedCart) :=
  user <- findUserByEmail email ;;
  match user with
  | None => throw UserNotFoundWithEmail
  | Some user =>
      cart <- findCart (user_id user) true ;;
      match cart with
      | None => throw CartNotFoundForUser
      | Some cart =>
          match findIndex (isLineOf recordId) (cart_items cart) with
          | None => throw ItemNotFound
          | Some itemIndex =>
              match cart_items cart !! itemIndex with
              | None => throw TypeError
              | Some itemToRemove =>
                  if item_amount itemToRemove <? amount then throw CannotRemoveMore
                  else
                    record <- findRecordById recordId ;;
                    match record with
                    | Some record =>
                        saveRecord w recordId (withStock (rec_stock record + amount) record)
                    | None => ret tt
                    end ;;;
                    let items :=
                      if item_amount itemToRemove =? amount
                      then delete itemIndex (cart_items cart)
                      else <[itemIndex := withAmount (item_amount itemToRemove - amount)
                                                     itemToRemove]> (cart_items cart) in
                    let cart := recalculateTotal (withItems items cart) in
                    saveCart w (user_id user) cart ;;;
                    getCartByUserId (user_id user)
              end
          end
      end
  end.

(** cartService.removeItemFromCart: the whole line goes. *)
Definition removeItemFromCart (w : Storage) (userId recordId : N)
    : M (option PopulatedCart) :=
  cart <- findCart userId true ;;
  match cart with
  | None => throw CartNotFound
  | Some cart =>
      match findIndex (isLineOf recordId) (cart_items cart) with
      | None => throw ItemNotFound
      | Some itemIndex =>
          match cart_items cart !! itemIndex with
          | None => throw TypeError
          | Some removedItem =>
              record <- findRecordById recordId ;;
              match record with
              | Some record =>
                  let currentStock :=
                    match lean_stock (lean record) with
                    | Some s => s
                    | None => default 0 (lean_Stock (lean record))
                    end in
                  updateOneStock w recordId (currentStock + item_amount removedItem)
              | None => ret tt
              end ;;;
              let cart :=
                recalculateTotal (withItems (delete itemIndex (cart_items cart)) cart) in
              saveCart w userId cart ;;;
              getCartByUserId userId
          end
      end
  end.

(** What [clearCart] resolves to: the document from [createCart], or the
    object from [getCartByUserId]. *)
Inductive ClearedCart :=
  | CartDocument (c : ICart)
  | CartObject (c : option PopulatedCart).

(** [record.Stock += item.amount; await record.save()]: the capitalised
    field is the one written. On the document the query loaded the sum is
    [undefined + amount], NaN, which is no Number for the schema, and the
    save rejects before anything is written. *)
Definition returnStock (w : Storage) (item : ICartItem) : M unit :=
  record <- findRecordById (item_recordId item) ;;
  match record with
  | Some record =>
      match hydratedStock record with
      | Some legacy =>
          saveRecord w (item_recordId item)
            (withLegacyStock (Some (legacy + item_amount item)) record)
      | None => throw ValidationError
      end
  | None => ret tt
  end.

(** [for (const item of cart.items) { ... }] *)
Fixpoint forEachItem (body : ICartItem -> M unit) (items : list ICartItem) : M unit :=
  match items with
  | [] => ret tt
  | item :: rest => body item ;;; forEachItem body rest
  end.

(** cartService.clearCart *)
Definition clearCart (w : Storage) (userId : N) : M ClearedCart :=
  cart <- findCart userId true ;;
  match cart with
  | None =>
      created <- createCart w userId ;;
      ret (CartDocument created)
  | Some cart =>
      forEachItem (returnStock w) (cart_items cart) ;;;
      let cart := recalculateTotal (withItems [] cart) in
      saveCart w userId cart ;;;
      view <- getCartByUserId userId ;;
      ret (CartObject view)
  end.

(** ** orderService *)

(** OrderItemSchema: [amount] has [min: 1]; OrderSchema requires
    [userEmail] and [paymentMethod], and a required string must not be
    empty. *)
Definition validOrder (o : IOrder) : bool :=
  forallb (fun it => 1 <=? oi_amount it) (order_items o)
  && negb (String.eqb (order_userEmail o) EmptyString)
  && negb (String.eqb (order_paymentMethod o) EmptyString).

(** [order.save()] *)
Definition saveOrder (w : Storage) (o : IOrder) : M IOrder :=
  if validOrder o
  then write w Orders (setOrders (fun l => l ++ [o])) ;;; ret o
  else throw ValidationError.

(** [Cart.findByIdAndUpdate(id, { $set: { items: [], totalPrice: 0, enabled: false } })]:
    the cart with this [_id], wherever it is keyed. *)
Definition retireCartById (w : Storage) (id : N) : M unit :=
  write w Carts
    (setCarts (fmap (fun c => if (cart_id c =? id)%N
                              then withEnabled false (withTotalPrice 0%Q (withItems [] c))
                              else c))).

Definition orderItemOf (item : PopulatedItem) : IOrderItem :=
  mkOrderItem (pi_recordId item) (pi_amount item) (pi_price item).

(** orderService.createOrder, called with the object [getCartByUserId]
    built. The order keeps record, amount and price of each line; the
    order item schema has no other field. *)
Definition createOrder (w : Storage) (userId : N) (userEmail : string)
    (cart : PopulatedCart) (paymentMethod : string) : M IOrder :=
  if (length (pc_items cart) =? 0)%nat then throw EmptyCartOrder
  else
    let orderItems := map orderItemOf (pc_items cart) in
    let total := pc_totalPrice cart in
    rethrowAs FailedToCreateOrder
      (newId <- freshId ;;
       let order := mkOrder newId userId userEmail orderItems total paymentMethod in
       savedOrder <- saveOrder w order ;;
       retireCartById w (pc_id cart) ;;;
       ret savedOrder).

(** ** ordersController *)

Inductive response :=
  | Status201 (order : IOrder)
  | Status400
  | Status404
  | Status500 (e : error).

(** The body of the controller's [try] block. *)
Definition createOrderBody (w : Storage) (email : string) (paymentMethod : string)
    : M response :=
  user <- findUserByEmail email ;;
  match user with
  | None => ret Status404
  | Some user =>
      cart <- getCartByUserId (user_id user) ;;
      match cart with
      | None => ret Status400
      | Some cart =>
          if (length (pc_items cart) =? 0)%nat then ret Status400
          else
            order <- createOrder w (user_id user) (user_userEmail user) cart paymentMethod ;;
            clearCart w (user_id user) ;;;
            ret (Status201 order)
      end
  end.

(** ordersController.createOrder, for the route parameter [email] and the
    body's [paymentMethod]. *)
Definition createOrderController (w : Storage) (email : string) (paymentMethod : string)
    : DB -> DB * response :=
  fun db =>
    if String.eqb email EmptyString then (db, Status400)
    else
      match createOrderBody w email paymentMethod db with
      | (db', Ok r) => (db', r)
      | (db', Throw e) => (db', Status500 e)
      end.

(** ** Calls in sequence *)

Inductive call :=
  | UpdateStock (id : N) (amount : Z)
  | AddItem (userId recordId : N) (amount : Z) (userEmail : string)
  | RemoveItemByEmail (email : string) (recordId : N) (amount : Z)
  | RemoveItem (userId recordId : N)
  | Clear (userId : N).

(** The database one call leaves behind, whether it resolved or threw. *)
Definition exec (w : Storage) (c : call) (db : DB) : DB :=
  match c with
  | UpdateStock id amount => fst (updateStock w id amount db)
  | AddItem userId recordId amount userEmail =>
      fst (addItemToCart w userId recordId amount userEmail db)
  | RemoveItemByEmail email recordId amount =>
      fst (removeItemFromCartByEmail w email recordId amount db)
  | RemoveItem userId recordId => fst (removeItemFromCart w userId recordId db)
  | Clear userId => fst (clearCart w userId db)
  end.

(** Each call of a run comes with the storage behaviour it met. *)
Definition run (cs : list (Storage * call)) (db : DB) : DB :=
  fold_left (fun db wc => exec (fst wc) (snd wc) db) cs db.

(** ** A small shop to evaluate on *)

Definition vinyl : IRecord := mkRecord "Kind of Blue" None (10 # 1) 5 None.

Definition alice : IUser := mkUser 1%N "alice@example.com" None.

Definition shop : DB := mkDB [alice] {[ 7%N := vinyl ]} ∅ [] 100%N.

(** Alice after adding two copies of the record: stock 3, one line. *)
Definition shopWithCart : DB :=
  fst (addItemToCart allWrites 1 7 2 "alice@example.com" shop).

Definition aliceLine : ICartItem :=
  mkItem 7 2 (10 # 1) (mkDetails "Kind of Blue" "").

Definition aliceCart : ICart :=
  mkCart 100 (Some "alice@example.com"%string) [aliceLine] (20 # 1) true.

(** What C8 asks of one call: a zero or negative amount makes it fail and
    leaves the database alone. *)
Definition rejectsNonPositive (w : Storage) (id : N) (amount : Z) (db : DB) : Prop :=
  amount <= 0 ->
  (exists e, snd (updateStock w id amount db) = Throw e) /\
  fst (updateStock w id amount db) = db.

Definition cartsRejected : Storage :=
  fun c => match c with Carts => false | _ => true end.

(** A record priced at an eighth of a unit, 0.125. *)
Definition single : IRecord := mkRecord "Blue Monday" None (1 # 8) 5 None.

Definition bargainShop : DB :=
  mkDB [alice] {[ 7%N := vinyl; 8%N := single ]} ∅ [] 100%N.

(** The same cart over a record that still carries the capitalised field. *)
Definition legacyVinyl : IRecord := mkRecord "Kind of Blue" None (10 # 1) 3 (Some 3).

Definition legacyShopWithCart : DB :=
  mkDB [alice] {[ 7%N := legacyVinyl ]} {[ 1%N := aliceCart ]} [] 101%N.

(** Alice with a cart that an earlier order left disabled. *)
Definition retiredCart : ICart :=
  mkCart 100 (Some "alice@example.com"%string) [] 0%Q false.

Definition shopAfterOrder : DB :=
  mkDB [alice] {[ 7%N := vinyl ]} {[ 1%N := retiredCart ]} [] 101%N.

(** Alice with an enabled, empty cart. *)
Definition shopAfterReenable : DB :=
  mkDB [alice] {[ 7%N := vinyl ]} {[ 1%N := mkCart 100 None [] 0%Q true ]} [] 101%N.

(** A day of calls against the shop: two buyers, one rejected cart write,
    a removal, a manual decrement and a clear. *)
Definition busyDay : list (Storage * call) :=
  [ (allWrites, AddItem 1 7 3 "alice@example.com");
    (allWrites, AddItem 2 7 3 "bob@example.com");
    (cartsRejected, AddItem 2 7 1 "bob@example.com");
    (allWrites, RemoveItemByEmail "alice@example.com" 7 1);
    (allWrites, UpdateStock 7 (-1));
    (allWrites, Clear 1) ].

(** ** Statements *)

(** Every record holds a stock of at least zero. *)
Definition stockNonNegative (db : DB) : Prop :=
  map_Forall (fun _ r => 0 <= rec_stock r) (records db).

(** Every stored cart passes the validators of its schema. *)
Definition cartsValid (db : DB) : Prop :=
  map_Forall (fun _ c => validCart c = true) (carts db).

(** The amount a removal asks for is not negative; the carts controller
    lets only positive amounts through to the service. *)
Definition quantityCall (c : call) : Prop :=
  match c with
  | RemoveItemByEmail _ _ amount => 0 <= amount
  | _ => True
  end.

(** The sum over the line items of amount times price, as a number of
    mathematics. *)
Fixpoint lineSum (items : list ICartItem) : Q :=
  match items with
  | [] => 0%Q
  | item :: rest => (inject_Z (item_amount item) * item_price item + lineSum rest)%Q
  end.

(** The total a call leaves in the cart it writes, computed from the lines
    of that cart alone: [addItemToCart] adds them up and rounds to two
    decimals, the other calls store what [recalculateTotal] adds up. *)
Definition recomputed (c : call) (cart : ICart) : Prop :=
  match c with
  | AddItem _ _ _ _ => cart_totalPrice cart = roundCents (reduceTotal (cart_items cart))
  | _ => cart_totalPrice cart = sumLines (cart_items cart)
  end.

(** The total is what one of the two computations gives on the lines. *)
Definition totalConsistent (cart : ICart) : Prop :=
  cart_totalPrice cart = sumLines (cart_items cart) \/
  cart_totalPrice cart = roundCents (reduceTotal (cart_items cart)).

(** Every line is priced in whole units. *)
Definition wholePrices (items : list ICartItem) : Prop :=
  Forall (fun item => Qden (item_price item) = 1%positive) items.

(** The sum of the lines over whole prices, as an integer. *)
Fixpoint wholeSum (items : list ICartItem) : Z :=
  match items with
  | [] => 0
  | item :: rest => item_amount item * Qnum (item_price item) + wholeSum rest
  end.

(** The sizes of the products amount times price, added up. *)
Fixpoint absSum (items : list ICartItem) : Z :=
  match items with
  | [] => 0
  | item :: rest => Z.abs (item_amount item * Qnum (item_price item)) + absSum rest
  end.

(** The lines [addItemToCart] starts from: those of the user's enabled
    cart, none when the cart is disabled or missing. *)
Definition activeItems (db : DB) (userId : N) : list ICartItem :=
  match carts db !! userId with
  | Some c => if cart_enabled c then cart_items c else []
  | None => []
  end.

(** The line [addItemToCart] appends for a record not yet in the cart. *)
Definition newLine (recordId : N) (amount : Z) (record : IRecord) : ICartItem :=
  mkItem recordId amount (orZero (rec_price record))
         (mkDetails (orString (rec_title record) "Untitled")
                    (default EmptyString (rec_imageRecord record))).

(** The order line that copies a cart line. *)
Definition orderItemOfLine (line : ICartItem) : IOrderItem :=
  mkOrderItem (item_recordId line) (item_amount line) (item_price line).

(** ** Proof automation *)

Ltac unfold_M :=
  unfold findRecordById, findCart, findUserById, findUserByEmail, saveRecord,
    saveCart, updateOneStock, freshId, write, modify, gets, ret, throw, bind in *.

(** Case analysis on the innermost scrutinee of the goal. *)
Ltac step :=
  match goal with
  | |- context [match ?x with _ => _ end] =>
      lazymatch x with
      | context [match _ with _ => _ end] => fail
      | _ => destruct x eqn:?
      end
  end; simpl.

Ltac close_effect :=
  simplify_eq;
  repeat match goal with
         | H : (_ <? _) = false |- _ => apply Z.ltb_ge in H
         | H : (_ <? _) = true |- _ => apply Z.ltb_lt in H
         end;
  repeat split; try reflexivity;
  try (left; reflexivity);
  try (right; repeat eexists; first [eassumption | reflexivity | lia]).

(** * The rest of the services and their callers *)

(** ** recordService: reading and removing *)

Module recordService.

(** recordService.getById *)
Definition getById (id : N) : M (option IRecord) := findRecordById id.

(** recordService.remove: [Record.findByIdAndDelete(id)], then whether a
    document came back. *)
Definition remove (w : Storage) (id : N) : M bool :=
  result <- findRecordById id ;;
  write w Records (setRecords (fun m => delete id m)) ;;;
  ret (match result with Some _ => true | None => false end).

End recordService.

(** ** cartService: the cart by email *)

(** cartService.getCartByEmail *)
Definition getCartByEmail (email : string) : M (option PopulatedCart) :=
  user <- findUserByEmail email ;;
  match user with
  | None => ret None
  | Some user => getCartByUserId (user_id user)
  end.

(** ** cartsController *)

Module cartsController.

(** The status and payload a handler answers with. *)
Inductive reply (A : Type) :=
  | Json200 (data : A)
  | Json400
  | Json401
  | Json404
  | Json500 (e : error).
Arguments Json200 {A} data.
Arguments Json400 {A}.
Arguments Json401 {A}.
Arguments Json404 {A}.
Arguments Json500 {A} e.

(** [try { ... } catch (error) { return res.status(500) }] around a body
    that answers by itself. *)
Definition handle {A} (body : M (reply A)) : DB -> DB * reply A :=
  fun db =>
    match body db with
    | (db', Ok r) => (db', r)
    | (db', Throw e) => (db', Json500 e)
    end.

(** The request carries [req.user?.id], and in its body a [recordId] that
    passed [ObjectId.isValid] and an [amount], each possibly missing. *)
Definition badLine (recordId : option N) (amount : option Z) : bool :=
  match recordId, amount with
  | Some _, Some amount => (amount =? 0) || (amount <=? 0)
  | _, _ => true
  end.

(** cartsController.getCart *)
Definition getCart (w : Storage) (user : option N) : DB -> DB * reply ClearedCart :=
  match user with
  | None => fun db => (db, Json401)
  | Some userId =>
      handle
        (cart <- getCartByUserId userId ;;
         match cart with
         | None =>
             newCart <- createCart w userId ;;
             ret (Json200 (CartDocument newCart))
         | Some cart => ret (Json200 (CartObject (Some cart)))
         end)
  end.

(** cartsController.addItem *)
Definition addItem (w : Storage) (user : option N) (recordId : option N)
    (amount : option Z) (userEmail : string) : DB -> DB * reply ICart :=
  match user with
  | None => fun db => (db, Json401)
  | Some userId =>
      match recordId, amount with
      | Some recordId', Some amount' =>
          if badLine recordId amount then fun db => (db, Json400)
          else if String.eqb userEmail EmptyString then fun db => (db, Json400)
          else
            handle
              (updatedCart <- addItemToCart w userId recordId' amount' userEmail ;;
               ret (Json200 updatedCart))
      | _, _ => fun db => (db, Json400)
      end
  end.

(** cartsController.removeItem *)
Definition removeItem (w : Storage) (user : option N) (recordId : option N)
    : DB -> DB * reply (option PopulatedCart) :=
  match user with
  | None => fun db => (db, Json401)
  | Some userId =>
      match recordId with
      | None => fun db => (db, Json400)
      | Some recordId =>
          handle
            (updatedCart <- removeItemFromCart w userId recordId ;;
             ret (Json200 updatedCart))
      end
  end.

(** cartsController.clearCart *)
Definition clearCart (w : Storage) (user : option N) : DB -> DB * reply ClearedCart :=
  match user with
  | None => fun db => (db, Json401)
  | Some userId =>
      handle (clearedCart <- clearCart w userId ;; ret (Json200 clearedCart))
  end.

(** cartsController.removeItemFromCartByEmail *)
Definition removeItemFromCartByEmail (w : Storage) (email : string)
    (recordId : option N) (amount : option Z)
    : DB -> DB * reply (option PopulatedCart) :=
  if String.eqb email EmptyString then fun db => (db, Json400)
  else
    match recordId, amount with
    | Some recordId', Some amount' =>
        if badLine recordId amount then fun db => (db, Json400)
        else
          handle
            (updatedCart <- removeItemFromCartByEmail w email recordId' amount' ;;
             ret (Json200 updatedCart))
    | _, _ => fun db => (db, Json400)
    end.

(** cartsController.getCartByEmail *)
Definition getCartByEmail (email : string) : DB -> DB * reply PopulatedCart :=
  if String.eqb email EmptyString then fun db => (db, Json400)
  else
    handle
      (cart <- getCartByEmail email ;;
       match cart with
       | None => ret Json404
       | Some cart => ret (Json200 cart)
       end).

(** [Cart.findOneAndUpdate({ userId }, { $set: { enabled } }, { new: true })] *)
Definition findOneAndUpdateEnabled (w : Storage) (userId : N) (enabled : bool)
    : M (option ICart) :=
  write w Carts (setCarts (fun m => alter (withEnabled enabled) userId m)) ;;;
  gets (fun db => carts db !! userId).

(** cartsController.enableCartByEmail *)
Definition enableCartByEmail (w : Storage) (email : string) : DB -> DB * reply ICart :=
  if String.eqb email EmptyString then fun db => (db, Json400)
  else
    handle
      (user <- findUserByEmail email ;;
       match user with
       | None => ret Json404
       | Some user =>
           updatedCart <- findOneAndUpdateEnabled w (user_id user) true ;;
           match updatedCart with
           | None => ret Json404
           | Some updatedCart => ret (Json200 updatedCart)
           end
       end).

(** cartsController.disableCartByEmail *)
Definition disableCartByEmail (w : Storage) (email : string) : DB -> DB * reply ICart :=
  if String.eqb email EmptyString then fun db => (db, Json400)
  else
    handle
      (user <- findUserByEmail email ;;
       match user with
       | None => ret Json404
       | Some user =>
           updatedCart <- findOneAndUpdateEnabled w (user_id user) false ;;
           match updatedCart with
           | None => ret Json404
           | Some updatedCart => ret (Json200 updatedCart)
           end
       end).

End cartsController.

(** ** userService: deleting a user *)

Module userService.

(** What [deleteUser] resolves to, or the error its [catch] rethrows. *)
Inductive deletion :=
  | Resolved (deleted : bool)
  | FailedToDeleteUser.

(** userService.deleteUser: the user's orders go, then the cart that
    [user.cartId] names, then the user. *)
Definition deleteUser (w : Storage) (email : string) : DB -> DB * deletion :=
  fun db =>
    match
      (user <- findUserByEmail email ;;
       match user with
       | None => ret false
       | Some user =>
           write w Orders
             (setOrders (List.filter (fun o => negb (order_userId o =? user_id user)%N))) ;;;
           match user_cartId user with
           | Some cartId =>
               write w Carts
                 (setCarts (fun m => filter (fun kc => cart_id (snd kc) <> cartId) m))
           | None => ret tt
           end ;;;
           write w Users
             (setUsers (List.filter (fun u => negb (user_id u =? user_id user)%N))) ;;;
           ret true
       end) db
    with
    | (db', Ok deleted) => (db', Resolved deleted)
    | (db', Throw _) => (db', FailedToDeleteUser)
    end.

End userService.

(** ** Requests in sequence *)

(** One request to the carts, orders or stock routes. *)
Inductive request :=
  | GetCart (user : option N)
  | PostAdd (user : option N) (recordId : option N) (amount : option Z) (email : string)
  | DeleteLine (user : option N) (recordId : option N)
  | DeleteCart (user : option N)
  | PostRemove (email : string) (recordId : option N) (amount : option Z)
  | GetCartOf (email : string)
  | PostEnable (email : string)
  | PostDisable (email : string)
  | PostOrder (email : string) (paymentMethod : string)
  | PutStock (id : N) (amount : Z).

(** The database a request leaves behind. *)
Definition serve (w : Storage) (r : request) (db : DB) : DB :=
  match r with
  | GetCart user => fst (cartsController.getCart w user db)
  | PostAdd user recordId amount email =>
      fst (cartsController.addItem w user recordId amount email db)
  | DeleteLine user recordId => fst (cartsController.removeItem w user recordId db)
  | DeleteCart user => fst (cartsController.clearCart w user db)
  | PostRemove email recordId amount =>
      fst (cartsController.removeItemFromCartByEmail w email recordId amount db)
  | GetCartOf email => fst (cartsController.getCartByEmail email db)
  | PostEnable email => fst (cartsController.enableCartByEmail w email db)
  | PostDisable email => fst (cartsController.disableCartByEmail w email db)
  | PostOrder email paymentMethod => fst (createOrderController w email paymentMethod db)
  | PutStock id amount => fst (updateStock w id amount db)
  end.

Definition serveAll (rs : list (Storage * request)) (db : DB) : DB :=
  fold_left (fun db wr => serve (fst wr) (snd wr) db) rs db.

(** ** Further statements *)

(** Stocks at least zero and carts valid. *)
Definition consistent (db : DB) : Prop := stockNonNegative db /\ cartsValid db.

(** A computation that keeps the database consistent. *)
Definition keeps {A} (c : M A) : Prop :=
  forall db, consistent db -> consistent (fst (c db)).

(** A computation that leaves the orders it finds in place. *)
Definition keepsOrders {A} (c : M A) : Prop :=
  forall db, orders db `prefix_of` orders (fst (c db)).

(** The copies of a record among some lines. *)
Definition heldOf (recordId : N) (items : list ICartItem) : Z :=
  fold_right (fun line acc => if isLineOf recordId line then item_amount line + acc else acc)
             0 items.

(** The line [addItemToCart] leaves in place of an existing one. *)
Definition mergedLine (amount : Z) (record : IRecord) (line : ICartItem) : ICartItem :=
  mkItem (item_recordId line) (item_amount line + amount) (orZero (rec_price record))
         (mkDetails (orString (rec_title record) "Untitled")
                    (default EmptyString (rec_imageRecord record))).

(** The lines [addItemToCart] leaves: the first line of the record merged,
    or a new line appended. *)
Definition linesAfterAdd (recordId : N) (amount : Z) (record : IRecord)
    (items : list ICartItem) : list ICartItem :=
  match findIndex (isLineOf recordId) items with
  | Some i =>
      match items !! i with
      | Some line => <[i := mergedLine amount record line]> items
      | None => items
      end
  | None => items ++ [newLine recordId amount record]
  end.

(** The lines [removeItemFromCartByEmail] leaves. *)
Definition linesAfterRemoval (i : nat) (amount : Z) (line : ICartItem)
    (items : list ICartItem) : list ICartItem :=
  if item_amount line =? amount then delete i items
  else <[i := withAmount (item_amount line - amount) line]> items.

(** Alice's cart switched off by the disable route, lines kept. *)
Definition shopDisabled : DB :=
  fst (cartsController.disableCartByEmail allWrites "alice@example.com" shopWithCart).

(** The record of Alice's cart after a price rise to 12. *)
Definition repricedShop : DB :=
  setRecords (fun m => <[7%N := mkRecord "Kind of Blue" None (12 # 1) 3 None]> m)
             shopWithCart.

Definition ordersRejected : Storage :=
  fun c => match c with Orders => false | _ => true end.

(** Requests of every kind, well formed or not. *)
Definition roughDay : list (Storage * request) :=
  [ (allWrites, PostAdd (Some 1%N) (Some 7%N) (Some 3) "alice@example.com");
    (allWrites, PostAdd (Some 1%N) (Some 7%N) (Some (-4)) "alice@example.com");
    (allWrites, PostRemove "alice@example.com" (Some 7%N) (Some (-9)));
    (cartsRejected, PostRemove "alice@example.com" (Some 7%N) (Some 1));
    (allWrites, PostDisable "alice@example.com");
    (allWrites, PostAdd (Some 1%N) (Some 7%N) (Some 2) "alice@example.com");
    (allWrites, PutStock 7 (-9));
    (allWrites, PostOrder "alice@example.com" "Credit Card");
    (allWrites, DeleteCart (Some 1%N));
    (allWrites, GetCart None) ].

(** * Properties *)

(** ** Lists of line items *)

Lemma findIndex_Some {A} (p : A -> bool) (l : list A) (i : nat) :
  findIndex p l = Some i ->
  exists x, l !! i = Some x /\ p x = true /\
            forall j y, (j < i)%nat -> l !! j = Some y -> p y = false.
Proof.
  revert i. induction l as [|a l IH]; intros i; simpl; [discriminate|].
  destruct (p a) eqn:Hp.
  - intros [= <-]. exists a. repeat split; auto. intros j y Hj. lia.
  - destruct (findIndex p l) as [k|] eqn:Hk; simpl; [|discriminate].
    intros [= <-]. destruct (IH k eq_refl) as (x & Hx & Hpx & Hlt).
    exists x. repeat split; auto.
    intros [|j] y Hj; simpl.
    + intros [= <-]. exact Hp.
    + apply Hlt. lia.
Qed.

Lemma findIndex_None {A} (p : A -> bool) (l : list A) :
  findIndex p l = None <-> forallb (fun x => negb (p x)) l = true.
Proof.
  induction l as [|a l IH]; simpl; [tauto|].
  destruct (p a); simpl.
  - split; discriminate.
  - rewrite <- IH. destruct (findIndex p l); simpl; split; congruence.
Qed.

Lemma findIndex_app_fresh {A} (p : A -> bool) (l : list A) (x : A) :
  findIndex p l = None -> p x = true ->
  findIndex p (l ++ [x]) = Some (length l).
Proof.
  intros Hl Hx. induction l as [|a l IH]; simpl in *.
  - now rewrite Hx.
  - destruct (p a); [discriminate|].
    destruct (findIndex p l); [discriminate|]. now rewrite IH.
Qed.

Lemma delete_app_last {A} (l : list A) (x : A) :
  delete (length l) (l ++ [x]) = l.
Proof. induction l as [|a l IH]; simpl; [reflexivity|]. now f_equal. Qed.

(** ** What one call writes *)

Lemma addItemToCart_effect (w : Storage) (userId recordId : N) (amount : Z)
    (userEmail : string) (db : DB) :
  let db' := fst (addItemToCart w userId recordId amount userEmail db) in
  users db' = users db /\ orders db' = orders db /\
  (records db' = records db \/
   exists r, records db !! recordId = Some r /\ amount <= rec_stock r /\
             records db' = <[recordId := withStock (rec_stock r - amount) r]> (records db)) /\
  (carts db' = carts db \/
   exists c, validCart c = true /\
             cart_totalPrice c = roundCents (reduceTotal (cart_items c)) /\
             carts db' = <[userId := c]> (carts db)).
Proof.
  unfold addItemToCart. unfold_M. simpl.
  repeat step; close_effect.
Qed.

Lemma removeItemFromCartByEmail_effect (w : Storage) (email : string) (recordId : N)
    (amount : Z) (db : DB) :
  let db' := fst (removeItemFromCartByEmail w email recordId amount db) in
  users db' = users db /\ orders db' = orders db /\
  (records db' = records db \/
   exists r, records db !! recordId = Some r /\
             records db' = <[recordId := withStock (rec_stock r + amount) r]> (records db)) /\
  (carts db' = carts db \/
   exists u c, validCart c = true /\
               cart_totalPrice c = sumLines (cart_items c) /\
               carts db' = <[u := c]> (carts db)).
Proof.
  unfold removeItemFromCartByEmail, getCartByUserId. unfold_M. simpl.
  repeat step; close_effect.
Qed.

Lemma removeItemFromCart_effect (w : Storage) (userId recordId : N) (db : DB) :
  let db' := fst (removeItemFromCart w userId recordId db) in
  users db' = users db /\ orders db' = orders db /\
  (records db' = records db \/
   exists r cart i line,
     records db !! recordId = Some r /\
     carts db !! userId = Some cart /\ cart_items cart !! i = Some line /\
     records db' = <[recordId := withLegacyStock None
                                   (withStock (rec_stock r + item_amount line) r)]>
                     (records db)) /\
  (carts db' = carts db \/
   exists c, validCart c = true /\
             cart_totalPrice c = sumLines (cart_items c) /\
             carts db' = <[userId := c]> (carts db)).
Proof.
  unfold removeItemFromCart, getCartByUserId. unfold_M. simpl.
  repeat step; close_effect.
Qed.

Lemma bind_run {A B} (c : M A) (k : A -> M B) (db : DB) :
  bind c k db = match c db with
                | (db', Ok a) => k a db'
                | (db', Throw e) => (db', Throw e)
                end.
Proof. reflexivity. Qed.

(** The loop of [clearCart] never touches [stock]. *)
Lemma forEachItem_returnStock_effect (w : Storage) (items : list ICartItem) (db : DB) :
  let db' := fst (forEachItem (returnStock w) items db) in
  users db' = users db /\ orders db' = orders db /\ carts db' = carts db /\
  nextId db' = nextId db /\
  forall id, rec_stock <$> records db' !! id = rec_stock <$> records db !! id.
Proof.
  revert db. induction items as [|item rest IH]; intros db; simpl; [auto|].
  rewrite bind_run.
  destruct (returnStock w item db) as [db1 [[]|e]] eqn:Hstep.
  - assert (users db1 = users db /\ orders db1 = orders db /\ carts db1 = carts db /\
            nextId db1 = nextId db /\
            forall id, rec_stock <$> records db1 !! id = rec_stock <$> records db !! id)
      as (Hu & Ho & Hc & Hn & Hr).
    { revert Hstep. unfold returnStock, hydratedStock. unfold_M. simpl.
      repeat step; intros [= <-]; (do 4 (split; [reflexivity|])); reflexivity. }
    destruct (IH db1) as (Hu' & Ho' & Hc' & Hn' & Hr'). cbv beta.
    do 4 (split; [congruence|]). intros k. rewrite Hr'. apply Hr.
  - simpl.
    revert Hstep. unfold returnStock, hydratedStock. unfold_M. simpl.
    repeat step; intros [= <-]; (do 4 (split; [reflexivity|])); reflexivity.
Qed.

Lemma createCart_effect (w : Storage) (userId : N) (db : DB) :
  let db' := fst (createCart w userId db) in
  orders db' = orders db /\ records db' = records db /\
  (carts db' = carts db \/
   exists c, validCart c = true /\
             cart_totalPrice c = sumLines (cart_items c) /\
             cart_items c = [] /\
             carts db' = <[userId := c]> (carts db)).
Proof.
  unfold createCart. unfold_M. simpl.
  repeat step; close_effect.
Qed.

Lemma clearCart_effect (w : Storage) (userId : N) (db : DB) :
  let db' := fst (clearCart w userId db) in
  orders db' = orders db /\
  (forall id, rec_stock <$> records db' !! id = rec_stock <$> records db !! id) /\
  (carts db' = carts db \/
   exists c, validCart c = true /\
             cart_totalPrice c = sumLines (cart_items c) /\
             cart_items c = [] /\
             carts db' = <[userId := c]> (carts db)).
Proof.
  intros db'. subst db'.
  destruct (clearCart w userId db) as [db' r] eqn:Hrun. simpl.
  revert Hrun. unfold clearCart. rewrite bind_run.
  unfold findCart at 1, gets at 1.
  pose proof (createCart_effect w userId db) as Hcreate. simpl in Hcreate.
  assert ((created <- createCart w userId ;; ret (CartDocument created)) db = (db', r) ->
          orders db' = orders db /\
          (forall id, rec_stock <$> records db' !! id = rec_stock <$> records db !! id) /\
          (carts db' = carts db \/
           exists c, validCart c = true /\ cart_totalPrice c = sumLines (cart_items c) /\
                     cart_items c = [] /\ carts db' = <[userId := c]> (carts db)))
    as Hnone.
  { rewrite bind_run. destruct (createCart w userId db) as [db1 [c1|e1]]; simpl in Hcreate;
      unfold ret; intros [= <- <-]; destruct Hcreate as (Ho & Hr & Hc);
      (split; [exact Ho|]); (split; [intros k; now rewrite Hr|]); exact Hc. }
  destruct (carts db !! userId) as [c|] eqn:Hc; [|exact Hnone].
  destruct (cart_enabled c) eqn:He; simpl; [|exact Hnone].
  clear Hnone Hcreate.
  rewrite bind_run.
  pose proof (forEachItem_returnStock_effect w (cart_items c) db) as Hloop. simpl in Hloop.
  destruct (forEachItem (returnStock w) (cart_items c) db) as [db1 [[]|e]]; simpl in Hloop;
    destruct Hloop as (Hu1 & Ho1 & Hc1 & Hn1 & Hr1).
  - unfold getCartByUserId. unfold_M. simpl.
    repeat step; intros [= <- <-]; simpl; rewrite ?Ho1, ?Hc1;
      (split; [reflexivity|]); (split; [exact Hr1|]);
      try (left; reflexivity);
      right; eexists; repeat split; first [eassumption | reflexivity].
  - intros [= <- <-]. auto.
Qed.

(** ** Refusals and the stock write *)

Lemma addItemToCart_refuses
    (w : Storage) (db : DB) (userId recordId : N) (amount : Z)
    (userEmail : string) (record : IRecord) :
  records db !! recordId = Some record ->
  rec_stock record < amount ->
  addItemToCart w userId recordId amount userEmail db = (db, Throw NotEnoughStock).
Proof.
  intros Hrec Hlt.
  unfold addItemToCart, bind, findRecordById, gets. rewrite Hrec.
  destruct (Z.ltb_spec (rec_stock record) amount) as [_|Hge]; [reflexivity | lia].
Qed.

Lemma updateStock_refuses
    (w : Storage) (db : DB) (id : N) (amount : Z) (record : IRecord) :
  records db !! id = Some record ->
  amount < 0 -> rec_stock record < - amount ->
  updateStock w id amount db = (db, Throw CannotDecreaseStock).
Proof.
  intros Hrec Hneg Hbig.
  unfold updateStock, bind, gets, throw. rewrite Hrec. simpl.
  destruct (Z.ltb_spec amount 0) as [_|?]; [|lia].
  destruct (Z.gtb_spec (Z.abs amount) (rec_stock record)) as [_|?]; [reflexivity|lia].
Qed.

Lemma updateStock_applies
    (w : Storage) (db : DB) (id : N) (amount : Z) (record : IRecord) :
  records db !! id = Some record ->
  ~ (amount < 0 /\ rec_stock record < - amount) ->
  w Records = true ->
  updateStock w id amount db
  = (setRecords (fun m => <[id := withLegacyStock None
                                   (withStock (rec_stock record + amount) record)]> m) db,
     Ok (rec_stock record + amount)).
Proof.
  intros Hrec Hok Hw.
  unfold updateStock, bind, gets, updateOneStock, write, modify, ret, throw.
  rewrite Hrec. simpl. rewrite Hw.
  assert ((amount <? 0) && (Z.abs amount >? rec_stock record) = false) as ->.
  { destruct (Z.ltb_spec amount 0); simpl; [|reflexivity].
    destruct (Z.gtb_spec (Z.abs amount) (rec_stock record)); [|reflexivity]. lia. }
  unfold setRecords. simpl. rewrite Hrec. reflexivity.
Qed.

(** ** C1: the stock never goes negative *)

Lemma validCart_line (c : ICart) (i : nat) (line : ICartItem) :
  validCart c = true -> cart_items c !! i = Some line -> 1 <= item_amount line.
Proof.
  unfold validCart. rewrite forallb_forall. intros Hall Hi.
  assert (In line (cart_items c)) as Hin.
  { apply list_elem_of_In. eapply list_elem_of_lookup_2. exact Hi. }
  specialize (Hall _ Hin). unfold validItem in Hall. lia.
Qed.

Lemma cartsValid_written (db db' : DB) :
  cartsValid db ->
  (carts db' = carts db \/
   exists u c, validCart c = true /\ carts db' = <[u := c]> (carts db)) ->
  cartsValid db'.
Proof.
  unfold cartsValid. intros Hv [->|(u & c & Hc & ->)]; [exact Hv|].
  apply map_Forall_insert_2; assumption.
Qed.

Lemma stockNonNegative_written (db db' : DB) (id : N) (r : IRecord) :
  stockNonNegative db -> 0 <= rec_stock r ->
  records db' = <[id := r]> (records db) ->
  stockNonNegative db'.
Proof.
  unfold stockNonNegative. intros Hs Hr ->. apply map_Forall_insert_2; assumption.
Qed.

Lemma stockNonNegative_same_stock (db db' : DB) :
  stockNonNegative db ->
  (forall k, rec_stock <$> records db' !! k = rec_stock <$> records db !! k) ->
  stockNonNegative db'.
Proof.
  unfold stockNonNegative. intros Hs Hsame k r' Hk.
  specialize (Hsame k). rewrite Hk in Hsame. simpl in Hsame.
  destruct (records db !! k) as [r|] eqn:Hr; simpl in Hsame; [|discriminate].
  injection Hsame as ->. exact (Hs _ _ Hr).
Qed.

Lemma updateStock_keeps_invariant (w : Storage) (id : N) (amount : Z) (db : DB) :
  stockNonNegative db -> cartsValid db ->
  stockNonNegative (fst (updateStock w id amount db)) /\
  cartsValid (fst (updateStock w id amount db)).
Proof.
  intros Hs Hc. unfold updateStock. unfold_M.
  destruct (records db !! id) as [r|] eqn:Hr; simpl; [|auto].
  pose proof (Hs _ _ Hr) as Hr0; simpl in Hr0.
  destruct (Z.ltb_spec amount 0); destruct (Z.gtb_spec (Z.abs amount) (rec_stock r));
    simpl; auto; destruct (w Records); simpl; auto;
    unfold stockNonNegative, cartsValid, setRecords in *; simpl; rewrite Hr;
    (split; [|exact Hc]); apply map_Forall_insert_2; auto; simpl; lia.
Qed.

Lemma exec_keeps_invariant (w : Storage) (c : call) (db : DB) :
  quantityCall c -> stockNonNegative db -> cartsValid db ->
  stockNonNegative (exec w c db) /\ cartsValid (exec w c db).
Proof.
  intros Hq Hs Hc. destruct c as [id amount|u p n e|e p n|u p|u]; simpl in *.
  - apply updateStock_keeps_invariant; assumption.
  - destruct (addItemToCart_effect w u p n e db) as (_ & _ & Hr & Hcart). split.
    + destruct Hr as [Hr|(r & Hlk & Hle & Hr)].
      * unfold stockNonNegative. rewrite Hr. exact Hs.
      * eapply stockNonNegative_written; [exact Hs| |exact Hr]. simpl. lia.
    + eapply cartsValid_written; [exact Hc|].
      destruct Hcart as [?|(c & ? & _ & ?)]; [left|right]; eauto.
  - destruct (removeItemFromCartByEmail_effect w e p n db) as (_ & _ & Hr & Hcart). split.
    + destruct Hr as [Hr|(r & Hlk & Hr)].
      * unfold stockNonNegative. rewrite Hr. exact Hs.
      * eapply stockNonNegative_written; [exact Hs| |exact Hr]. simpl.
        pose proof (Hs _ _ Hlk) as H0. simpl in H0. lia.
    + eapply cartsValid_written; [exact Hc|].
      destruct Hcart as [?|(u & c & ? & _ & ?)]; [left|right]; eauto.
  - destruct (removeItemFromCart_effect w u p db) as (_ & _ & Hr & Hcart). split.
    + destruct Hr as [Hr|(r & cart & i & line & Hlk & Hcl & Hli & Hr)].
      * unfold stockNonNegative. rewrite Hr. exact Hs.
      * eapply stockNonNegative_written; [exact Hs| |exact Hr]. simpl.
        pose proof (Hs _ _ Hlk) as H0. simpl in H0.
        pose proof (validCart_line cart i line (Hc _ _ Hcl) Hli). lia.
    + eapply cartsValid_written; [exact Hc|].
      destruct Hcart as [?|(c & ? & _ & ?)]; [left|right]; eauto.
  - destruct (clearCart_effect w u db) as (_ & Hr & Hcart). split.
    + eapply stockNonNegative_same_stock; [exact Hs|exact Hr].
    + eapply cartsValid_written; [exact Hc|].
      destruct Hcart as [?|(c & ? & _ & _ & ?)]; [left|right]; eauto.
Qed.

Lemma run_keeps_invariant (cs : list (Storage * call)) (db : DB) :
  Forall (fun wc => quantityCall (snd wc)) cs ->
  stockNonNegative db -> cartsValid db ->
  stockNonNegative (run cs db) /\ cartsValid (run cs db).
Proof.
  revert db. induction cs as [|[w c] cs IH]; intros db Hq Hs Hc; simpl; [auto|].
  apply Forall_cons_1 in Hq as [Hq Hqs]. simpl in Hq.
  destruct (exec_keeps_invariant w c db Hq Hs Hc) as [Hs' Hc'].
  apply IH; assumption.
Qed.

Lemma shop_stockNonNegative : stockNonNegative shop.
Proof.
  unfold stockNonNegative. simpl. apply map_Forall_singleton. simpl. lia.
Qed.

Lemma shop_cartsValid : cartsValid shop.
Proof. unfold cartsValid. simpl. apply map_Forall_empty. Qed.

Lemma shopWithCart_invariant : stockNonNegative shopWithCart /\ cartsValid shopWithCart.
Proof.
  apply (run_keeps_invariant [(allWrites, AddItem 1 7 2 "alice@example.com")] shop).
  - repeat constructor.
  - exact shop_stockNonNegative.
  - exact shop_cartsValid.
Qed.

(** C1, counterexample. Alice holds two copies and the stock is 3.
    [removeItemFromCartByEmail] called with the amount -9 passes its only
    check (2 < -9 is false), adds -9 to the stock and saves it: the stock
    is -6. The service has no guard of its own against this decrement; the
    carts controller turns the amount down before the service is called. *)
Lemma removeItemFromCartByEmail_negative_amount :
  stockNonNegative shopWithCart /\ cartsValid shopWithCart /\
  isOk (snd (removeItemFromCartByEmail allWrites "alice@example.com" 7 (-9) shopWithCart))
  = true /\
  rec_stock <$>
    records (run [(allWrites, RemoveItemByEmail "alice@example.com" 7 (-9))] shopWithCart)
    !! 7%N
  = Some (-6) /\
  ~ stockNonNegative
      (run [(allWrites, RemoveItemByEmail "alice@example.com" 7 (-9))] shopWithCart).
Proof.
  split; [apply shopWithCart_invariant|]. split; [apply shopWithCart_invariant|].
  split; [vm_compute; reflexivity|].
  split; [vm_compute; reflexivity|].
  intros Hs.
  assert (rec_stock <$>
            records (run [(allWrites, RemoveItemByEmail "alice@example.com" 7 (-9))]
                       shopWithCart) !! 7%N = Some (-6)) as H by (vm_compute; reflexivity).
  destruct (records (run [(allWrites, RemoveItemByEmail "alice@example.com" 7 (-9))]
                       shopWithCart) !! 7%N) as [r|] eqn:Hr; [|discriminate H].
  specialize (Hs _ _ Hr). simpl in Hs, H. injection H as H. lia.
Qed.

(** C1, as the code has it. The stock stays at least zero along the
    sequences in which no removal by email asks for a negative amount
    (hypothesis [quantityCall] on every call; the carts controller lets
    only positive amounts through). From a database whose stocks are at
    least zero and whose carts are valid, every such sequence of stock
    changes ([updateStock] with a signed amount, [addItemToCart], both
    removals, and [clearCart]), whatever the storage does to each call,
    leaves every stock at least zero; and in the state reached, a decrement
    larger than the stock is refused on the spot: [updateStock] with the
    negated amount and [addItemToCart] both throw and leave the database as
    it is. *)
Theorem stock_never_negative (cs : list (Storage * call)) (db : DB) :
  stockNonNegative db ->
  cartsValid db ->
  Forall (fun wc => quantityCall (snd wc)) cs ->
  stockNonNegative (run cs db) /\
  forall (w : Storage) (id : N) (n : Z) (r : IRecord),
    records (run cs db) !! id = Some r ->
    rec_stock r < n ->
    updateStock w id (- n) (run cs db) = (run cs db, Throw CannotDecreaseStock) /\
    forall (u : N) (e : string),
      addItemToCart w u id n e (run cs db) = (run cs db, Throw NotEnoughStock).
Proof.
  intros Hs Hc Hq.
  destruct (run_keeps_invariant cs db Hq Hs Hc) as [Hs' _].
  split; [exact Hs'|].
  intros w id n r Hr Hlt. pose proof (Hs' _ _ Hr) as H0. simpl in H0. split.
  - apply (updateStock_refuses w (run cs db) id (- n) r Hr); lia.
  - intros u e. eapply addItemToCart_refuses; eassumption.
Qed.

Lemma stock_never_negative_witness :
  stockNonNegative (run busyDay shop) /\
  forall (w : Storage) (id : N) (n : Z) (r : IRecord),
    records (run busyDay shop) !! id = Some r ->
    rec_stock r < n ->
    updateStock w id (- n) (run busyDay shop)
    = (run busyDay shop, Throw CannotDecreaseStock) /\
    forall (u : N) (e : string),
      addItemToCart w u id n e (run busyDay shop) = (run busyDay shop, Throw NotEnoughStock).
Proof.
  apply (stock_never_negative busyDay shop).
  - exact shop_stockNonNegative.
  - exact shop_cartsValid.
  - unfold busyDay. repeat constructor; simpl; lia.
Defined.

(** The scenario of the specification: stock 5, an add of 3 leaves 2, a
    second add of 3 is refused and leaves 2, an add of 2 leaves 0. *)
Example three_adds :
  let db1 := fst (addItemToCart allWrites 1 7 3 "alice@example.com" shop) in
  let db2 := fst (addItemToCart allWrites 2 7 3 "bob@example.com" db1) in
  let db3 := fst (addItemToCart allWrites 2 7 2 "bob@example.com" db2) in
  rec_stock <$> records db1 !! 7%N = Some 2 /\
  snd (addItemToCart allWrites 2 7 3 "bob@example.com" db1) = Throw NotEnoughStock /\
  rec_stock <$> records db2 !! 7%N = Some 2 /\
  rec_stock <$> records db3 !! 7%N = Some 0.
Proof. vm_compute. repeat split. Qed.


(** ** C2: the total of a cart *)

Lemma orZero_eq (q : Q) : (orZero q == q)%Q.
Proof.
  unfold orZero. destruct (Qeq_bool q 0) eqn:H; [|reflexivity].
  apply Qeq_bool_eq in H. symmetry. exact H.
Qed.

Lemma orZeroZ_eq (z : Z) : orZeroZ z = z.
Proof. unfold orZeroZ. destruct (Z.eqb_spec z 0); congruence. Qed.

(** *** Numbers that the doubles hold exactly *)

Lemma binary64_comp (x y : Q) : (x == y)%Q -> binary64 x = binary64 y.
Proof. intros H. unfold binary64. rewrite (Qred_complete _ _ H). reflexivity. Qed.

Lemma Qred_inject_Z (z : Z) : Qred (inject_Z z) = inject_Z z.
Proof.
  unfold Qred, inject_Z.
  pose proof (Z.ggcd_gcd z 1) as Hg. pose proof (Z.ggcd_correct_divisors z 1) as Hd.
  destruct (Z.ggcd z 1) as [g [aa bb]]. simpl in Hg. rewrite Z.gcd_1_r in Hg. subst g.
  destruct Hd as [-> Hb]. assert (bb = 1) as -> by lia.
  rewrite Z.mul_1_l. reflexivity.
Qed.

(** An integer below 2^53 in absolute value is a double. *)
Lemma binary64_integer (z : Z) : Z.abs z < 2 ^ 53 -> binary64 (inject_Z z) = inject_Z z.
Proof.
  intros Hz. unfold binary64. rewrite Qred_inject_Z. simpl Qnum. simpl Qden.
  destruct (Z.eqb_spec (Z.abs z) 0) as [H0|H0].
  - assert (z = 0) as -> by lia. reflexivity.
  - assert (0 < Z.abs z) as Hpos by lia.
    assert (floorLog2 (Z.abs z) 1 = Z.log2 (Z.abs z)) as ->.
    { unfold floorLog2. change (Z.log2 1) with 0. rewrite Z.sub_0_r.
      pose proof (Z.log2_nonneg (Z.abs z)) as Hl.
      rewrite (Z.max_l 0 (- _)) by lia. rewrite (Z.max_r 0 (Z.log2 _)) by lia.
      destruct (Z.log2_spec (Z.abs z) Hpos) as [Hlo _].
      destruct (Z.ltb_spec (Z.abs z * 2 ^ 0) (1 * 2 ^ Z.log2 (Z.abs z))); [lia|reflexivity]. }
    assert (Z.log2 (Z.abs z) < 53) as Hlog by (apply Z.log2_lt_pow2; lia).
    pose proof (Z.log2_nonneg (Z.abs z)) as Hl.
    set (e := Z.log2 (Z.abs z) - 52).
    rewrite (Z.max_l e (-1074)) by lia.
    rewrite (Z.max_r 0 (- e)) by lia. rewrite (Z.max_l 0 e) by lia.
    assert (roundHalfEven (Z.abs z * 2 ^ (- e)) (1 * 2 ^ 0) = Z.abs z * 2 ^ (- e)) as ->.
    { unfold roundHalfEven. change (1 * 2 ^ 0) with 1.
      rewrite Z.mod_1_r, Z.div_1_r. reflexivity. }
    transitivity (Qred (inject_Z z)); [apply Qred_complete|apply Qred_inject_Z].
    assert (0 < 2 ^ (- e)) as Hp by (apply Z.pow_pos_nonneg; lia).
    destruct (Z.leb_spec 0 e) as [He|He].
    + assert (e = 0) as -> by lia. simpl. unfold Qeq. simpl.
      destruct z; simpl; lia.
    + unfold Qeq. simpl. rewrite Z2Pos.id by exact Hp.
      replace (Z.sgn z * (Z.abs z * 2 ^ (- e)) * 1) with (Z.sgn z * Z.abs z * 2 ^ (- e))
        by ring.
      f_equal. destruct z; simpl; lia.
Qed.

(** [binary64] and the three operations give what the primitive floats
    give: on 0.1, on 0.1 + 0.1 + 0.1 and 3 * 0.1, on 5 * 0.251, on
    0.125 * 100 and on 13 / 100. *)
Example binary64_kernel_doubles :
  rationalOf (doubleOf 1 10) = Some (binary64 (1 # 10)) /\
  rationalOf (PrimFloat.add (PrimFloat.add (doubleOf 1 10) (doubleOf 1 10)) (doubleOf 1 10))
  = Some (fadd (fadd (binary64 (1 # 10)) (binary64 (1 # 10))) (binary64 (1 # 10))) /\
  rationalOf (PrimFloat.mul (doubleOf 3 1) (doubleOf 1 10))
  = Some (fmul (inject_Z 3) (binary64 (1 # 10))) /\
  rationalOf (PrimFloat.mul (doubleOf 5 1) (doubleOf 251 1000))
  = Some (fmul (inject_Z 5) (binary64 (251 # 1000))) /\
  rationalOf (PrimFloat.mul (doubleOf 1 8) (doubleOf 100 1))
  = Some (fmul (1 # 8) (inject_Z 100)) /\
  rationalOf (PrimFloat.div (doubleOf 13 1) (doubleOf 100 1))
  = Some (fdiv (inject_Z 13) (inject_Z 100)).
Proof. vm_compute. repeat split. Qed.

Lemma whole_price (q : Q) : Qden q = 1%positive -> q = inject_Z (Qnum q).
Proof. destruct q as [n d]. simpl. intros ->. reflexivity. Qed.

Lemma fmul_whole (a p : Z) :
  Z.abs (a * p) < 2 ^ 53 -> fmul (inject_Z a) (inject_Z p) = inject_Z (a * p).
Proof.
  intros H. unfold fmul.
  rewrite (binary64_comp _ (inject_Z (a * p))) by (rewrite inject_Z_mult; reflexivity).
  apply binary64_integer. exact H.
Qed.

Lemma fadd_whole (a b : Z) :
  Z.abs (a + b) < 2 ^ 53 -> fadd (inject_Z a) (inject_Z b) = inject_Z (a + b).
Proof.
  intros H. unfold fadd.
  rewrite (binary64_comp _ (inject_Z (a + b))) by (rewrite inject_Z_plus; reflexivity).
  apply binary64_integer. exact H.
Qed.

Lemma absSum_nonneg (items : list ICartItem) : 0 <= absSum items.
Proof. induction items as [|item rest IH]; simpl; lia. Qed.

Lemma wholeSum_bound (items : list ICartItem) : Z.abs (wholeSum items) <= absSum items.
Proof. induction items as [|item rest IH]; simpl; lia. Qed.

Lemma lineSum_whole (items : list ICartItem) :
  wholePrices items -> (lineSum items == inject_Z (wholeSum items))%Q.
Proof.
  induction 1 as [|item rest Hp _ IH]; simpl; [reflexivity|].
  rewrite IH, (whole_price _ Hp), inject_Z_plus, inject_Z_mult. reflexivity.
Qed.

Lemma sumLines_from (items : list ICartItem) (acc : Z) :
  wholePrices items ->
  Z.abs acc + absSum items < 2 ^ 53 ->
  fold_left (fun acc item => fadd acc (fmul (inject_Z (item_amount item)) (item_price item)))
            items (inject_Z acc)
  = inject_Z (acc + wholeSum items).
Proof.
  intros Hw. revert acc. induction Hw as [|item rest Hp _ IH]; intros acc Hb; simpl in *.
  - rewrite Z.add_0_r. reflexivity.
  - pose proof (absSum_nonneg rest) as Hr.
    rewrite (whole_price _ Hp) at 1. rewrite fmul_whole by lia.
    rewrite fadd_whole by lia. rewrite IH by lia. f_equal. lia.
Qed.

Lemma sumLines_whole (items : list ICartItem) :
  wholePrices items -> absSum items < 2 ^ 53 ->
  sumLines items = inject_Z (wholeSum items).
Proof.
  intros Hw Hb. unfold sumLines. change 0%Q with (inject_Z 0).
  rewrite sumLines_from by (simpl; assumption). reflexivity.
Qed.

Lemma reduceTotal_from (items : list ICartItem) (acc : Z) :
  wholePrices items ->
  Z.abs acc + absSum items < 2 ^ 53 ->
  fold_left (fun total item =>
               fadd total (fmul (inject_Z (orZeroZ (item_amount item)))
                                (orZero (item_price item))))
            items (inject_Z acc)
  = inject_Z (acc + wholeSum items).
Proof.
  intros Hw. revert acc. induction Hw as [|item rest Hp _ IH]; intros acc Hb; simpl in *.
  - rewrite Z.add_0_r. reflexivity.
  - pose proof (absSum_nonneg rest) as Hr.
    assert (fmul (inject_Z (orZeroZ (item_amount item))) (orZero (item_price item))
            = inject_Z (item_amount item * Qnum (item_price item))) as ->.
    { rewrite orZeroZ_eq. rewrite <- fmul_whole by lia. unfold fmul.
      apply binary64_comp. rewrite orZero_eq. rewrite (whole_price _ Hp) at 1.
      reflexivity. }
    rewrite fadd_whole by lia. rewrite IH by lia. f_equal. lia.
Qed.

Lemma reduceTotal_whole (items : list ICartItem) :
  wholePrices items -> absSum items < 2 ^ 53 ->
  reduceTotal items = inject_Z (wholeSum items).
Proof.
  intros Hw Hb. unfold reduceTotal. change 0%Q with (inject_Z 0).
  rewrite reduceTotal_from by (simpl; assumption). reflexivity.
Qed.

Lemma mathRound_whole (k : Z) : mathRound (inject_Z k) = k.
Proof.
  unfold mathRound.
  assert (inject_Z k + (1 # 2) == (2 * k + 1) # 2)%Q as ->.
  { unfold Qeq, Qplus, inject_Z. simpl. lia. }
  unfold Qfloor. symmetry. apply (Z.div_unique_pos (2 * k + 1) 2 k 1); lia.
Qed.

(** A whole total is its own rounding to two decimals. *)
Lemma roundCents_whole (k : Z) :
  Z.abs (100 * k) < 2 ^ 53 -> roundCents (inject_Z k) = inject_Z k.
Proof.
  intros Hb. unfold roundCents.
  change 100%Q with (inject_Z 100). rewrite fmul_whole by (rewrite Z.mul_comm; exact Hb).
  rewrite mathRound_whole. unfold fdiv.
  rewrite (binary64_comp _ (inject_Z k)).
  - apply binary64_integer. lia.
  - rewrite inject_Z_mult. field.
Qed.

Lemma totals_whole (items : list ICartItem) :
  wholePrices items -> 100 * absSum items < 2 ^ 53 ->
  (sumLines items == lineSum items)%Q /\
  (roundCents (reduceTotal items) == lineSum items)%Q.
Proof.
  intros Hw Hb.
  pose proof (absSum_nonneg items) as H0. pose proof (wholeSum_bound items) as H1.
  rewrite (lineSum_whole _ Hw).
  rewrite sumLines_whole, reduceTotal_whole, roundCents_whole by (assumption || lia).
  split; reflexivity.
Qed.

(** *** What the calls store *)

Lemma updateStock_carts (w : Storage) (id : N) (amount : Z) (db : DB) :
  carts (fst (updateStock w id amount db)) = carts db.
Proof.
  unfold updateStock. unfold_M. simpl. repeat step; reflexivity.
Qed.

Lemma written_lookup (m m' : gmap N ICart) (P : ICart -> Prop) (u : N) :
  (m' = m \/ exists u' c, P c /\ m' = <[u' := c]> m) ->
  m' !! u = m !! u \/ exists cart, m' !! u = Some cart /\ P cart.
Proof.
  intros [->|(u' & c & Hc & ->)]; [left; reflexivity|].
  destruct (decide (u' = u)) as [->|Hne].
  - right. exists c. split; [apply lookup_insert_eq|exact Hc].
  - left. apply lookup_insert_ne. exact Hne.
Qed.

Lemma exec_recomputes (w : Storage) (c : call) (db : DB) (u : N) :
  carts (exec w c db) !! u = carts db !! u \/
  exists cart, carts (exec w c db) !! u = Some cart /\ recomputed c cart.
Proof.
  apply written_lookup.
  destruct c as [id amount|u0 p n e|e p n|u0 p|u0]; simpl.
  - left. apply updateStock_carts.
  - destruct (addItemToCart_effect w u0 p n e db) as (_ & _ & _ & [H|(c & _ & Ht & H)]);
      [left; exact H|right].
    exists u0, c. split; [exact Ht|exact H].
  - destruct (removeItemFromCartByEmail_effect w e p n db)
      as (_ & _ & _ & [H|(u1 & c & _ & Ht & H)]); [left; exact H|right].
    exists u1, c. split; [exact Ht|exact H].
  - destruct (removeItemFromCart_effect w u0 p db) as (_ & _ & _ & [H|(c & _ & Ht & H)]);
      [left; exact H|right].
    exists u0, c. split; [exact Ht|exact H].
  - destruct (clearCart_effect w u0 db) as (_ & _ & [H|(c & _ & Ht & _ & H)]);
      [left; exact H|right].
    exists u0, c. split; [exact Ht|exact H].
Qed.

Lemma recomputed_consistent (c : call) (cart : ICart) :
  recomputed c cart -> totalConsistent cart.
Proof. unfold totalConsistent. destruct c; simpl; auto. Qed.

Lemma run_recomputes (cs : list (Storage * call)) (db : DB) (u : N) (cart : ICart) :
  carts (run cs db) !! u = Some cart ->
  carts db !! u = Some cart \/ totalConsistent cart.
Proof.
  revert db. induction cs as [|[w c] cs IH]; intros db; simpl; [auto|].
  intros H. destruct (IH _ H) as [Hsame|Hc]; [|right; exact Hc].
  destruct (exec_recomputes w c db u) as [Heq|(cart' & Hc' & Hre)].
  - left. rewrite <- Heq. exact Hsame.
  - right. rewrite Hc' in Hsame. injection Hsame as <-.
    eapply recomputed_consistent. exact Hre.
Qed.

(** C2, counterexample. One copy of a record priced 0.125 is added to a
    new cart: the line sum is 0.125, the stored total is
    Math.round(12.5) / 100 = 0.13. *)
Lemma addItemToCart_total_rounded :
  match carts (exec allWrites (AddItem 1 8 1 "alice@example.com") bargainShop) !! 1%N with
  | Some cart => ~ (cart_totalPrice cart == lineSum (cart_items cart))%Q
  | None => False
  end.
Proof. vm_compute. intros H. discriminate H. Qed.

(** The stored total is the double written 0.13. *)
Example eighth_priced_total :
  cart_totalPrice <$>
    carts (exec allWrites (AddItem 1 8 1 "alice@example.com") bargainShop) !! 1%N
  = Some (binary64 (13 # 100)).
Proof. vm_compute. reflexivity. Qed.

(** Three copies at 0.1: [recalculateTotal] stores 0.30000000000000004,
    which is not the double written 0.3. *)
Example three_tenths :
  let line := mkItem 7 3 (binary64 (1 # 10)) (mkDetails "Kind of Blue" "") in
  sumLines [line] = binary64 (30000000000000004 # 100000000000000000) /\
  sumLines [line] <> binary64 (3 # 10) /\
  ~ (sumLines [line] == lineSum [line])%Q.
Proof.
  vm_compute. split; [reflexivity|]. split; intros H; discriminate H.
Qed.

(** Five copies at 0.251: the product is the double below 1.255, and the
    total [addItemToCart] stores is 1.25. *)
Example five_at_0251 :
  let line := mkItem 7 5 (binary64 (251 # 1000)) (mkDetails "Kind of Blue" "") in
  roundCents (reduceTotal [line]) = binary64 (125 # 100) /\
  (reduceTotal [line] < 1255 # 1000)%Q.
Proof. vm_compute. split; reflexivity. Qed.

(** Alice's cart, two copies at 10: the stored total is the sum. *)
Example whole_priced_total :
  wholePrices (cart_items aliceCart) /\
  100 * absSum (cart_items aliceCart) < 2 ^ 53 /\
  cart_totalPrice aliceCart = roundCents (reduceTotal (cart_items aliceCart)) /\
  (cart_totalPrice aliceCart == lineSum (cart_items aliceCart))%Q.
Proof.
  split; [repeat constructor|]. split; [vm_compute; reflexivity|].
  split; vm_compute; reflexivity.
Qed.

(** C2, as the code has it. Whatever the storage does, a call either
    leaves a user's cart as it was or writes it with a total computed anew
    from all the lines the cart then holds, in the arithmetic of (finite)
    doubles:
    after both removals and after [clearCart] the sum [recalculateTotal]
    folds from the left over amount times price, after [addItemToCart] the
    like sum rounded to two decimals. So after any sequence of calls a
    cart is the one the sequence started with, or its total is one of
    these two functions of its lines. Either is the exact sum of amount
    times price when every price is a whole number and a hundred times
    the products stays below 2^53; with other prices the stored total can
    differ from the sum, by the rounding to cents or by that of the
    doubles. *)
Theorem totalPrice_recomputed :
  (forall (w : Storage) (c : call) (db : DB) (u : N),
     carts (exec w c db) !! u = carts db !! u \/
     exists cart, carts (exec w c db) !! u = Some cart /\ recomputed c cart) /\
  (forall (cs : list (Storage * call)) (db : DB) (u : N) (cart : ICart),
     carts (run cs db) !! u = Some cart ->
     carts db !! u = Some cart \/ totalConsistent cart) /\
  (forall (items : list ICartItem),
     wholePrices items -> 100 * absSum items < 2 ^ 53 ->
     (sumLines items == lineSum items)%Q /\
     (roundCents (reduceTotal items) == lineSum items)%Q).
Proof.
  split; [exact exec_recomputes|]. split; [exact run_recomputes|exact totals_whole].
Qed.

Lemma totalPrice_recomputed_witness :
  match carts (run busyDay shop) !! 1%N with
  | Some cart => totalConsistent cart
  | None => False
  end /\
  (sumLines (cart_items aliceCart) == lineSum (cart_items aliceCart))%Q /\
  (roundCents (reduceTotal (cart_items aliceCart)) == lineSum (cart_items aliceCart))%Q.
Proof.
  destruct totalPrice_recomputed as (_ & Hrun & Hwhole). split.
  - destruct (carts (run busyDay shop) !! 1%N) as [cart|] eqn:Hcart;
      [|vm_compute in Hcart; discriminate Hcart].
    destruct (Hrun busyDay shop 1%N cart Hcart) as [Hshop|Hc]; [|exact Hc].
    vm_compute in Hshop. discriminate Hshop.
  - apply Hwhole; [repeat constructor|vm_compute; reflexivity].
Defined.

(** ** C3: converting a cart into an order *)

Lemma mapM_populateItem (recs : gmap N IRecord) (items : list ICartItem) :
  Forall (fun line => is_Some (recs !! item_recordId line)) items ->
  exists populated,
    mapM (populateItem recs) items = Some populated /\
    map orderItemOf populated = map orderItemOfLine items /\
    length populated = length items.
Proof.
  induction 1 as [|line rest [r Hr] _ IH]; simpl.
  - exists []. repeat split.
  - destruct IH as (populated & Hm & Ho & Hl).
    destruct (populateItem recs line) as [p|] eqn:Hp;
      [|unfold populateItem in Hp; rewrite Hr in Hp; discriminate Hp].
    rewrite Hm. simpl.
    exists (p :: populated). split; [reflexivity|]. simpl. split; [|congruence].
    f_equal; [|exact Ho].
    unfold populateItem in Hp. rewrite Hr in Hp. injection Hp as <-. reflexivity.
Qed.

Lemma find_user_by_id (l : list IUser) (email : string) (user : IUser) :
  List.find (fun u => String.eqb (user_userEmail u) email) l = Some user ->
  user_userEmail user = email /\
  exists u', List.find (fun u => (user_id u =? user_id user)%N) l = Some u'.
Proof.
  intros H. apply find_some in H as [Hin Heq]. split; [now apply String.eqb_eq|].
  destruct (List.find (fun u => (user_id u =? user_id user)%N) l) as [u'|] eqn:Hf; [eauto|].
  apply (find_none _ _ Hf) in Hin. rewrite N.eqb_refl in Hin. discriminate.
Qed.

Lemma validOrder_of_cart (id userId : N) (userEmail paymentMethod : string)
    (items : list ICartItem) (total : Q) :
  forallb validItem items = true ->
  userEmail <> EmptyString -> paymentMethod <> EmptyString ->
  validOrder (mkOrder id userId userEmail (map orderItemOfLine items) total paymentMethod)
  = true.
Proof.
  intros Hv He Hp. unfold validOrder. simpl.
  assert (forallb (fun it => 1 <=? oi_amount it) (map orderItemOfLine items) = true) as ->.
  { induction items as [|line rest IH]; simpl in *; [reflexivity|].
    apply andb_prop in Hv as [Hl Hr]. unfold validItem in Hl. rewrite Hl. simpl.
    apply IH. exact Hr. }
  simpl.
  destruct (String.eqb_spec userEmail EmptyString); [contradiction|].
  destruct (String.eqb_spec paymentMethod EmptyString); [contradiction|].
  reflexivity.
Qed.

(** The cast of the user query on three emails of a route. *)
Example castEmail_examples :
  castEmail "ALICE@EXAMPLE.COM" = "alice@example.com"%string /\
  castEmail "  Alice@Example.com " = "alice@example.com"%string /\
  castEmail "alice@example.com" = "alice@example.com"%string.
Proof. repeat split. Qed.

Lemma castEmail_nonempty (email : string) :
  castEmail email <> EmptyString -> email <> EmptyString.
Proof. intros H ->. apply H. reflexivity. Qed.

(** C3. For a user found by the route's email (cast as the user schema
    casts it, and not empty then), with an enabled, valid,
    non-empty cart whose lines all point at existing records, a non-empty
    payment method and accepted order and cart writes, the controller
    answers 201 with an order whose total is the cart's total before the
    call and whose items copy the cart's lines (record, amount, captured
    price); the order is appended to the orders, no record is touched, and
    the cart ends empty with total zero. It does not end disabled:
    orderService.createOrder disables it, and the [clearCart] that the
    controller calls next finds no enabled cart and re-enables it. *)
Theorem createOrder_conversion
    (w : Storage) (db : DB) (email paymentMethod : string)
    (user : IUser) (cart : ICart) :
  castEmail email <> EmptyString ->
  paymentMethod <> EmptyString ->
  List.find (fun u => String.eqb (user_userEmail u) (castEmail email)) (users db) = Some user ->
  carts db !! user_id user = Some cart ->
  cart_enabled cart = true ->
  cart_items cart <> [] ->
  validCart cart = true ->
  Forall (fun line => is_Some (records db !! item_recordId line)) (cart_items cart) ->
  w Orders = true ->
  w Carts = true ->
  exists order,
    snd (createOrderController w email paymentMethod db) = Status201 order /\
    order_total order = cart_totalPrice cart /\
    order_items order = map orderItemOfLine (cart_items cart) /\
    order_userId order = user_id user /\
    orders (fst (createOrderController w email paymentMethod db)) = orders db ++ [order] /\
    records (fst (createOrderController w email paymentMethod db)) = records db /\
    carts (fst (createOrderController w email paymentMethod db)) !! user_id user
    = Some (mkCart (cart_id cart) (cart_userEmail cart) [] 0%Q true).
Proof.
  intros Hcast Hpm Hu Hc He Hne Hv Hrecs HwO HwC.
  pose proof (castEmail_nonempty _ Hcast) as Hemail.
  destruct (find_user_by_id _ _ _ Hu) as [Hmail [u' Hu']].
  destruct (mapM_populateItem _ _ Hrecs) as (populated & Hm & Hmap & Hlen).
  assert ((length populated =? 0)%nat = false) as Hlen0.
  { rewrite Hlen. destruct (cart_items cart); [contradiction|reflexivity]. }
  destruct (createOrderController w email paymentMethod db) as [db' resp] eqn:Hrun.
  simpl. revert Hrun.
  unfold createOrderController.
  destruct (String.eqb_spec email EmptyString) as [?|_]; [contradiction|].
  unfold createOrderBody, getCartByUserId, createOrder, clearCart, createCart,
    saveOrder, retireCartById, rethrowAs.
  unfold_M. simpl.
  rewrite Hu, Hc, He. simpl. rewrite Hm. simpl. rewrite Hlen0. simpl.
  rewrite Hmap, Hmail.
  rewrite (validOrder_of_cart _ _ _ _ _ _ Hv Hcast Hpm), HwO, HwC. simpl.
  unfold setCarts, setOrders. simpl.
  repeat (rewrite ?lookup_fmap, ?Hc, ?N.eqb_refl, ?Hu'; simpl).
  intros [= <- <-]. simpl.
  eexists. split; [reflexivity|]. simpl.
  do 5 (split; [reflexivity|]).
  apply lookup_insert_eq.
Qed.

Lemma shopWithCart_lines_exist :
  Forall (fun line => is_Some (records shopWithCart !! item_recordId line))
         (cart_items aliceCart).
Proof. repeat constructor. vm_compute. eauto. Qed.

Lemma createOrder_conversion_witness :
  exists order,
    snd (createOrderController allWrites "alice@example.com" "Credit Card" shopWithCart)
    = Status201 order /\
    order_total order = cart_totalPrice aliceCart /\
    order_items order = map orderItemOfLine (cart_items aliceCart) /\
    order_userId order = user_id alice /\
    orders (fst (createOrderController allWrites "alice@example.com" "Credit Card"
                   shopWithCart))
    = orders shopWithCart ++ [order] /\
    records (fst (createOrderController allWrites "alice@example.com" "Credit Card"
                    shopWithCart))
    = records shopWithCart /\
    carts (fst (createOrderController allWrites "alice@example.com" "Credit Card"
                  shopWithCart)) !! user_id alice
    = Some (mkCart (cart_id aliceCart) (cart_userEmail aliceCart) [] 0%Q true).
Proof.
  apply (createOrder_conversion allWrites shopWithCart "alice@example.com" "Credit Card"
           alice aliceCart).
  - discriminate.
  - discriminate.
  - reflexivity.
  - vm_compute. reflexivity.
  - reflexivity.
  - discriminate.
  - reflexivity.
  - exact shopWithCart_lines_exist.
  - reflexivity.
  - reflexivity.
Defined.

(** The cart of two copies at 10.00 each: the order totals 20.00 and the
    stock stays at 3, but the cart is enabled again afterwards. *)
Example createOrder_cart_enabled_again :
  cart_enabled <$>
    carts (fst (createOrderController allWrites "alice@example.com" "Credit Card"
                  shopWithCart)) !! 1%N
  = Some true /\
  rec_stock <$>
    records (fst (createOrderController allWrites "alice@example.com" "Credit Card"
                    shopWithCart)) !! 7%N
  = Some 3.
Proof. vm_compute. split; reflexivity. Qed.

(** What orderService.createOrder alone leaves: the cart disabled. *)
Example createOrder_service_disables :
  cart_enabled <$>
    carts (fst (createOrder allWrites 1 "alice@example.com"
                  (mkPopulatedCart 100 (Some "alice@example.com"%string)
                     [mkPopulatedItem 7 2 (10 # 1)
                        (mkPopulatedDetails "Kind of Blue" None (10 # 1) 3)]
                     (20 # 1) true)
                  "Credit Card" shopWithCart)) !! 1%N
  = Some false.
Proof. vm_compute. reflexivity. Qed.

(** An empty cart is turned down with status 400 and no order is created. *)
Example createOrder_empty_cart :
  createOrderController allWrites "alice@example.com" "Credit Card" shopAfterReenable
  = (shopAfterReenable, Status400).
Proof. vm_compute. reflexivity. Qed.

(** ** C4: a cart that cannot be saved after the stock was taken *)

(** C4, counterexample. The stock is 5; the add of 3 decrements it to 2,
    the cart write rejects, the call throws, and the stock is still 2
    afterwards although no cart holds the three copies. *)
Lemma addItemToCart_leaks_stock :
  snd (addItemToCart cartsRejected 1 7 3 "alice@example.com" shop) = Throw StorageError /\
  carts (fst (addItemToCart cartsRejected 1 7 3 "alice@example.com" shop)) !! 1%N = None /\
  rec_stock <$> records shop !! 7%N = Some 5 /\
  rec_stock <$> records (fst (addItemToCart cartsRejected 1 7 3 "alice@example.com" shop)) !! 7%N
    <> rec_stock <$> records shop !! 7%N.
Proof.
  repeat split; try (vm_compute; reflexivity).
  vm_compute. discriminate.
Qed.

(** C4, as the code has it. [addItemToCart] has no compensating release:
    when the stock check passes, the record write is accepted and the call
    still throws, it is the save of the cart that failed (rejected by the
    storage or by the schema's validators); then no cart is changed and the
    record keeps the decremented stock. *)
Theorem addItemToCart_no_rollback
    (w : Storage) (db : DB) (userId recordId : N) (amount : Z)
    (userEmail : string) (record : IRecord) (e : error) :
  records db !! recordId = Some record ->
  amount <= rec_stock record ->
  w Records = true ->
  snd (addItemToCart w userId recordId amount userEmail db) = Throw e ->
  (e = StorageError \/ e = ValidationError) /\
  carts (fst (addItemToCart w userId recordId amount userEmail db)) = carts db /\
  records (fst (addItemToCart w userId recordId amount userEmail db)) !! recordId
  = Some (withStock (rec_stock record - amount) record).
Proof.
  intros Hrec Hle HwR.
  destruct (addItemToCart w userId recordId amount userEmail db) as [db' res] eqn:Hrun.
  simpl. intros ->. revert Hrun.
  unfold addItemToCart. unfold_M. simpl. rewrite Hrec.
  destruct (Z.ltb_spec (rec_stock record) amount) as [?|_]; [lia|].
  rewrite HwR. simpl.
  repeat step; intros [= <- <-]; unfold setRecords; simpl;
    (split; [auto|]); (split; [reflexivity|]); apply lookup_insert_eq.
Qed.

Lemma addItemToCart_no_rollback_witness :
  (StorageError = StorageError \/ StorageError = ValidationError) /\
  carts (fst (addItemToCart cartsRejected 1 7 3 "alice@example.com" shop)) = carts shop /\
  records (fst (addItemToCart cartsRejected 1 7 3 "alice@example.com" shop)) !! 7%N
  = Some (withStock (rec_stock vinyl - 3) vinyl).
Proof.
  apply (addItemToCart_no_rollback cartsRejected shop 1 7 3 "alice@example.com" vinyl
           StorageError).
  - reflexivity.
  - simpl. lia.
  - reflexivity.
  - reflexivity.
Defined.

(** A line of amount zero fails the validators after the record was saved. *)
Example addItemToCart_invalid_line :
  snd (addItemToCart allWrites 1 7 0 "alice@example.com" shop) = Throw ValidationError.
Proof. reflexivity. Qed.

(** ** C5: an add beyond the stock *)

(** C5. When the requested amount exceeds the record's current stock,
    [addItemToCart] throws "Not enough stock" and the database (every cart,
    with its items and total, and every record's stock) is exactly what it
    was before the call. *)
Theorem addItemToCart_not_enough_stock
    (w : Storage) (db : DB) (userId recordId : N) (amount : Z)
    (userEmail : string) (record : IRecord) :
  records db !! recordId = Some record ->
  rec_stock record < amount ->
  addItemToCart w userId recordId amount userEmail db = (db, Throw NotEnoughStock).
Proof. apply addItemToCart_refuses. Qed.

Lemma addItemToCart_not_enough_stock_witness :
  addItemToCart allWrites 2 7 6 "bob@example.com" shop = (shop, Throw NotEnoughStock).
Proof.
  apply (addItemToCart_not_enough_stock allWrites shop 2 7 6 "bob@example.com" vinyl).
  - reflexivity.
  - simpl. lia.
Defined.

(** ** C6: removing more than the line holds *)

(** C6. When the requested amount is strictly greater than the amount of
    the cart line for the record, [removeItemFromCartByEmail] throws
    "Cannot remove more items than are in the cart" and leaves the database
    (cart items, total and every stock) exactly as it was. *)
Theorem removeItemFromCartByEmail_excess
    (w : Storage) (db : DB) (email : string) (recordId : N) (amount : Z)
    (user : IUser) (cart : ICart) (i : nat) (line : ICartItem) :
  List.find (fun u => String.eqb (user_userEmail u) (castEmail email)) (users db) = Some user ->
  carts db !! user_id user = Some cart ->
  cart_enabled cart = true ->
  findIndex (isLineOf recordId) (cart_items cart) = Some i ->
  cart_items cart !! i = Some line ->
  item_amount line < amount ->
  removeItemFromCartByEmail w email recordId amount db = (db, Throw CannotRemoveMore).
Proof.
  intros Hu Hc He Hi Hl Hlt.
  unfold removeItemFromCartByEmail, bind, findUserByEmail, findCart, gets.
  rewrite Hu, Hc, He. simpl. rewrite Hi, Hl.
  destruct (Z.ltb_spec (item_amount line) amount) as [_|Hge]; [reflexivity | lia].
Qed.

Example shopWithCart_cart : carts shopWithCart !! 1%N = Some aliceCart.
Proof. vm_compute. reflexivity. Qed.

Example shopWithCart_stock : rec_stock <$> records shopWithCart !! 7%N = Some 3.
Proof. vm_compute. reflexivity. Qed.

Lemma removeItemFromCartByEmail_excess_witness :
  removeItemFromCartByEmail allWrites "alice@example.com" 7 3 shopWithCart
  = (shopWithCart, Throw CannotRemoveMore).
Proof.
  apply (removeItemFromCartByEmail_excess allWrites shopWithCart "alice@example.com"
           7 3 alice aliceCart 0 aliceLine).
  - reflexivity.
  - vm_compute. reflexivity.
  - reflexivity.
  - reflexivity.
  - reflexivity.
  - simpl. lia.
Defined.

(** ** C7: what [clearCart] gives back to the stock *)

(** C7. [clearCart] never changes the [stock] of any record, whatever the
    cart holds and whatever the storage does: the loop over the lines adds
    each amount to the capitalised [Stock] field, never to [stock], and the
    save of that sum is rejected. The specified increase of [stock] by the
    line amounts does not happen. *)
Theorem clearCart_leaves_stock (w : Storage) (userId : N) (db : DB) (id : N) :
  rec_stock <$> records (fst (clearCart w userId db)) !! id
  = rec_stock <$> records db !! id.
Proof.
  destruct (clearCart_effect w userId db) as (_ & Hsame & _). apply Hsame.
Qed.

(** Alice holds two copies and the record has stock 3. *)
Example clearCart_schema_record :
  snd (clearCart allWrites 1 shopWithCart) = Throw ValidationError /\
  rec_stock <$> records (fst (clearCart allWrites 1 shopWithCart)) !! 7%N = Some 3 /\
  carts (fst (clearCart allWrites 1 shopWithCart)) !! 1%N = Some aliceCart.
Proof. vm_compute. repeat split. Qed.

(** The same with a record that stores the capitalised field: the query
    leaves it out, the save is rejected, and record and cart stay as they
    were. *)
Example clearCart_legacy_record :
  clearCart allWrites 1 legacyShopWithCart = (legacyShopWithCart, Throw ValidationError).
Proof. vm_compute. reflexivity. Qed.

(** ** C8: the sign of the amount given to [updateStock] *)

(** C8, counterexample. With stock 5, [updateStock(id, -2)] resolves with
    [newStock = 3] and writes it: a negative amount is a decrement, not an
    invalid argument. *)
Lemma updateStock_negative_amount_accepted :
  ~ rejectsNonPositive allWrites 7 (-2) shop.
Proof.
  unfold rejectsNonPositive. intros H.
  destruct H as [[e He] _]; [lia|].
  vm_compute in He. discriminate He.
Qed.

Example updateStock_zero_resolves :
  snd (updateStock allWrites 7 0 shop) = Ok 5.
Proof. reflexivity. Qed.

Example updateStock_minus_two :
  snd (updateStock allWrites 7 (-2) shop) = Ok 3 /\
  rec_stock <$> records (fst (updateStock allWrites 7 (-2) shop)) !! 7%N = Some 3.
Proof. split; vm_compute; reflexivity. Qed.

(** C8, as the code has it. The amount is a signed change. A negative
    amount larger in magnitude than the current stock throws and writes
    nothing; every other amount (zero and the remaining negative ones
    included) resolves with [stock + amount] and stores it, provided the
    write is accepted. *)
Theorem updateStock_signed_amount
    (w : Storage) (db : DB) (id : N) (amount : Z) (record : IRecord) :
  records db !! id = Some record ->
  (amount < 0 /\ rec_stock record < - amount ->
     updateStock w id amount db = (db, Throw CannotDecreaseStock)) /\
  (~ (amount < 0 /\ rec_stock record < - amount) -> w Records = true ->
     snd (updateStock w id amount db) = Ok (rec_stock record + amount) /\
     records (fst (updateStock w id amount db)) !! id
     = Some (withLegacyStock None (withStock (rec_stock record + amount) record))).
Proof.
  intros Hrec. split.
  - intros [Hneg Hbig]. eapply updateStock_refuses; eassumption.
  - intros Hok Hw. rewrite (updateStock_applies w db id amount record Hrec Hok Hw).
    simpl. split; [reflexivity|]. apply lookup_insert_eq.
Qed.

Lemma updateStock_signed_amount_witness :
  (-6 < 0 /\ rec_stock vinyl < - -6 ->
     updateStock allWrites 7 (-6) shop = (shop, Throw CannotDecreaseStock)) /\
  (~ (-6 < 0 /\ rec_stock vinyl < - -6) -> allWrites Records = true ->
     snd (updateStock allWrites 7 (-6) shop) = Ok (rec_stock vinyl + -6) /\
     records (fst (updateStock allWrites 7 (-6) shop)) !! 7%N
     = Some (withLegacyStock None (withStock (rec_stock vinyl + -6) vinyl))).
Proof.
  apply (updateStock_signed_amount allWrites shop 7 (-6) vinyl).
  reflexivity.
Defined.

(** ** C9: adding and then removing the same amount *)

Lemma getCartByUserId_state (userId : N) (db : DB) :
  fst (getCartByUserId userId db) = db.
Proof.
  unfold getCartByUserId. unfold_M. simpl. repeat step; reflexivity.
Qed.

Lemma addItemToCart_appends
    (w : Storage) (db : DB) (userId recordId : N) (amount : Z)
    (userEmail : string) (record : IRecord) :
  records db !! recordId = Some record ->
  1 <= amount -> amount <= rec_stock record ->
  findIndex (isLineOf recordId) (activeItems db userId) = None ->
  forallb validItem (activeItems db userId) = true ->
  w Records = true -> w Carts = true ->
  exists cart,
    users (fst (addItemToCart w userId recordId amount userEmail db)) = users db /\
    records (fst (addItemToCart w userId recordId amount userEmail db))
    = <[recordId := withStock (rec_stock record - amount) record]> (records db) /\
    carts (fst (addItemToCart w userId recordId amount userEmail db))
    = <[userId := cart]> (carts db) /\
    cart_enabled cart = true /\
    cart_items cart = activeItems db userId ++ [newLine recordId amount record].
Proof.
  intros Hrec Hpos Hle Hfresh Hvalid HwR HwC.
  assert (forall items, forallb validItem items = true ->
            forallb validItem (items ++ [newLine recordId amount record]) = true) as Happ.
  { intros items Hi. rewrite forallb_app, Hi. simpl. unfold validItem. simpl.
    destruct (Z.leb_spec 1 amount); [reflexivity|lia]. }
  unfold activeItems in *.
  unfold addItemToCart. unfold_M. simpl. rewrite Hrec.
  destruct (Z.ltb_spec (rec_stock record) amount) as [?|_]; [lia|].
  destruct (carts db !! userId) as [c|] eqn:Hc; simpl.
  - destruct (cart_enabled c) eqn:He; simpl.
    + rewrite Hfresh. simpl. rewrite HwR. simpl. unfold validCart. simpl.
      fold (newLine recordId amount record). rewrite (Happ _ Hvalid), HwC. simpl.
      eexists. repeat split; try reflexivity. exact He.
    + rewrite Hc, He. simpl. rewrite HwR. simpl. rewrite HwC. simpl.
      unfold validCart. simpl. unfold validItem. simpl.
      destruct (Z.leb_spec 1 amount); [|lia]. simpl.
      eexists. repeat split; reflexivity.
  - rewrite Hc. simpl. rewrite HwR. simpl. rewrite HwC. simpl.
    unfold validCart. simpl. unfold validItem. simpl.
    destruct (Z.leb_spec 1 amount); [|lia]. simpl.
    eexists. repeat split; reflexivity.
Qed.

Lemma removeItemFromCartByEmail_last_line
    (w : Storage) (db : DB) (email : string) (recordId : N) (amount : Z)
    (user : IUser) (cart : ICart) (items : list ICartItem) (line : ICartItem)
    (record : IRecord) :
  List.find (fun u => String.eqb (user_userEmail u) (castEmail email)) (users db) = Some user ->
  carts db !! user_id user = Some cart ->
  cart_enabled cart = true ->
  cart_items cart = items ++ [line] ->
  findIndex (isLineOf recordId) items = None ->
  item_recordId line = recordId ->
  item_amount line = amount ->
  forallb validItem items = true ->
  records db !! recordId = Some record ->
  w Records = true -> w Carts = true ->
  records (fst (removeItemFromCartByEmail w email recordId amount db)) !! recordId
  = Some (withStock (rec_stock record + amount) record) /\
  carts (fst (removeItemFromCartByEmail w email recordId amount db)) !! user_id user
  = Some (recalculateTotal (withItems items cart)).
Proof.
  intros Hu Hc He Hitems Hfresh Hid Ham Hvalid Hrec HwR HwC.
  assert (findIndex (isLineOf recordId) (cart_items cart) = Some (length items)) as Hidx.
  { rewrite Hitems. apply findIndex_app_fresh; [exact Hfresh|].
    unfold isLineOf. rewrite Hid. apply N.eqb_refl. }
  assert (cart_items cart !! length items = Some line) as Hline.
  { rewrite Hitems. apply list_lookup_middle. reflexivity. }
  destruct (removeItemFromCartByEmail w email recordId amount db) as [db' res] eqn:Hrun.
  simpl. revert Hrun.
  unfold removeItemFromCartByEmail, getCartByUserId. unfold_M. simpl.
  rewrite Hu, Hc, He. simpl. rewrite Hidx, Hline, Ham, Z.ltb_irrefl, Hrec, HwR. simpl.
  rewrite Z.eqb_refl, Hitems, delete_app_last.
  unfold validCart. simpl. rewrite Hvalid, HwC. simpl.
  repeat step; intros [= <- <-]; unfold setCarts, setRecords; simpl;
    split; apply lookup_insert_eq.
Qed.

Lemma withStock_back (s n : Z) (r : IRecord) :
  s = rec_stock r -> withStock (rec_stock (withStock (s - n) r) + n) (withStock (s - n) r) = r.
Proof. intros ->. destruct r; unfold withStock; simpl. f_equal. lia. Qed.

(** C9. A record with enough stock, an amount of at least one, a cart that
    has no line for the record yet, and accepted writes: after
    [addItemToCart] and then [removeItemFromCartByEmail] with the same
    amount, the record is stored exactly as before the add (so its stock is
    the one before the add), and the user's cart holds the lines it started
    from, with no line for the record. *)
Theorem add_then_remove_round_trip
    (w1 w2 : Storage) (db : DB) (recordId : N) (amount : Z)
    (userEmail email : string) (record : IRecord) (user : IUser) :
  records db !! recordId = Some record ->
  1 <= amount ->
  amount <= rec_stock record ->
  List.find (fun u => String.eqb (user_userEmail u) (castEmail email)) (users db) = Some user ->
  findIndex (isLineOf recordId) (activeItems db (user_id user)) = None ->
  forallb validItem (activeItems db (user_id user)) = true ->
  w1 Records = true -> w1 Carts = true ->
  w2 Records = true -> w2 Carts = true ->
  let db1 := fst (addItemToCart w1 (user_id user) recordId amount userEmail db) in
  let db2 := fst (removeItemFromCartByEmail w2 email recordId amount db1) in
  rec_stock <$> records db1 !! recordId = Some (rec_stock record - amount) /\
  records db2 !! recordId = Some record /\
  exists cart,
    carts db2 !! user_id user = Some cart /\
    cart_enabled cart = true /\
    cart_items cart = activeItems db (user_id user) /\
    findIndex (isLineOf recordId) (cart_items cart) = None.
Proof.
  intros Hrec Hpos Hle Hu Hfresh Hvalid Hw1R Hw1C Hw2R Hw2C db1 db2.
  destruct (addItemToCart_appends w1 db (user_id user) recordId amount userEmail record
              Hrec Hpos Hle Hfresh Hvalid Hw1R Hw1C)
    as (cart1 & Husers & Hrecs & Hcarts & Hen & Hitems).
  fold db1 in Husers, Hrecs, Hcarts.
  assert (records db1 !! recordId = Some (withStock (rec_stock record - amount) record))
    as Hrec1 by (rewrite Hrecs; apply lookup_insert_eq).
  assert (carts db1 !! user_id user = Some cart1)
    as Hcart1 by (rewrite Hcarts; apply lookup_insert_eq).
  rewrite <- Husers in Hu.
  destruct (removeItemFromCartByEmail_last_line w2 db1 email recordId amount user cart1
              (activeItems db (user_id user)) (newLine recordId amount record)
              (withStock (rec_stock record - amount) record)
              Hu Hcart1 Hen Hitems Hfresh eq_refl eq_refl Hvalid Hrec1 Hw2R Hw2C)
    as [Hrec2 Hcart2].
  fold db2 in Hrec2, Hcart2.
  split; [rewrite Hrec1; reflexivity|].
  split; [rewrite Hrec2; f_equal; apply withStock_back; reflexivity|].
  eexists. split; [exact Hcart2|]. simpl.
  split; [exact Hen|]. split; [reflexivity|exact Hfresh].
Qed.

Lemma add_then_remove_round_trip_witness :
  let db1 := fst (addItemToCart allWrites (user_id alice) 7 3 "alice@example.com" shop) in
  let db2 := fst (removeItemFromCartByEmail allWrites "alice@example.com" 7 3 db1) in
  rec_stock <$> records db1 !! 7%N = Some (rec_stock vinyl - 3) /\
  records db2 !! 7%N = Some vinyl /\
  exists cart,
    carts db2 !! user_id alice = Some cart /\
    cart_enabled cart = true /\
    cart_items cart = activeItems shop (user_id alice) /\
    findIndex (isLineOf 7) (cart_items cart) = None.
Proof.
  apply (add_then_remove_round_trip allWrites allWrites shop 7 3
           "alice@example.com" "alice@example.com" vinyl alice).
  - reflexivity.
  - lia.
  - simpl. lia.
  - reflexivity.
  - reflexivity.
  - reflexivity.
  - reflexivity.
  - reflexivity.
  - reflexivity.
  - reflexivity.
Defined.

(** The round trip on a cart that already holds another line. *)
Example round_trip_keeps_other_lines :
  let db0 := fst (addItemToCart allWrites 1 7 2 "alice@example.com" bargainShop) in
  let db1 := fst (addItemToCart allWrites 1 8 3 "alice@example.com" db0) in
  let db2 := fst (removeItemFromCartByEmail allWrites "alice@example.com" 8 3 db1) in
  rec_stock <$> records db1 !! 8%N = Some 2 /\
  rec_stock <$> records db2 !! 8%N = Some 5 /\
  cart_items <$> carts db2 !! 1%N = cart_items <$> carts db0 !! 1%N.
Proof. vm_compute. repeat split. Qed.

(** ** C10: clearing without an enabled cart *)

(** C10. For an existing user without an enabled cart, and with the cart
    and user writes accepted, [clearCart] resolves with a cart document that
    is stored for the user, enabled, empty and with total zero. A disabled
    cart is the one re-enabled (same [_id]); with no cart at all a new one
    is created. No record is touched. *)
Theorem clearCart_without_enabled_cart
    (w : Storage) (db : DB) (userId : N) (user : IUser) :
  List.find (fun x => (user_id x =? userId)%N) (users db) = Some user ->
  (forall c, carts db !! userId = Some c -> cart_enabled c = false) ->
  w Carts = true ->
  w Users = true ->
  exists c,
    snd (clearCart w userId db) = Ok (CartDocument c) /\
    carts (fst (clearCart w userId db)) !! userId = Some c /\
    cart_enabled c = true /\ cart_items c = [] /\ cart_totalPrice c = 0%Q /\
    (forall d, carts db !! userId = Some d ->
               cart_id c = cart_id d /\ cart_userEmail c = cart_userEmail d) /\
    (carts db !! userId = None -> cart_id c = nextId db) /\
    records (fst (clearCart w userId db)) = records db.
Proof.
  intros Hu Hdis HwC HwU.
  unfold clearCart, createCart. unfold_M. simpl.
  destruct (carts db !! userId) as [d|] eqn:Hd; simpl.
  - pose proof (Hdis d eq_refl) as He.
    repeat (rewrite ?Hu, ?Hd, ?He, ?HwC; simpl).
    eexists. split; [reflexivity|]. split; [apply lookup_insert_eq|].
    do 3 (split; [reflexivity|]).
    split; [intros d' [= <-]; split; reflexivity|].
    split; [discriminate|reflexivity].
  - repeat (rewrite ?Hu, ?Hd, ?HwC, ?HwU; simpl).
    eexists. split; [reflexivity|]. split; [apply lookup_insert_eq|].
    do 3 (split; [reflexivity|]).
    split; [intros d' Hd'; discriminate Hd'|].
    split; reflexivity.
Qed.

Lemma clearCart_without_enabled_cart_witness :
  exists c,
    snd (clearCart allWrites 1 shopAfterOrder) = Ok (CartDocument c) /\
    carts (fst (clearCart allWrites 1 shopAfterOrder)) !! 1%N = Some c /\
    cart_enabled c = true /\ cart_items c = [] /\ cart_totalPrice c = 0%Q /\
    (forall d, carts shopAfterOrder !! 1%N = Some d ->
               cart_id c = cart_id d /\ cart_userEmail c = cart_userEmail d) /\
    (carts shopAfterOrder !! 1%N = None -> cart_id c = nextId shopAfterOrder) /\
    records (fst (clearCart allWrites 1 shopAfterOrder)) = records shopAfterOrder.
Proof.
  apply (clearCart_without_enabled_cart allWrites shopAfterOrder 1 alice).
  - reflexivity.
  - intros c. vm_compute. intros [= <-]. reflexivity.
  - reflexivity.
  - reflexivity.
Defined.

Example clearCart_creates_cart :
  snd (clearCart allWrites 1 shop) = Ok (CartDocument (mkCart 100 None [] 0%Q true)) /\
  records (fst (clearCart allWrites 1 shop)) = records shop.
Proof. vm_compute. repeat split. Qed.

(** * Properties of the rest of the code *)

(** ** Consistency through every route *)

Lemma consistent_same (db db' : DB) :
  records db' = records db -> carts db' = carts db -> consistent db -> consistent db'.
Proof.
  unfold consistent, stockNonNegative, cartsValid. intros -> ->. tauto.
Qed.

Lemma keeps_ret {A} (a : A) : keeps (ret a).
Proof. intros db H. exact H. Qed.

Lemma keeps_throw {A} (e : error) : keeps (@throw A e).
Proof. intros db H. exact H. Qed.

Lemma keeps_gets {A} (f : DB -> A) : keeps (gets f).
Proof. intros db H. exact H. Qed.

Lemma keeps_bind {A B} (c : M A) (k : A -> M B) :
  keeps c -> (forall a, keeps (k a)) -> keeps (bind c k).
Proof.
  intros Hc Hk db H. rewrite bind_run. specialize (Hc db H).
  destruct (c db) as [db1 [a|e]]; simpl in *; [apply Hk; exact Hc|exact Hc].
Qed.

Lemma keeps_rethrowAs {A} (e : error) (c : M A) : keeps c -> keeps (rethrowAs e c).
Proof.
  intros Hc db H. specialize (Hc db H). unfold rethrowAs.
  destruct (c db) as [db1 [a|e1]]; exact Hc.
Qed.

Lemma keeps_write (w : Storage) (c : collection) (f : DB -> DB) :
  (forall db, consistent db -> consistent (f db)) -> keeps (write w c f).
Proof.
  intros Hf db H. unfold write. destruct (w c); simpl; [apply Hf|]; exact H.
Qed.

Lemma keeps_exec (w : Storage) (c : call) (db : DB) :
  quantityCall c -> consistent db -> consistent (exec w c db).
Proof. intros Hq [Hs Hc]. apply exec_keeps_invariant; assumption. Qed.

Lemma keeps_addItemToCart (w : Storage) (u p : N) (n : Z) (e : string) :
  keeps (addItemToCart w u p n e).
Proof. intros db H. exact (keeps_exec w (AddItem u p n e) db I H). Qed.

Lemma keeps_removeItemFromCart (w : Storage) (u p : N) :
  keeps (removeItemFromCart w u p).
Proof. intros db H. exact (keeps_exec w (RemoveItem u p) db I H). Qed.

Lemma keeps_clearCart (w : Storage) (u : N) : keeps (clearCart w u).
Proof. intros db H. exact (keeps_exec w (Clear u) db I H). Qed.

Lemma keeps_updateStock (w : Storage) (id : N) (n : Z) : keeps (updateStock w id n).
Proof. intros db H. exact (keeps_exec w (UpdateStock id n) db I H). Qed.

Lemma keeps_removeItemFromCartByEmail (w : Storage) (e : string) (p : N) (n : Z) :
  0 <= n -> keeps (removeItemFromCartByEmail w e p n).
Proof. intros Hn db H. exact (keeps_exec w (RemoveItemByEmail e p n) db Hn H). Qed.

Lemma keeps_getCartByUserId (u : N) : keeps (getCartByUserId u).
Proof. intros db H. rewrite getCartByUserId_state. exact H. Qed.

Lemma keeps_createCart (w : Storage) (u : N) : keeps (createCart w u).
Proof.
  intros db [Hs Hc]. destruct (createCart_effect w u db) as (_ & Hr & Hcart). split.
  - unfold stockNonNegative. rewrite Hr. exact Hs.
  - eapply cartsValid_written; [exact Hc|].
    destruct Hcart as [?|(c & ? & _ & _ & ?)]; [left|right]; eauto.
Qed.

Lemma keeps_createOrder (w : Storage) (u : N) (e : string) (cart : PopulatedCart)
    (pm : string) :
  keeps (createOrder w u e cart pm).
Proof.
  unfold createOrder. destruct (length (pc_items cart) =? 0)%nat; [apply keeps_throw|].
  apply keeps_rethrowAs. apply keeps_bind.
  - intros db H. exact H.
  - intros newId. apply keeps_bind.
    + unfold saveOrder. destruct (validOrder _); [|apply keeps_throw].
      apply keeps_bind; [|intros; apply keeps_ret].
      apply keeps_write. intros db H. exact H.
    + intros saved. apply keeps_bind; [|intros; apply keeps_ret].
      unfold retireCartById. apply keeps_write.
      intros db [Hs Hc]. split; [exact Hs|].
      unfold cartsValid, setCarts in *. simpl.
      intros k c Hk. rewrite lookup_fmap in Hk.
      destruct (carts db !! k) as [c0|] eqn:Hc0; simpl in Hk; [|discriminate].
      injection Hk as <-. destruct (cart_id c0 =? pc_id cart)%N eqn:?.
      * reflexivity.
      * exact (Hc _ _ Hc0).
Qed.

Lemma handle_fst {A} (body : M (cartsController.reply A)) (db : DB) :
  fst (cartsController.handle body db) = fst (body db).
Proof.
  unfold cartsController.handle. destruct (body db) as [db' [r|e]]; reflexivity.
Qed.

Lemma keeps_findOneAndUpdateEnabled (w : Storage) (u : N) (b : bool) :
  keeps (cartsController.findOneAndUpdateEnabled w u b).
Proof.
  unfold cartsController.findOneAndUpdateEnabled.
  apply keeps_bind; [|intros; apply keeps_gets].
  apply keeps_write. intros db [Hs Hc]. split; [exact Hs|].
  unfold cartsValid, setCarts in *. simpl. intros k c Hk.
  destruct (decide (u = k)) as [->|Hne].
  - rewrite lookup_alter_eq in Hk.
    destruct (carts db !! k) as [c0|] eqn:Hc0; simpl in Hk; [|discriminate].
    injection Hk as <-. exact (Hc _ _ Hc0).
  - rewrite lookup_alter_ne in Hk by exact Hne. exact (Hc _ _ Hk).
Qed.

Lemma keeps_setEnabled_body (w : Storage) (email : string) (b : bool) :
  keeps (user <- findUserByEmail email ;;
         match user with
         | None => ret cartsController.Json404
         | Some user =>
             updatedCart <- cartsController.findOneAndUpdateEnabled w (user_id user) b ;;
             match updatedCart with
             | None => ret cartsController.Json404
             | Some updatedCart => ret (cartsController.Json200 updatedCart)
             end
         end).
Proof.
  apply keeps_bind; [apply keeps_gets|]. intros [user|]; [|apply keeps_ret].
  apply keeps_bind; [apply keeps_findOneAndUpdateEnabled|].
  intros [c|]; apply keeps_ret.
Qed.

Lemma keeps_createOrderBody (w : Storage) (email pm : string) :
  keeps (createOrderBody w email pm).
Proof.
  unfold createOrderBody.
  apply keeps_bind; [apply keeps_gets|]. intros [user|]; [|apply keeps_ret].
  apply keeps_bind; [apply keeps_getCartByUserId|]. intros [cart|]; [|apply keeps_ret].
  destruct (length (pc_items cart) =? 0)%nat; [apply keeps_ret|].
  apply keeps_bind; [apply keeps_createOrder|]. intros order.
  apply keeps_bind; [apply keeps_clearCart|]. intros; apply keeps_ret.
Qed.

Lemma serve_keeps_consistent (w : Storage) (r : request) (db : DB) :
  consistent db -> consistent (serve w r db).
Proof.
  intros H. destruct r as [user|user recordId amount email|user recordId|user
                          |email recordId amount|email|email|email|email pm|id amount];
    simpl.
  - unfold cartsController.getCart. destruct user as [u|]; [|exact H].
    rewrite handle_fst. revert db H.
    apply keeps_bind; [apply keeps_getCartByUserId|]. intros [cart|]; [apply keeps_ret|].
    apply keeps_bind; [apply keeps_createCart|]. intros; apply keeps_ret.
  - unfold cartsController.addItem. destruct user as [u|]; [|exact H].
    destruct recordId as [p|]; [|exact H]. destruct amount as [n|]; [|exact H].
    destruct (cartsController.badLine _ _); [exact H|].
    destruct (String.eqb email EmptyString); [exact H|].
    rewrite handle_fst. revert db H.
    apply keeps_bind; [apply keeps_addItemToCart|]. intros; apply keeps_ret.
  - unfold cartsController.removeItem. destruct user as [u|]; [|exact H].
    destruct recordId as [p|]; [|exact H].
    rewrite handle_fst. revert db H.
    apply keeps_bind; [apply keeps_removeItemFromCart|]. intros; apply keeps_ret.
  - unfold cartsController.clearCart. destruct user as [u|]; [|exact H].
    rewrite handle_fst. revert db H.
    apply keeps_bind; [apply keeps_clearCart|]. intros; apply keeps_ret.
  - unfold cartsController.removeItemFromCartByEmail.
    destruct (String.eqb email EmptyString); [exact H|].
    destruct recordId as [p|]; [|exact H]. destruct amount as [n|]; [|exact H].
    destruct (cartsController.badLine (Some p) (Some n)) eqn:Hbad; [exact H|].
    rewrite handle_fst. revert db H.
    apply keeps_bind; [|intros; apply keeps_ret].
    apply keeps_removeItemFromCartByEmail.
    unfold cartsController.badLine in Hbad. lia.
  - unfold cartsController.getCartByEmail.
    destruct (String.eqb email EmptyString); [exact H|].
    rewrite handle_fst. revert db H.
    apply keeps_bind.
    + unfold getCartByEmail. apply keeps_bind; [apply keeps_gets|].
      intros [user|]; [apply keeps_getCartByUserId|apply keeps_ret].
    + intros [cart|]; apply keeps_ret.
  - unfold cartsController.enableCartByEmail.
    destruct (String.eqb email EmptyString); [exact H|].
    rewrite handle_fst. revert db H. apply keeps_setEnabled_body.
  - unfold cartsController.disableCartByEmail.
    destruct (String.eqb email EmptyString); [exact H|].
    rewrite handle_fst. revert db H. apply keeps_setEnabled_body.
  - unfold createOrderController.
    destruct (String.eqb email EmptyString); [exact H|].
    pose proof (keeps_createOrderBody w email pm db H) as Hb.
    destruct (createOrderBody w email pm db) as [db' [r|e]]; exact Hb.
  - apply keeps_updateStock. exact H.
Qed.

(** X1. Through the routes of the carts and orders controllers and
    through [updateStock], whatever each request carries (missing or invalid fields, zero or
    negative amounts, unknown users) and whatever the storage does, a
    database with stocks at least zero and valid carts stays so: no request
    sequence stores a negative stock or a cart line with an amount below
    one. *)
Theorem routes_keep_consistent (rs : list (Storage * request)) (db : DB) :
  consistent db -> consistent (serveAll rs db).
Proof.
  revert db. induction rs as [|[w r] rs IH]; intros db H; simpl; [exact H|].
  apply IH. apply serve_keeps_consistent. exact H.
Qed.

Lemma shop_consistent : consistent shop.
Proof. split; [exact shop_stockNonNegative|exact shop_cartsValid]. Qed.

Lemma routes_keep_consistent_witness : consistent (serveAll roughDay shop).
Proof. apply (routes_keep_consistent roughDay shop). exact shop_consistent. Defined.

(** ** Orders stay as they were written *)

Lemma keepsOrders_same {A} (c : M A) :
  (forall db, orders (fst (c db)) = orders db) -> keepsOrders c.
Proof. intros H db. rewrite H. reflexivity. Qed.

Lemma keepsOrders_bind {A B} (c : M A) (k : A -> M B) :
  keepsOrders c -> (forall a, keepsOrders (k a)) -> keepsOrders (bind c k).
Proof.
  intros Hc Hk db. rewrite bind_run. specialize (Hc db).
  destruct (c db) as [db1 [a|e]]; simpl in *; [|exact Hc].
  etransitivity; [exact Hc|apply Hk].
Qed.

Lemma keepsOrders_rethrowAs {A} (e : error) (c : M A) :
  keepsOrders c -> keepsOrders (rethrowAs e c).
Proof.
  intros Hc db. specialize (Hc db). unfold rethrowAs.
  destruct (c db) as [db1 [a|e1]]; exact Hc.
Qed.

Lemma keepsOrders_write (w : Storage) (c : collection) (f : DB -> DB) :
  (forall db, orders db `prefix_of` orders (f db)) -> keepsOrders (write w c f).
Proof.
  intros Hf db. unfold write. destruct (w c); simpl; [apply Hf|reflexivity].
Qed.

Lemma updateStock_orders (w : Storage) (id : N) (amount : Z) (db : DB) :
  orders (fst (updateStock w id amount db)) = orders db.
Proof. unfold updateStock. unfold_M. simpl. repeat step; reflexivity. Qed.

Lemma keepsOrders_createOrder (w : Storage) (u : N) (e : string) (cart : PopulatedCart)
    (pm : string) :
  keepsOrders (createOrder w u e cart pm).
Proof.
  unfold createOrder.
  destruct (length (pc_items cart) =? 0)%nat; [apply keepsOrders_same; reflexivity|].
  apply keepsOrders_rethrowAs. apply keepsOrders_bind.
  - apply keepsOrders_same. reflexivity.
  - intros newId. apply keepsOrders_bind.
    + unfold saveOrder. destruct (validOrder _); [|apply keepsOrders_same; reflexivity].
      apply keepsOrders_bind; [|intros; apply keepsOrders_same; reflexivity].
      apply keepsOrders_write. intros db. simpl. apply prefix_app_r. reflexivity.
    + intros saved. apply keepsOrders_bind; [|intros; apply keepsOrders_same; reflexivity].
      apply keepsOrders_write. intros db. reflexivity.
Qed.

Lemma keepsOrders_clearCart (w : Storage) (u : N) : keepsOrders (clearCart w u).
Proof.
  apply keepsOrders_same. intros db.
  destruct (clearCart_effect w u db) as (H & _). exact H.
Qed.

Lemma keepsOrders_createOrderBody (w : Storage) (email pm : string) :
  keepsOrders (createOrderBody w email pm).
Proof.
  unfold createOrderBody.
  apply keepsOrders_bind; [apply keepsOrders_same; reflexivity|].
  intros [user|]; [|apply keepsOrders_same; reflexivity].
  apply keepsOrders_bind; [apply keepsOrders_same; intros; now rewrite getCartByUserId_state|].
  intros [cart|]; [|apply keepsOrders_same; reflexivity].
  destruct (length (pc_items cart) =? 0)%nat; [apply keepsOrders_same; reflexivity|].
  apply keepsOrders_bind; [apply keepsOrders_createOrder|]. intros order.
  apply keepsOrders_bind; [apply keepsOrders_clearCart|].
  intros; apply keepsOrders_same; reflexivity.
Qed.

Lemma setEnabled_body_orders (w : Storage) (email : string) (b : bool) (db : DB) :
  orders (fst ((user <- findUserByEmail email ;;
                match user with
                | None => ret cartsController.Json404
                | Some user =>
                    updatedCart <- cartsController.findOneAndUpdateEnabled w (user_id user) b ;;
                    match updatedCart with
                    | None => ret cartsController.Json404
                    | Some updatedCart => ret (cartsController.Json200 updatedCart)
                    end
                end) db)) = orders db.
Proof.
  unfold cartsController.findOneAndUpdateEnabled. unfold_M. simpl.
  repeat step; reflexivity.
Qed.

Lemma serve_orders (w : Storage) (r : request) (db : DB) :
  orders db `prefix_of` orders (serve w r db).
Proof.
  destruct r as [user|user recordId amount email|user recordId|user
                |email recordId amount|email|email|email|email pm|id amount];
    simpl.
  - unfold cartsController.getCart. destruct user as [u|]; [|reflexivity].
    rewrite handle_fst. rewrite bind_run.
    pose proof (getCartByUserId_state u db) as Hs.
    destruct (getCartByUserId u db) as [db1 [[cart|]|e]]; simpl in *; subst db1;
      try reflexivity.
    rewrite bind_run. destruct (createCart_effect w u db) as (Ho & _).
    destruct (createCart w u db) as [db2 [c|e]]; simpl in *; rewrite Ho; reflexivity.
  - unfold cartsController.addItem. destruct user as [u|]; [|reflexivity].
    destruct recordId as [p|]; [|reflexivity]. destruct amount as [n|]; [|reflexivity].
    destruct (cartsController.badLine _ _); [reflexivity|].
    destruct (String.eqb email EmptyString); [reflexivity|].
    rewrite handle_fst, bind_run.
    destruct (addItemToCart_effect w u p n email db) as (_ & Ho & _).
    destruct (addItemToCart w u p n email db) as [db1 [c|e]]; simpl in *;
      rewrite Ho; reflexivity.
  - unfold cartsController.removeItem. destruct user as [u|]; [|reflexivity].
    destruct recordId as [p|]; [|reflexivity].
    rewrite handle_fst, bind_run.
    destruct (removeItemFromCart_effect w u p db) as (_ & Ho & _).
    destruct (removeItemFromCart w u p db) as [db1 [c|e]]; simpl in *;
      rewrite Ho; reflexivity.
  - unfold cartsController.clearCart. destruct user as [u|]; [|reflexivity].
    rewrite handle_fst, bind_run.
    destruct (clearCart_effect w u db) as (Ho & _).
    destruct (clearCart w u db) as [db1 [c|e]]; simpl in *; rewrite Ho; reflexivity.
  - unfold cartsController.removeItemFromCartByEmail.
    destruct (String.eqb email EmptyString); [reflexivity|].
    destruct recordId as [p|]; [|reflexivity]. destruct amount as [n|]; [|reflexivity].
    destruct (cartsController.badLine (Some p) (Some n)); [reflexivity|].
    rewrite handle_fst, bind_run.
    destruct (removeItemFromCartByEmail_effect w email p n db) as (_ & Ho & _).
    destruct (removeItemFromCartByEmail w email p n db) as [db1 [c|e]]; simpl in *;
      rewrite Ho; reflexivity.
  - unfold cartsController.getCartByEmail.
    destruct (String.eqb email EmptyString); [reflexivity|].
    rewrite handle_fst. unfold getCartByEmail, getCartByUserId. unfold_M. simpl.
    repeat step; reflexivity.
  - unfold cartsController.enableCartByEmail.
    destruct (String.eqb email EmptyString); [reflexivity|].
    rewrite handle_fst, setEnabled_body_orders. reflexivity.
  - unfold cartsController.disableCartByEmail.
    destruct (String.eqb email EmptyString); [reflexivity|].
    rewrite handle_fst, setEnabled_body_orders. reflexivity.
  - unfold createOrderController.
    destruct (String.eqb email EmptyString); [reflexivity|].
    pose proof (keepsOrders_createOrderBody w email pm db) as Hb.
    destruct (createOrderBody w email pm db) as [db' [r|e]]; exact Hb.
  - rewrite updateStock_orders. reflexivity.
Qed.

(** X2. No request to the carts and orders routes, and no stock update,
    changes or removes an order that is stored: after any sequence of
    requests, under any storage behaviour, the orders present at the start
    are still the first orders of the collection, in the same order and
    with the same content. New orders are only appended. *)
Theorem routes_keep_orders (rs : list (Storage * request)) (db : DB) :
  orders db `prefix_of` orders (serveAll rs db).
Proof.
  revert db. induction rs as [|[w r] rs IH]; intros db; simpl; [reflexivity|].
  etransitivity; [apply serve_orders|apply IH].
Qed.

(** ** Adding to a cart *)

Lemma addItemToCart_applies
    (w : Storage) (db : DB) (userId recordId : N) (amount : Z)
    (userEmail : string) (record : IRecord) :
  records db !! recordId = Some record ->
  amount <= rec_stock record ->
  forallb validItem (linesAfterAdd recordId amount record (activeItems db userId)) = true ->
  w Records = true -> w Carts = true ->
  exists cart,
    snd (addItemToCart w userId recordId amount userEmail db) = Ok cart /\
    users (fst (addItemToCart w userId recordId amount userEmail db)) = users db /\
    records (fst (addItemToCart w userId recordId amount userEmail db))
    = <[recordId := withStock (rec_stock record - amount) record]> (records db) /\
    carts (fst (addItemToCart w userId recordId amount userEmail db))
    = <[userId := cart]> (carts db) /\
    cart_enabled cart = true /\
    cart_items cart = linesAfterAdd recordId amount record (activeItems db userId) /\
    cart_totalPrice cart = roundCents (reduceTotal (cart_items cart)).
Proof.
  intros Hrec Hle Hvalid HwR HwC.
  unfold activeItems, linesAfterAdd in *.
  unfold addItemToCart. unfold_M. simpl. rewrite Hrec.
  destruct (Z.ltb_spec (rec_stock record) amount) as [?|_]; [lia|].
  destruct (carts db !! userId) as [c|] eqn:Hc; simpl.
  - destruct (cart_enabled c) eqn:He; simpl.
    + rewrite HwR. simpl. unfold validCart. simpl.
      fold (newLine recordId amount record).
      destruct (findIndex (isLineOf recordId) (cart_items c)) as [i|] eqn:Hi.
      * destruct (cart_items c !! i) as [line|] eqn:Hline.
        -- fold (mergedLine amount record line) in *.
           rewrite Hvalid, HwC. simpl. eexists; repeat split; try reflexivity. exact He.
        -- rewrite Hvalid, HwC. simpl. eexists; repeat split; try reflexivity. exact He.
      * rewrite Hvalid, HwC. simpl. eexists; repeat split; try reflexivity. exact He.
    + rewrite Hc, He. simpl. rewrite HwR. simpl. unfold validCart. simpl.
      fold (newLine recordId amount record).
      simpl in Hvalid. rewrite Hvalid, HwC. simpl.
      eexists; repeat split; reflexivity.
  - rewrite Hc. simpl. rewrite HwR. simpl. unfold validCart. simpl.
    fold (newLine recordId amount record).
    simpl in Hvalid. rewrite Hvalid, HwC. simpl.
    eexists; repeat split; reflexivity.
Qed.

Lemma addItemToCart_resolves_inv
    (w : Storage) (db : DB) (userId recordId : N) (amount : Z)
    (userEmail : string) (cart : ICart) :
  snd (addItemToCart w userId recordId amount userEmail db) = Ok cart ->
  exists record,
    records db !! recordId = Some record /\
    amount <= rec_stock record /\
    forallb validItem (linesAfterAdd recordId amount record (activeItems db userId)) = true /\
    w Records = true /\ w Carts = true.
Proof.
  unfold activeItems, linesAfterAdd.
  unfold addItemToCart. unfold_M. simpl.
  destruct (records db !! recordId) as [r|] eqn:Hrec; simpl; [|discriminate].
  destruct (Z.ltb_spec (rec_stock r) amount) as [?|Hle]; simpl; [discriminate|].
  intros H. exists r. split; [reflexivity|]. split; [lia|]. revert H.
  assert (forall (base : ICart) (db0 : DB) items,
            items = match findIndex (isLineOf recordId) (cart_items base) with
                    | Some i =>
                        match cart_items base !! i with
                        | Some line => <[i := mergedLine amount r line]> (cart_items base)
                        | None => cart_items base
                        end
                    | None => cart_items base ++ [newLine recordId amount r]
                    end ->
            snd ((saveRecord w recordId (withStock (rec_stock r - amount) r) ;;;
                  saveCart w userId
                    (withTotalPrice (roundCents (reduceTotal items)) (withItems items base)) ;;;
                  ret (withTotalPrice (roundCents (reduceTotal items)) (withItems items base)))
                   db0) = Ok cart ->
            forallb validItem items = true /\ w Records = true /\ w Carts = true) as Htail.
  { intros base db0 items _. unfold_M. simpl.
    destruct (w Records); simpl; [|discriminate]. unfold validCart. simpl.
    destruct (forallb validItem items); simpl; [|discriminate].
    destruct (w Carts); simpl; [|discriminate]. auto. }
  destruct (carts db !! userId) as [c|] eqn:Hc; simpl.
  - destruct (cart_enabled c) eqn:He; simpl.
    + intros H. apply (Htail c db _ eq_refl). exact H.
    + rewrite Hc, He. simpl. intros H.
      apply (Htail (withTotalPrice 0 (withItems [] (withEnabled true c))) db _ eq_refl).
      exact H.
  - rewrite Hc. simpl. intros H.
    eapply (Htail (mkCart (nextId db) (Some userEmail) [] 0%Q true) _ _ eq_refl).
    exact H.
Qed.

Lemma forallb_list_insert {A} (f : A -> bool) (l : list A) (i : nat) (x : A) :
  forallb f l = true -> f x = true -> forallb f (<[i := x]> l) = true.
Proof.
  revert i. induction l as [|a l IH]; intros i Hl Hx; simpl in *; [reflexivity|].
  apply andb_prop in Hl as [Ha Hl]. destruct i as [|i]; simpl.
  - now rewrite Hx, Hl.
  - now rewrite Ha, IH.
Qed.

Lemma forallb_list_delete {A} (f : A -> bool) (l : list A) (i : nat) :
  forallb f l = true -> forallb f (delete i l) = true.
Proof.
  revert i. induction l as [|a l IH]; intros i Hl; simpl in *; [reflexivity|].
  apply andb_prop in Hl as [Ha Hl]. destruct i as [|i]; simpl; [exact Hl|].
  now rewrite Ha, IH.
Qed.

Lemma heldOf_app (p : N) (l : list ICartItem) (x : ICartItem) :
  heldOf p (l ++ [x]) = heldOf p l + (if isLineOf p x then item_amount x else 0).
Proof.
  induction l as [|a l IH]; simpl.
  - destruct (isLineOf p x); lia.
  - rewrite IH. destruct (isLineOf p a); lia.
Qed.

Lemma heldOf_insert (p : N) (l : list ICartItem) (i : nat) (old new : ICartItem) :
  l !! i = Some old ->
  heldOf p (<[i := new]> l)
  = heldOf p l - (if isLineOf p old then item_amount old else 0)
    + (if isLineOf p new then item_amount new else 0).
Proof.
  revert i. induction l as [|a l IH]; intros i Hi; [destruct i; discriminate|].
  destruct i as [|i]; simpl in *.
  - injection Hi as ->. destruct (isLineOf p old), (isLineOf p new); lia.
  - rewrite (IH i Hi). destruct (isLineOf p a); lia.
Qed.

Lemma heldOf_delete (p : N) (l : list ICartItem) (i : nat) (old : ICartItem) :
  l !! i = Some old ->
  heldOf p (delete i l) = heldOf p l - (if isLineOf p old then item_amount old else 0).
Proof.
  revert i. induction l as [|a l IH]; intros i Hi; [destruct i; discriminate|].
  destruct i as [|i]; simpl in *.
  - injection Hi as ->. destruct (isLineOf p old); lia.
  - rewrite (IH i Hi). destruct (isLineOf p a); lia.
Qed.

Lemma heldOf_linesAfterAdd (p : N) (n : Z) (r : IRecord) (items : list ICartItem) :
  heldOf p (linesAfterAdd p n r items) = heldOf p items + n.
Proof.
  unfold linesAfterAdd.
  destruct (findIndex (isLineOf p) items) as [i|] eqn:Hi.
  - destruct (findIndex_Some _ _ _ Hi) as (line & Hline & Hp & _).
    rewrite Hline. rewrite (heldOf_insert p items i line _ Hline).
    unfold mergedLine, isLineOf in *. simpl. rewrite Hp. lia.
  - rewrite heldOf_app. unfold newLine, isLineOf. simpl. rewrite N.eqb_refl. lia.
Qed.

(** X3. Adding a record that the enabled cart already holds changes that
    line in place: its amount grows by the amount added, its price becomes
    the record's current price, every other line and the number of lines
    stay as they were, and the stock drops by the amount added. *)
Theorem addItemToCart_existing_line
    (w : Storage) (db : DB) (userId recordId : N) (amount : Z)
    (userEmail : string) (record : IRecord) (cart : ICart) (i : nat)
    (line : ICartItem) :
  records db !! recordId = Some record ->
  1 <= amount ->
  amount <= rec_stock record ->
  carts db !! userId = Some cart ->
  cart_enabled cart = true ->
  validCart cart = true ->
  findIndex (isLineOf recordId) (cart_items cart) = Some i ->
  cart_items cart !! i = Some line ->
  w Records = true -> w Carts = true ->
  exists cart' line',
    snd (addItemToCart w userId recordId amount userEmail db) = Ok cart' /\
    carts (fst (addItemToCart w userId recordId amount userEmail db)) !! userId
    = Some cart' /\
    length (cart_items cart') = length (cart_items cart) /\
    cart_items cart' !! i = Some line' /\
    item_recordId line' = recordId /\
    item_amount line' = item_amount line + amount /\
    item_price line' = orZero (rec_price record) /\
    (forall j, j <> i -> cart_items cart' !! j = cart_items cart !! j) /\
    rec_stock <$> records (fst (addItemToCart w userId recordId amount userEmail db))
                    !! recordId
    = Some (rec_stock record - amount).
Proof.
  intros Hrec Hpos Hle Hc He Hv Hi Hline HwR HwC.
  assert (activeItems db userId = cart_items cart) as Hact.
  { unfold activeItems. now rewrite Hc, He. }
  assert (linesAfterAdd recordId amount record (cart_items cart)
          = <[i := mergedLine amount record line]> (cart_items cart)) as Hlines.
  { unfold linesAfterAdd. now rewrite Hi, Hline. }
  destruct (findIndex_Some _ _ _ Hi) as (line0 & Hline0 & Hp & _).
  rewrite Hline in Hline0. injection Hline0 as <-.
  destruct (addItemToCart_applies w db userId recordId amount userEmail record
              Hrec Hle) as (cart' & Hok & _ & Hrecs & Hcarts & _ & Hitems & _);
    [|exact HwR|exact HwC|].
  { rewrite Hact, Hlines. apply forallb_list_insert; [exact Hv|].
    pose proof (validCart_line cart i line Hv Hline).
    unfold validItem, mergedLine. simpl. lia. }
  rewrite Hact, Hlines in Hitems.
  exists cart', (mergedLine amount record line).
  split; [exact Hok|]. split; [rewrite Hcarts; apply lookup_insert_eq|].
  rewrite Hitems.
  split; [apply length_insert|].
  split; [apply list_lookup_insert_eq; eapply lookup_lt_Some; exact Hline|].
  split; [unfold isLineOf in Hp; simpl; now apply N.eqb_eq|].
  split; [reflexivity|]. split; [reflexivity|].
  split; [intros j Hj; apply list_lookup_insert_ne; congruence|].
  rewrite Hrecs, lookup_insert_eq. reflexivity.
Qed.

(** X4. Whenever [addItemToCart] resolves, no copy is created or lost: the
    stock of the record plus the copies of it in the user's active cart is
    the same after the call as before (a disabled or missing cart counts as
    holding none). *)
Theorem addItemToCart_conserves_units
    (w : Storage) (db : DB) (userId recordId : N) (amount : Z)
    (userEmail : string) (cart : ICart) :
  snd (addItemToCart w userId recordId amount userEmail db) = Ok cart ->
  exists record record',
    records db !! recordId = Some record /\
    records (fst (addItemToCart w userId recordId amount userEmail db)) !! recordId
    = Some record' /\
    rec_stock record'
    + heldOf recordId (activeItems (fst (addItemToCart w userId recordId amount userEmail db))
                                   userId)
    = rec_stock record + heldOf recordId (activeItems db userId).
Proof.
  intros Hok.
  destruct (addItemToCart_resolves_inv _ _ _ _ _ _ _ Hok)
    as (record & Hrec & Hle & Hv & HwR & HwC).
  destruct (addItemToCart_applies w db userId recordId amount userEmail record
              Hrec Hle Hv HwR HwC) as (cart' & _ & _ & Hrecs & Hcarts & Hen & Hitems & _).
  exists record, (withStock (rec_stock record - amount) record).
  split; [exact Hrec|]. split; [rewrite Hrecs; apply lookup_insert_eq|].
  unfold activeItems at 1. rewrite Hcarts, lookup_insert_eq, Hen, Hitems.
  rewrite heldOf_linesAfterAdd. simpl. lia.
Qed.

Lemma addItemToCart_conserves_units_witness :
  exists record record',
    records shopWithCart !! 7%N = Some record /\
    records (fst (addItemToCart allWrites 1 7 1 "alice@example.com" shopWithCart)) !! 7%N
    = Some record' /\
    rec_stock record'
    + heldOf 7 (activeItems (fst (addItemToCart allWrites 1 7 1 "alice@example.com"
                                    shopWithCart)) 1)
    = rec_stock record + heldOf 7 (activeItems shopWithCart 1).
Proof.
  eapply (addItemToCart_conserves_units allWrites shopWithCart 1 7 1 "alice@example.com").
  vm_compute. reflexivity.
Defined.

Lemma addItemToCart_existing_line_witness :
  exists cart' line',
    snd (addItemToCart allWrites 1 7 1 "alice@example.com" shopWithCart) = Ok cart' /\
    carts (fst (addItemToCart allWrites 1 7 1 "alice@example.com" shopWithCart)) !! 1%N
    = Some cart' /\
    length (cart_items cart') = length (cart_items aliceCart) /\
    cart_items cart' !! 0%nat = Some line' /\
    item_recordId line' = 7%N /\
    item_amount line' = item_amount aliceLine + 1 /\
    item_price line' = orZero (rec_price (withStock 3 vinyl)) /\
    (forall j, j <> 0%nat -> cart_items cart' !! j = cart_items aliceCart !! j) /\
    rec_stock <$> records (fst (addItemToCart allWrites 1 7 1 "alice@example.com"
                                  shopWithCart)) !! 7%N
    = Some (rec_stock (withStock 3 vinyl) - 1).
Proof.
  apply (addItemToCart_existing_line allWrites shopWithCart 1 7 1 "alice@example.com"
           (withStock 3 vinyl) aliceCart 0 aliceLine).
  - vm_compute. reflexivity.
  - lia.
  - simpl. lia.
  - vm_compute. reflexivity.
  - reflexivity.
  - reflexivity.
  - reflexivity.
  - reflexivity.
  - reflexivity.
  - reflexivity.
Defined.

(** ** Removing from a cart *)

Lemma removeItemFromCartByEmail_applies
    (w : Storage) (db : DB) (email : string) (recordId : N) (amount : Z)
    (user : IUser) (cart : ICart) (i : nat) (line : ICartItem) (record : IRecord) :
  List.find (fun u => String.eqb (user_userEmail u) (castEmail email)) (users db) = Some user ->
  carts db !! user_id user = Some cart ->
  cart_enabled cart = true ->
  validCart cart = true ->
  findIndex (isLineOf recordId) (cart_items cart) = Some i ->
  cart_items cart !! i = Some line ->
  amount <= item_amount line ->
  records db !! recordId = Some record ->
  w Records = true -> w Carts = true ->
  users (fst (removeItemFromCartByEmail w email recordId amount db)) = users db /\
  records (fst (removeItemFromCartByEmail w email recordId amount db))
  = <[recordId := withStock (rec_stock record + amount) record]> (records db) /\
  carts (fst (removeItemFromCartByEmail w email recordId amount db))
  = <[user_id user := recalculateTotal
                        (withItems (linesAfterRemoval i amount line (cart_items cart)) cart)]>
      (carts db).
Proof.
  intros Hu Hc He Hv Hi Hline Hle Hrec HwR HwC.
  assert (forallb validItem (linesAfterRemoval i amount line (cart_items cart)) = true)
    as Hv'.
  { unfold linesAfterRemoval. destruct (Z.eqb_spec (item_amount line) amount).
    - apply forallb_list_delete. exact Hv.
    - apply forallb_list_insert; [exact Hv|]. unfold validItem. simpl. lia. }
  destruct (removeItemFromCartByEmail w email recordId amount db) as [db' res] eqn:Hrun.
  simpl. revert Hrun.
  unfold removeItemFromCartByEmail, getCartByUserId. unfold_M. simpl.
  rewrite Hu, Hc, He. simpl. rewrite Hi, Hline.
  destruct (Z.ltb_spec (item_amount line) amount) as [?|_]; [lia|].
  rewrite Hrec, HwR. simpl.
  fold (linesAfterRemoval i amount line (cart_items cart)).
  unfold validCart. simpl. rewrite Hv', HwC. simpl.
  repeat step; intros [= <- <-]; unfold setCarts, setRecords; simpl; auto.
Qed.

Lemma heldOf_linesAfterRemoval (p : N) (i : nat) (n : Z) (line : ICartItem)
    (items : list ICartItem) :
  items !! i = Some line -> isLineOf p line = true ->
  heldOf p (linesAfterRemoval i n line items) = heldOf p items - n.
Proof.
  intros Hline Hp. unfold linesAfterRemoval.
  destruct (Z.eqb_spec (item_amount line) n) as [<-|Hne].
  - rewrite (heldOf_delete p items i line Hline), Hp. reflexivity.
  - rewrite (heldOf_insert p items i line _ Hline).
    unfold isLineOf in *. simpl. rewrite Hp. lia.
Qed.

(** X5. Removing by email an amount that the cart line covers: the stock
    of the record rises by that amount; the line is deleted when the amount
    equals the line's, and otherwise keeps its place, record and price with
    the amount reduced; the other lines are untouched; the stored total is
    what [recalculateTotal] adds up over the remaining lines in doubles,
    which is their exact sum when the prices are whole numbers (and a
    hundred times the products stays below 2^53); and stock plus copies
    held is the same as before. *)
Theorem removeItemFromCartByEmail_returns_stock
    (w : Storage) (db : DB) (email : string) (recordId : N) (amount : Z)
    (user : IUser) (cart : ICart) (i : nat) (line : ICartItem) (record : IRecord) :
  List.find (fun u => String.eqb (user_userEmail u) (castEmail email)) (users db) = Some user ->
  carts db !! user_id user = Some cart ->
  cart_enabled cart = true ->
  validCart cart = true ->
  findIndex (isLineOf recordId) (cart_items cart) = Some i ->
  cart_items cart !! i = Some line ->
  amount <= item_amount line ->
  records db !! recordId = Some record ->
  w Records = true -> w Carts = true ->
  rec_stock <$> records (fst (removeItemFromCartByEmail w email recordId amount db))
                  !! recordId
  = Some (rec_stock record + amount) /\
  exists cart',
    carts (fst (removeItemFromCartByEmail w email recordId amount db)) !! user_id user
    = Some cart' /\
    cart_enabled cart' = true /\
    (amount = item_amount line -> cart_items cart' = delete i (cart_items cart)) /\
    (amount < item_amount line ->
       length (cart_items cart') = length (cart_items cart) /\
       cart_items cart' !! i = Some (withAmount (item_amount line - amount) line) /\
       forall j, j <> i -> cart_items cart' !! j = cart_items cart !! j) /\
    cart_totalPrice cart' = sumLines (cart_items cart') /\
    (wholePrices (cart_items cart') -> 100 * absSum (cart_items cart') < 2 ^ 53 ->
       (cart_totalPrice cart' == lineSum (cart_items cart'))%Q) /\
    rec_stock record + amount + heldOf recordId (cart_items cart')
    = rec_stock record + heldOf recordId (cart_items cart).
Proof.
  intros Hu Hc He Hv Hi Hline Hle Hrec HwR HwC.
  destruct (removeItemFromCartByEmail_applies w db email recordId amount user cart i line
              record Hu Hc He Hv Hi Hline Hle Hrec HwR HwC) as (_ & Hrecs & Hcarts).
  destruct (findIndex_Some _ _ _ Hi) as (line0 & Hline0 & Hp & _).
  rewrite Hline in Hline0. injection Hline0 as <-.
  split; [rewrite Hrecs, lookup_insert_eq; reflexivity|].
  eexists. split; [rewrite Hcarts; apply lookup_insert_eq|]. simpl.
  split; [exact He|].
  split.
  { intros ->. unfold linesAfterRemoval. now rewrite Z.eqb_refl. }
  split.
  { intros Hlt. unfold linesAfterRemoval.
    destruct (Z.eqb_spec (item_amount line) amount) as [?|_]; [lia|].
    split; [apply length_insert|].
    split; [apply list_lookup_insert_eq; eapply lookup_lt_Some; exact Hline|].
    intros j Hj. apply list_lookup_insert_ne. congruence. }
  split; [reflexivity|].
  split; [intros Hw Hb; apply (totals_whole _ Hw Hb)|].
  rewrite (heldOf_linesAfterRemoval recordId i amount line _ Hline Hp). lia.
Qed.

Lemma removeItemFromCartByEmail_returns_stock_witness :
  rec_stock <$> records (fst (removeItemFromCartByEmail allWrites "alice@example.com" 7 1
                                shopWithCart)) !! 7%N
  = Some (rec_stock (withStock 3 vinyl) + 1) /\
  exists cart',
    carts (fst (removeItemFromCartByEmail allWrites "alice@example.com" 7 1 shopWithCart))
      !! user_id alice
    = Some cart' /\
    cart_enabled cart' = true /\
    (1 = item_amount aliceLine -> cart_items cart' = delete 0%nat (cart_items aliceCart)) /\
    (1 < item_amount aliceLine ->
       length (cart_items cart') = length (cart_items aliceCart) /\
       cart_items cart' !! 0%nat = Some (withAmount (item_amount aliceLine - 1) aliceLine) /\
       forall j, j <> 0%nat -> cart_items cart' !! j = cart_items aliceCart !! j) /\
    cart_totalPrice cart' = sumLines (cart_items cart') /\
    (wholePrices (cart_items cart') -> 100 * absSum (cart_items cart') < 2 ^ 53 ->
       (cart_totalPrice cart' == lineSum (cart_items cart'))%Q) /\
    rec_stock (withStock 3 vinyl) + 1 + heldOf 7 (cart_items cart')
    = rec_stock (withStock 3 vinyl) + heldOf 7 (cart_items aliceCart).
Proof.
  apply (removeItemFromCartByEmail_returns_stock allWrites shopWithCart
           "alice@example.com" 7 1 alice aliceCart 0 aliceLine (withStock 3 vinyl)).
  - reflexivity.
  - vm_compute. reflexivity.
  - reflexivity.
  - reflexivity.
  - reflexivity.
  - reflexivity.
  - simpl. lia.
  - vm_compute. reflexivity.
  - reflexivity.
  - reflexivity.
Defined.

Lemma removeItemFromCart_applies
    (w : Storage) (db : DB) (userId recordId : N)
    (cart : ICart) (i : nat) (line : ICartItem) (record : IRecord) :
  carts db !! userId = Some cart ->
  cart_enabled cart = true ->
  validCart cart = true ->
  findIndex (isLineOf recordId) (cart_items cart) = Some i ->
  cart_items cart !! i = Some line ->
  records db !! recordId = Some record ->
  w Records = true -> w Carts = true ->
  users (fst (removeItemFromCart w userId recordId db)) = users db /\
  records (fst (removeItemFromCart w userId recordId db))
  = <[recordId := withLegacyStock None
                    (withStock (rec_stock record + item_amount line) record)]> (records db) /\
  carts (fst (removeItemFromCart w userId recordId db))
  = <[userId := recalculateTotal (withItems (delete i (cart_items cart)) cart)]> (carts db).
Proof.
  intros Hc He Hv Hi Hline Hrec HwR HwC.
  destruct (removeItemFromCart w userId recordId db) as [db' res] eqn:Hrun.
  simpl. revert Hrun.
  unfold removeItemFromCart, getCartByUserId. unfold_M. simpl.
  rewrite Hc, He. simpl. rewrite Hi, Hline, Hrec, HwR. simpl.
  unfold validCart. simpl. rewrite (forallb_list_delete _ _ i Hv), HwC. simpl.
  unfold setCarts, setRecords. simpl. rewrite Hrec.
  repeat step; intros [= <- <-]; simpl; auto.
Qed.

(** X6. [removeItemFromCart] takes the whole line of the record out of the
    enabled cart: the stock rises by the line's amount and the capitalised
    [Stock] field is dropped from the record, the other lines keep their
    order, the stored total is what [recalculateTotal] adds up over the
    remaining lines in doubles, which is their exact sum when the prices
    are whole numbers (and a hundred times the products stays below 2^53),
    and stock plus copies held is the same as before. *)
Theorem removeItemFromCart_returns_line
    (w : Storage) (db : DB) (userId recordId : N)
    (cart : ICart) (i : nat) (line : ICartItem) (record : IRecord) :
  carts db !! userId = Some cart ->
  cart_enabled cart = true ->
  validCart cart = true ->
  findIndex (isLineOf recordId) (cart_items cart) = Some i ->
  cart_items cart !! i = Some line ->
  records db !! recordId = Some record ->
  w Records = true -> w Carts = true ->
  records (fst (removeItemFromCart w userId recordId db)) !! recordId
  = Some (withLegacyStock None (withStock (rec_stock record + item_amount line) record)) /\
  exists cart',
    carts (fst (removeItemFromCart w userId recordId db)) !! userId = Some cart' /\
    cart_enabled cart' = true /\
    cart_items cart' = delete i (cart_items cart) /\
    cart_totalPrice cart' = sumLines (cart_items cart') /\
    (wholePrices (cart_items cart') -> 100 * absSum (cart_items cart') < 2 ^ 53 ->
       (cart_totalPrice cart' == lineSum (cart_items cart'))%Q) /\
    rec_stock record + item_amount line + heldOf recordId (cart_items cart')
    = rec_stock record + heldOf recordId (cart_items cart).
Proof.
  intros Hc He Hv Hi Hline Hrec HwR HwC.
  destruct (removeItemFromCart_applies w db userId recordId cart i line record
              Hc He Hv Hi Hline Hrec HwR HwC) as (_ & Hrecs & Hcarts).
  destruct (findIndex_Some _ _ _ Hi) as (line0 & Hline0 & Hp & _).
  rewrite Hline in Hline0. injection Hline0 as <-.
  split; [rewrite Hrecs; apply lookup_insert_eq|].
  eexists. split; [rewrite Hcarts; apply lookup_insert_eq|]. simpl.
  split; [exact He|]. split; [reflexivity|].
  split; [reflexivity|].
  split; [intros Hw Hb; apply (totals_whole _ Hw Hb)|].
  rewrite (heldOf_delete recordId _ i line Hline), Hp. lia.
Qed.

Lemma removeItemFromCart_returns_line_witness :
  records (fst (removeItemFromCart allWrites 1 7 legacyShopWithCart)) !! 7%N
  = Some (withLegacyStock None (withStock (rec_stock legacyVinyl + item_amount aliceLine)
                                          legacyVinyl)) /\
  exists cart',
    carts (fst (removeItemFromCart allWrites 1 7 legacyShopWithCart)) !! 1%N = Some cart' /\
    cart_enabled cart' = true /\
    cart_items cart' = delete 0%nat (cart_items aliceCart) /\
    cart_totalPrice cart' = sumLines (cart_items cart') /\
    (wholePrices (cart_items cart') -> 100 * absSum (cart_items cart') < 2 ^ 53 ->
       (cart_totalPrice cart' == lineSum (cart_items cart'))%Q) /\
    rec_stock legacyVinyl + item_amount aliceLine + heldOf 7 (cart_items cart')
    = rec_stock legacyVinyl + heldOf 7 (cart_items aliceCart).
Proof.
  apply (removeItemFromCart_returns_line allWrites legacyShopWithCart 1 7 aliceCart 0
           aliceLine legacyVinyl).
  - reflexivity.
  - reflexivity.
  - reflexivity.
  - reflexivity.
  - reflexivity.
  - reflexivity.
  - reflexivity.
  - reflexivity.
Defined.

(** ** Creating, disabling and enabling a cart *)

Lemma find_map_same_id (l : list IUser) (f : IUser -> IUser) (id : N) :
  (forall u, user_id (f u) = user_id u) ->
  List.find (fun u => (user_id u =? id)%N) (map f l)
  = f <$> List.find (fun u => (user_id u =? id)%N) l.
Proof.
  intros Hf. induction l as [|a l IH]; simpl; [reflexivity|].
  rewrite Hf. destruct (user_id a =? id)%N; [reflexivity|exact IH].
Qed.

(** X7. [createCart] is idempotent: when it resolves with a cart, that
    cart is stored for the user and enabled, and a second call, whatever
    the storage does then, resolves with the same cart and changes
    nothing. *)
Theorem createCart_idempotent (w w' : Storage) (db : DB) (userId : N) (cart : ICart) :
  snd (createCart w userId db) = Ok cart ->
  carts (fst (createCart w userId db)) !! userId = Some cart /\
  cart_enabled cart = true /\
  createCart w' userId (fst (createCart w userId db))
  = (fst (createCart w userId db), Ok cart).
Proof.
  destruct (createCart w userId db) as [db1 res] eqn:Hrun. simpl. intros ->.
  revert Hrun. unfold createCart. unfold_M. simpl.
  destruct (List.find (fun u => (user_id u =? userId)%N) (users db)) as [user|] eqn:Hu;
    simpl; [|discriminate].
  destruct (carts db !! userId) as [c|] eqn:Hc; simpl.
  - destruct (cart_enabled c) eqn:He; simpl.
    + intros [= <- <-]. rewrite Hu, Hc, He. simpl. auto.
    + rewrite Hc, He. simpl.
      destruct (w Carts); simpl; [|discriminate].
      intros [= <- <-]. unfold setCarts. simpl.
      rewrite Hu. repeat (rewrite ?lookup_insert_eq; simpl). auto.
  - rewrite Hc. simpl.
    destruct (w Carts); simpl; [|discriminate].
    destruct (w Users); simpl; [|discriminate].
    intros [= <- <-]. unfold setCarts, setUsers. simpl.
    rewrite find_map_same_id by (intros u; destruct (user_id u =? userId)%N; reflexivity).
    rewrite Hu. simpl. repeat (rewrite ?lookup_insert_eq; simpl). auto.
Qed.

Lemma createCart_idempotent_witness :
  carts (fst (createCart allWrites 1 shop)) !! 1%N = Some (mkCart 100 None [] 0%Q true) /\
  cart_enabled (mkCart 100 None [] 0%Q true) = true /\
  createCart cartsRejected 1 (fst (createCart allWrites 1 shop))
  = (fst (createCart allWrites 1 shop), Ok (mkCart 100 None [] 0%Q true)).
Proof.
  apply (createCart_idempotent allWrites cartsRejected shop 1).
  reflexivity.
Defined.

Lemma withEnabled_back (c : ICart) :
  cart_enabled c = true -> withEnabled true (withEnabled false c) = c.
Proof. destruct c; simpl. intros ->. reflexivity. Qed.

(** X8. The disable and enable routes only flip the flag of the user's
    cart. Disabling answers 200 with the cart disabled and its lines and
    total kept, and touches no record (no stock is returned); enabling it
    afterwards answers 200 with the cart as it was and leaves the database
    exactly as before the two requests. *)
Theorem disable_then_enable
    (w1 w2 : Storage) (db : DB) (email : string) (user : IUser) (cart : ICart) :
  email <> EmptyString ->
  List.find (fun u => String.eqb (user_userEmail u) (castEmail email)) (users db) = Some user ->
  carts db !! user_id user = Some cart ->
  cart_enabled cart = true ->
  w1 Carts = true -> w2 Carts = true ->
  snd (cartsController.disableCartByEmail w1 email db)
  = cartsController.Json200 (withEnabled false cart) /\
  carts (fst (cartsController.disableCartByEmail w1 email db)) !! user_id user
  = Some (withEnabled false cart) /\
  records (fst (cartsController.disableCartByEmail w1 email db)) = records db /\
  cartsController.enableCartByEmail w2 email
    (fst (cartsController.disableCartByEmail w1 email db))
  = (db, cartsController.Json200 cart).
Proof.
  intros Hemail Hu Hc He Hw1 Hw2.
  unfold cartsController.disableCartByEmail, cartsController.enableCartByEmail.
  destruct (String.eqb_spec email EmptyString) as [?|_]; [contradiction|].
  unfold cartsController.handle, cartsController.findOneAndUpdateEnabled.
  unfold_M. unfold setCarts. simpl.
  repeat (rewrite ?Hu, ?Hw1, ?Hw2, ?lookup_alter_eq, ?Hc; simpl).
  split; [reflexivity|]. split; [reflexivity|]. split; [reflexivity|].
  rewrite (withEnabled_back cart He). f_equal.
  destruct db as [us rs cs os nid]. unfold setCarts. simpl in *. f_equal.
  apply map_eq. intros k. destruct (decide (user_id user = k)) as [<-|Hne].
  - rewrite !lookup_alter_eq, Hc. simpl. now rewrite (withEnabled_back cart He).
  - rewrite !lookup_alter_ne by exact Hne. reflexivity.
Qed.

Lemma disable_then_enable_witness :
  snd (cartsController.disableCartByEmail allWrites "alice@example.com" shopWithCart)
  = cartsController.Json200 (withEnabled false aliceCart) /\
  carts (fst (cartsController.disableCartByEmail allWrites "alice@example.com"
                shopWithCart)) !! user_id alice
  = Some (withEnabled false aliceCart) /\
  records (fst (cartsController.disableCartByEmail allWrites "alice@example.com"
                  shopWithCart)) = records shopWithCart /\
  cartsController.enableCartByEmail allWrites "alice@example.com"
    (fst (cartsController.disableCartByEmail allWrites "alice@example.com" shopWithCart))
  = (shopWithCart, cartsController.Json200 aliceCart).
Proof.
  apply (disable_then_enable allWrites allWrites shopWithCart "alice@example.com"
           alice aliceCart).
  - discriminate.
  - reflexivity.
  - vm_compute. reflexivity.
  - reflexivity.
  - reflexivity.
  - reflexivity.
Defined.

(** X9. A disabled cart is reused empty. When the user's cart is disabled,
    [addItemToCart] re-enables that same cart document and leaves in it the
    new line only; the lines it held are dropped and no stock is returned
    for them: every record other than the one added keeps its stock. *)
Theorem addItemToCart_reuses_disabled_cart
    (w : Storage) (db : DB) (userId recordId : N) (amount : Z)
    (userEmail : string) (record : IRecord) (cart : ICart) :
  records db !! recordId = Some record ->
  1 <= amount ->
  amount <= rec_stock record ->
  carts db !! userId = Some cart ->
  cart_enabled cart = false ->
  w Records = true -> w Carts = true ->
  exists cart',
    snd (addItemToCart w userId recordId amount userEmail db) = Ok cart' /\
    carts (fst (addItemToCart w userId recordId amount userEmail db)) !! userId
    = Some cart' /\
    cart_id cart' = cart_id cart /\
    cart_enabled cart' = true /\
    cart_items cart' = [newLine recordId amount record] /\
    forall other, other <> recordId ->
      records (fst (addItemToCart w userId recordId amount userEmail db)) !! other
      = records db !! other.
Proof.
  intros Hrec Hpos Hle Hc He HwR HwC.
  unfold addItemToCart. unfold_M. simpl. rewrite Hrec.
  destruct (Z.ltb_spec (rec_stock record) amount) as [?|_]; [lia|].
  repeat (rewrite ?Hc, ?He, ?HwR; simpl).
  unfold validCart, validItem. simpl.
  destruct (Z.leb_spec 1 amount) as [_|?]; [|lia]. simpl. rewrite HwC. simpl.
  eexists. split; [reflexivity|]. split; [apply lookup_insert_eq|].
  do 3 (split; [reflexivity|]).
  intros other Hne. apply lookup_insert_ne. congruence.
Qed.

Lemma addItemToCart_reuses_disabled_cart_witness :
  exists cart',
    snd (addItemToCart allWrites 1 7 1 "alice@example.com" shopDisabled) = Ok cart' /\
    carts (fst (addItemToCart allWrites 1 7 1 "alice@example.com" shopDisabled)) !! 1%N
    = Some cart' /\
    cart_id cart' = cart_id (withEnabled false aliceCart) /\
    cart_enabled cart' = true /\
    cart_items cart' = [newLine 7 1 (withStock 3 vinyl)] /\
    forall other, other <> 7%N ->
      records (fst (addItemToCart allWrites 1 7 1 "alice@example.com" shopDisabled)) !! other
      = records shopDisabled !! other.
Proof.
  apply (addItemToCart_reuses_disabled_cart allWrites shopDisabled 1 7 1
           "alice@example.com" (withStock 3 vinyl) (withEnabled false aliceCart)).
  - vm_compute. reflexivity.
  - lia.
  - simpl. lia.
  - vm_compute. reflexivity.
  - reflexivity.
  - reflexivity.
  - reflexivity.
Defined.

(** The two copies of the disabled cart are gone and the stock is 2, not 4. *)
Example disabled_cart_lines_lost :
  rec_stock <$> records shopDisabled !! 7%N = Some 3 /\
  heldOf 7 (activeItems shopWithCart 1) = 2 /\
  rec_stock <$>
    records (fst (addItemToCart allWrites 1 7 1 "alice@example.com" shopDisabled)) !! 7%N
  = Some 2 /\
  heldOf 7 (activeItems (fst (addItemToCart allWrites 1 7 1 "alice@example.com"
                                shopDisabled)) 1) = 1.
Proof. vm_compute. repeat split. Qed.

(** ** Reading a cart *)

Lemma mapM_populateItem_missing (recs : gmap N IRecord) (items : list ICartItem) :
  Exists (fun line => recs !! item_recordId line = None) items ->
  mapM (populateItem recs) items = None.
Proof.
  induction 1 as [line rest Hnone|line rest _ IH]; simpl.
  - unfold populateItem. rewrite Hnone. reflexivity.
  - rewrite IH. destruct (populateItem recs line); reflexivity.
Qed.

(** X10. [getCartByUserId] never writes. It resolves with null when the
    user has no enabled cart. For an enabled cart it throws a TypeError
    when some line points at a record that no longer exists, and otherwise
    resolves with the stored total and one item per line, each with the
    line's record, amount and captured price (not the record's current
    price). *)
Theorem getCartByUserId_reads (userId : N) (db : DB) :
  fst (getCartByUserId userId db) = db /\
  ((forall cart, carts db !! userId = Some cart -> cart_enabled cart = false) ->
     snd (getCartByUserId userId db) = Ok None) /\
  (forall cart,
     carts db !! userId = Some cart -> cart_enabled cart = true ->
     (Exists (fun line => records db !! item_recordId line = None) (cart_items cart) ->
        snd (getCartByUserId userId db) = Throw TypeError) /\
     (Forall (fun line => is_Some (records db !! item_recordId line)) (cart_items cart) ->
        exists view,
          snd (getCartByUserId userId db) = Ok (Some view) /\
          pc_id view = cart_id cart /\
          pc_totalPrice view = cart_totalPrice cart /\
          map orderItemOf (pc_items view) = map orderItemOfLine (cart_items cart))).
Proof.
  split; [apply getCartByUserId_state|]. split.
  - intros Hdis. unfold getCartByUserId. unfold_M. simpl.
    destruct (carts db !! userId) as [c|] eqn:Hc; simpl; [|reflexivity].
    rewrite (Hdis c eq_refl). reflexivity.
  - intros cart Hc He. unfold getCartByUserId. unfold_M. simpl.
    rewrite Hc, He. simpl. split.
    + intros Hmiss. rewrite (mapM_populateItem_missing _ _ Hmiss). reflexivity.
    + intros Hall. destruct (mapM_populateItem _ _ Hall) as (populated & Hm & Hmap & _).
      rewrite Hm. simpl. eexists. split; [reflexivity|]. simpl. auto.
Qed.

(** The view shows the record's current price beside the captured one. *)
Example getCartByUserId_two_prices :
  match snd (getCartByUserId 1 repricedShop) with
  | Ok (Some view) =>
      map pi_price (pc_items view) = [(10 # 1)%Q] /\
      map (fun i => pd_price (pi_recordDetails i)) (pc_items view) = [(12 # 1)%Q]
  | _ => False
  end.
Proof. vm_compute. split; reflexivity. Qed.

(** ** Removing a record *)

Lemma Exists_lookup {A} (P : A -> Prop) (l : list A) (i : nat) (x : A) :
  l !! i = Some x -> P x -> Exists P l.
Proof.
  revert i. induction l as [|a l IH]; intros i Hi Hx; [destruct i; discriminate|].
  destruct i as [|i]; simpl in Hi.
  - injection Hi as ->. now constructor.
  - constructor 2. eapply IH; eassumption.
Qed.

(** X11. [recordService.remove] deletes the record and resolves with
    true, touching no other record and no cart. A cart that holds a line of
    the removed record keeps the line, and [getCartByUserId] for its user
    then throws a TypeError. *)
Theorem remove_leaves_cart_unreadable
    (w : Storage) (db : DB) (id userId : N) (record : IRecord) (cart : ICart) (i : nat) :
  records db !! id = Some record ->
  w Records = true ->
  carts db !! userId = Some cart ->
  cart_enabled cart = true ->
  findIndex (isLineOf id) (cart_items cart) = Some i ->
  snd (recordService.remove w id db) = Ok true /\
  snd (recordService.getById id (fst (recordService.remove w id db))) = Ok None /\
  (forall other, other <> id ->
     records (fst (recordService.remove w id db)) !! other = records db !! other) /\
  carts (fst (recordService.remove w id db)) = carts db /\
  snd (getCartByUserId userId (fst (recordService.remove w id db))) = Throw TypeError.
Proof.
  intros Hrec Hw Hc He Hi.
  unfold recordService.remove, recordService.getById. unfold_M. simpl.
  rewrite Hrec, Hw. simpl.
  split; [reflexivity|]. split; [now rewrite lookup_delete_eq|].
  split; [intros other Hne; apply lookup_delete_ne; congruence|].
  split; [reflexivity|].
  unfold getCartByUserId. unfold_M. simpl. rewrite Hc, He. simpl.
  rewrite mapM_populateItem_missing; [reflexivity|].
  destruct (findIndex_Some _ _ _ Hi) as (line & Hline & Hp & _).
  apply (Exists_lookup _ _ i line Hline).
  unfold isLineOf in Hp. apply N.eqb_eq in Hp. rewrite Hp. apply lookup_delete_eq.
Qed.

Lemma remove_leaves_cart_unreadable_witness :
  snd (recordService.remove allWrites 7 shopWithCart) = Ok true /\
  snd (recordService.getById 7 (fst (recordService.remove allWrites 7 shopWithCart)))
  = Ok None /\
  (forall other, other <> 7%N ->
     records (fst (recordService.remove allWrites 7 shopWithCart)) !! other
     = records shopWithCart !! other) /\
  carts (fst (recordService.remove allWrites 7 shopWithCart)) = carts shopWithCart /\
  snd (getCartByUserId 1 (fst (recordService.remove allWrites 7 shopWithCart)))
  = Throw TypeError.
Proof.
  apply (remove_leaves_cart_unreadable allWrites shopWithCart 7 1 (withStock 3 vinyl)
           aliceCart 0).
  - vm_compute. reflexivity.
  - reflexivity.
  - vm_compute. reflexivity.
  - reflexivity.
  - reflexivity.
Defined.

Example remove_missing_record :
  recordService.remove allWrites 9 shop = (shop, Ok false).
Proof. vm_compute. reflexivity. Qed.

(** ** Stock changes in a row *)

Lemma withStock_twice (r : IRecord) (s1 s2 : Z) :
  withLegacyStock None (withStock s2 (withLegacyStock None (withStock s1 r)))
  = withLegacyStock None (withStock s2 r).
Proof. destruct r; reflexivity. Qed.

(** X12. Two stock changes that are both accepted add up: [updateStock]
    with [a] and then with [b] leaves the database that one call with
    [a + b] leaves, and resolves with the stock plus [a + b]. *)
Theorem updateStock_changes_add_up
    (w1 w2 w : Storage) (db : DB) (id : N) (a b : Z) (record : IRecord) :
  records db !! id = Some record ->
  ~ (a < 0 /\ rec_stock record < - a) ->
  ~ (b < 0 /\ rec_stock record + a < - b) ->
  w1 Records = true -> w2 Records = true -> w Records = true ->
  updateStock w2 id b (fst (updateStock w1 id a db))
  = (fst (updateStock w id (a + b) db), Ok (rec_stock record + a + b)) /\
  rec_stock <$> records (fst (updateStock w id (a + b) db)) !! id
  = Some (rec_stock record + a + b).
Proof.
  intros Hrec Ha Hb Hw1 Hw2 Hw.
  rewrite (updateStock_applies w1 db id a record Hrec Ha Hw1). simpl.
  assert (~ (a + b < 0 /\ rec_stock record < - (a + b))) as Hab by lia.
  rewrite (updateStock_applies w db id (a + b) record Hrec Hab Hw). simpl.
  rewrite lookup_insert_eq. simpl.
  rewrite (updateStock_applies w2 _ id b
             (withLegacyStock None (withStock (rec_stock record + a) record)));
    [| apply lookup_insert_eq | simpl; exact Hb | exact Hw2].
  simpl. unfold setRecords. simpl.
  rewrite insert_insert_eq, withStock_twice.
  replace (rec_stock record + a + b) with (rec_stock record + (a + b)) by lia.
  split; reflexivity.
Qed.

Lemma updateStock_changes_add_up_witness :
  updateStock allWrites 7 (-4) (fst (updateStock allWrites 7 4 shop))
  = (fst (updateStock allWrites 7 (4 + -4) shop), Ok (rec_stock vinyl + 4 + -4)) /\
  rec_stock <$> records (fst (updateStock allWrites 7 (4 + -4) shop)) !! 7%N
  = Some (rec_stock vinyl + 4 + -4).
Proof.
  apply (updateStock_changes_add_up allWrites allWrites allWrites shop 7 4 (-4) vinyl).
  - reflexivity.
  - simpl. lia.
  - simpl. lia.
  - reflexivity.
  - reflexivity.
  - reflexivity.
Defined.

(** ** Conversions that do not go through *)

(** X13. A conversion that is turned down changes nothing. The orders
    controller answers 404 when no user has the email (the route's email,
    of ASCII characters, cast as the user schema casts it: lowercased and
    trimmed), 400 when the user found has no enabled cart or an enabled
    cart without lines, and 500 when a line of the cart points at a record
    that no longer exists; in each case the database, its orders included,
    is exactly as before. *)
Theorem createOrder_turned_down (w : Storage) (db : DB) (email paymentMethod : string) :
  email <> EmptyString ->
  (asciiText email = true ->
   List.find (fun u => String.eqb (user_userEmail u) (castEmail email)) (users db) = None ->
     createOrderController w email paymentMethod db = (db, Status404)) /\
  (forall user,
     List.find (fun u => String.eqb (user_userEmail u) (castEmail email)) (users db) = Some user ->
     ((forall cart, carts db !! user_id user = Some cart -> cart_enabled cart = false) ->
        createOrderController w email paymentMethod db = (db, Status400)) /\
     (forall cart,
        carts db !! user_id user = Some cart -> cart_enabled cart = true ->
        (cart_items cart = [] ->
           createOrderController w email paymentMethod db = (db, Status400)) /\
        (Exists (fun line => records db !! item_recordId line = None) (cart_items cart) ->
           createOrderController w email paymentMethod db = (db, Status500 TypeError)))).
Proof.
  intros Hemail. unfold createOrderController.
  destruct (String.eqb_spec email EmptyString) as [?|_]; [contradiction|].
  unfold createOrderBody, getCartByUserId. unfold_M. simpl. split.
  - intros _ ->. reflexivity.
  - intros user ->. simpl. split.
    + intros Hdis. destruct (carts db !! user_id user) as [c|] eqn:Hc; simpl; [|reflexivity].
      rewrite (Hdis c eq_refl). reflexivity.
    + intros cart Hc He. rewrite Hc, He. simpl. split.
      * intros ->. simpl. reflexivity.
      * intros Hmiss. rewrite (mapM_populateItem_missing _ _ Hmiss). reflexivity.
Qed.

Lemma createOrder_turned_down_witness :
  createOrderController allWrites "BOB@EXAMPLE.COM" "Credit Card" shopWithCart
  = (shopWithCart, Status404) /\
  createOrderController allWrites " Alice@Example.com " "Credit Card" shopAfterOrder
  = (shopAfterOrder, Status400) /\
  createOrderController allWrites "alice@example.com" "Credit Card" shopAfterReenable
  = (shopAfterReenable, Status400) /\
  createOrderController allWrites "ALICE@EXAMPLE.COM" "Credit Card"
    (fst (recordService.remove allWrites 7 shopWithCart))
  = (fst (recordService.remove allWrites 7 shopWithCart), Status500 TypeError).
Proof.
  split.
  { apply (createOrder_turned_down allWrites shopWithCart "BOB@EXAMPLE.COM" "Credit Card");
      [discriminate|reflexivity|reflexivity]. }
  split.
  { apply (createOrder_turned_down allWrites shopAfterOrder " Alice@Example.com "
             "Credit Card" ltac:(discriminate)) with (user := alice); [reflexivity|].
    intros cart H. vm_compute in H. injection H as <-. reflexivity. }
  split.
  { apply (createOrder_turned_down allWrites shopAfterReenable "alice@example.com"
             "Credit Card" ltac:(discriminate)) with (user := alice)
            (cart := mkCart 100 None [] 0%Q true); reflexivity. }
  apply (createOrder_turned_down allWrites (fst (recordService.remove allWrites 7 shopWithCart))
           "ALICE@EXAMPLE.COM" "Credit Card" ltac:(discriminate))
    with (user := alice) (cart := aliceCart).
  - reflexivity.
  - vm_compute. reflexivity.
  - reflexivity.
  - apply Exists_cons_hd. vm_compute. reflexivity.
Defined.

(** X14. The order is stored before the cart is retired, and nothing undoes
    it. When the order write is accepted and the cart write is then
    rejected, the controller answers 500 "Failed to create order" although
    the order is in the collection, and the cart keeps its lines and stays
    enabled. When the order write itself is rejected, the answer is the
    same 500 and neither an order nor the cart is written. *)
Theorem createOrder_half_done
    (w : Storage) (db : DB) (email paymentMethod : string)
    (user : IUser) (cart : ICart) :
  castEmail email <> EmptyString ->
  paymentMethod <> EmptyString ->
  List.find (fun u => String.eqb (user_userEmail u) (castEmail email)) (users db) = Some user ->
  carts db !! user_id user = Some cart ->
  cart_enabled cart = true ->
  cart_items cart <> [] ->
  validCart cart = true ->
  Forall (fun line => is_Some (records db !! item_recordId line)) (cart_items cart) ->
  (w Orders = true -> w Carts = false ->
     snd (createOrderController w email paymentMethod db) = Status500 FailedToCreateOrder /\
     orders (fst (createOrderController w email paymentMethod db))
     = orders db ++ [mkOrder (nextId db) (user_id user) (user_userEmail user)
                             (map orderItemOfLine (cart_items cart))
                             (cart_totalPrice cart) paymentMethod] /\
     carts (fst (createOrderController w email paymentMethod db)) = carts db) /\
  (w Orders = false ->
     snd (createOrderController w email paymentMethod db) = Status500 FailedToCreateOrder /\
     orders (fst (createOrderController w email paymentMethod db)) = orders db /\
     carts (fst (createOrderController w email paymentMethod db)) = carts db).
Proof.
  intros Hcast Hpm Hu Hc He Hne Hv Hrecs.
  pose proof (castEmail_nonempty _ Hcast) as Hemail.
  destruct (find_user_by_id _ _ _ Hu) as [Hmail _].
  destruct (mapM_populateItem _ _ Hrecs) as (populated & Hm & Hmap & Hlen).
  assert ((length populated =? 0)%nat = false) as Hlen0.
  { rewrite Hlen. destruct (cart_items cart); [contradiction|reflexivity]. }
  unfold createOrderController.
  destruct (String.eqb_spec email EmptyString) as [?|_]; [contradiction|].
  unfold createOrderBody, getCartByUserId, createOrder, saveOrder, retireCartById,
    rethrowAs.
  unfold_M. simpl.
  rewrite Hu, Hc, He. simpl. rewrite Hm. simpl. rewrite Hlen0. simpl.
  rewrite Hmap, Hmail.
  rewrite (validOrder_of_cart _ _ _ _ _ _ Hv Hcast Hpm).
  destruct (w Orders) eqn:HwO; simpl.
  - destruct (w Carts) eqn:HwC; simpl.
    + split; discriminate.
    + split; [|discriminate]. intros _ _. repeat split.
  - split; [discriminate|]. intros _. repeat split.
Qed.

Lemma createOrder_half_done_witness :
  (cartsRejected Orders = true -> cartsRejected Carts = false ->
     snd (createOrderController cartsRejected "alice@example.com" "Credit Card" shopWithCart)
     = Status500 FailedToCreateOrder /\
     orders (fst (createOrderController cartsRejected "alice@example.com" "Credit Card"
                    shopWithCart))
     = orders shopWithCart ++ [mkOrder (nextId shopWithCart) (user_id alice)
                                 (user_userEmail alice)
                                 (map orderItemOfLine (cart_items aliceCart))
                                 (cart_totalPrice aliceCart) "Credit Card"] /\
     carts (fst (createOrderController cartsRejected "alice@example.com" "Credit Card"
                   shopWithCart)) = carts shopWithCart) /\
  (cartsRejected Orders = false ->
     snd (createOrderController cartsRejected "alice@example.com" "Credit Card" shopWithCart)
     = Status500 FailedToCreateOrder /\
     orders (fst (createOrderController cartsRejected "alice@example.com" "Credit Card"
                    shopWithCart)) = orders shopWithCart /\
     carts (fst (createOrderController cartsRejected "alice@example.com" "Credit Card"
                   shopWithCart)) = carts shopWithCart).
Proof.
  apply (createOrder_half_done cartsRejected shopWithCart "alice@example.com" "Credit Card"
           alice aliceCart).
  - discriminate.
  - discriminate.
  - reflexivity.
  - vm_compute. reflexivity.
  - reflexivity.
  - discriminate.
  - reflexivity.
  - exact shopWithCart_lines_exist.
Defined.

(** The same cart converted twice after a rejected cart write: two orders. *)
Example createOrder_twice :
  length (orders (fst (createOrderController allWrites "alice@example.com" "Credit Card"
                         (fst (createOrderController cartsRejected "alice@example.com"
                                 "Credit Card" shopWithCart))))) = 2%nat.
Proof. vm_compute. reflexivity. Qed.

Example createOrder_unknown_email :
  createOrderController allWrites "bob@example.com" "Credit Card" shopWithCart
  = (shopWithCart, Status404).
Proof. vm_compute. reflexivity. Qed.

(** The user query casts the email of the route: Alice is found under
    her email in capitals, and her cart is converted. *)
Example createOrder_email_in_capitals :
  createOrderController allWrites "ALICE@EXAMPLE.COM" "Credit Card" shopWithCart
  = createOrderController allWrites "alice@example.com" "Credit Card" shopWithCart /\
  isOk (snd (createOrderBody allWrites "ALICE@EXAMPLE.COM" "Credit Card" shopWithCart))
  = true /\
  map order_userEmail
    (orders (fst (createOrderController allWrites "ALICE@EXAMPLE.COM" "Credit Card"
                    shopWithCart)))
  = ["alice@example.com"%string].
Proof. vm_compute. repeat split. Qed.

Example createOrder_after_record_removed :
  snd (createOrderController allWrites "alice@example.com" "Credit Card"
         (fst (recordService.remove allWrites 7 shopWithCart)))
  = Status500 TypeError.
Proof. vm_compute. reflexivity. Qed.


(** ** Clearing twice *)

Lemma clearCart_resolved (w : Storage) (db : DB) (userId : N) (r : ClearedCart) :
  snd (clearCart w userId db) = Ok r ->
  exists cart,
    carts (fst (clearCart w userId db)) !! userId = Some cart /\
    cart_enabled cart = true /\ cart_items cart = [] /\ cart_totalPrice cart = 0%Q.
Proof.
  destruct (clearCart w userId db) as [db1 res] eqn:Hrun. simpl. intros ->.
  revert Hrun. unfold clearCart. rewrite bind_run. unfold findCart at 1, gets at 1.
  assert ((forall c, carts db !! userId = Some c -> cart_enabled c = false) ->
          (created <- createCart w userId ;; ret (CartDocument created)) db = (db1, Ok r) ->
          exists cart,
            carts db1 !! userId = Some cart /\
            cart_enabled cart = true /\ cart_items cart = [] /\ cart_totalPrice cart = 0%Q)
    as Hcreate.
  { intros Hdis. unfold createCart. unfold_M. simpl.
    destruct (List.find _ (users db)); simpl; [|discriminate].
    destruct (carts db !! userId) as [c|] eqn:Hc; simpl.
    - rewrite (Hdis c eq_refl). simpl. rewrite Hc. simpl. rewrite (Hdis c eq_refl). simpl.
      destruct (w Carts); simpl; [|discriminate].
      intros [= <- <-]. unfold setCarts. simpl. rewrite lookup_insert_eq. eauto.
    - rewrite Hc. simpl. destruct (w Carts); simpl; [|discriminate].
      destruct (w Users); simpl; [|discriminate].
      intros [= <- <-]. unfold setCarts, setUsers. simpl. rewrite lookup_insert_eq. eauto. }
  destruct (carts db !! userId) as [c|] eqn:Hc; [|apply Hcreate; discriminate].
  destruct (cart_enabled c) eqn:He; simpl;
    [|apply Hcreate; intros c' [= <-]; exact He].
  clear Hcreate. rewrite bind_run.
  destruct (forEachItem_returnStock_effect w (cart_items c) db) as (_ & _ & Hc1 & _).
  destruct (forEachItem (returnStock w) (cart_items c) db) as [db0 [[]|e]]; simpl in Hc1;
    [|discriminate].
  unfold getCartByUserId. unfold_M. simpl.
  destruct (w Carts); simpl; [|discriminate].
  repeat step; intros [= <- <-]; unfold setCarts; simpl; rewrite lookup_insert_eq;
    eexists; repeat split; exact He.
Qed.

(** X15. Once [clearCart] has resolved, clearing again is a no-op: a second
    call, whatever the storage does then, leaves the database exactly as the
    first call left it (the cart is already enabled, empty and with total
    zero, and no record is written). *)
Theorem clearCart_twice (w1 w2 : Storage) (db : DB) (userId : N) (r : ClearedCart) :
  snd (clearCart w1 userId db) = Ok r ->
  fst (clearCart w2 userId (fst (clearCart w1 userId db))) = fst (clearCart w1 userId db).
Proof.
  intros Hok. destruct (clearCart_resolved _ _ _ _ Hok) as (cart & Hc & He & Hitems & Htot).
  generalize dependent (fst (clearCart w1 userId db)). intros db1 Hc.
  unfold clearCart, getCartByUserId. unfold_M. simpl. rewrite Hc, He. simpl.
  rewrite Hitems. simpl. unfold validCart. simpl.
  assert (recalculateTotal (withItems [] cart) = cart) as ->.
  { destruct cart; simpl in *. subst. reflexivity. }
  destruct (w2 Carts); simpl; [|reflexivity].
  assert (setCarts (fun m => <[userId := cart]> m) db1 = db1) as Hsame.
  { destruct db1. unfold setCarts. simpl in *. f_equal. apply insert_id. exact Hc. }
  rewrite lookup_insert_eq, He. simpl. rewrite Hitems. simpl. exact Hsame.
Qed.

Lemma clearCart_twice_witness :
  fst (clearCart cartsRejected 1 (fst (clearCart allWrites 1 shopAfterOrder)))
  = fst (clearCart allWrites 1 shopAfterOrder).
Proof.
  eapply (clearCart_twice allWrites cartsRejected shopAfterOrder 1).
  vm_compute. reflexivity.
Defined.

(** A cart with a line on an existing record is not such a case: the first
    call does not resolve. *)
Example clearCart_with_lines_throws :
  snd (clearCart allWrites 1 shopWithCart) = Throw ValidationError /\
  snd (clearCart allWrites 1 legacyShopWithCart) = Throw ValidationError.
Proof. vm_compute. split; reflexivity. Qed.

(** ** Deleting a user *)

(** X16. [deleteUser] resolves with false and changes nothing when no user
    has the email (of ASCII characters, and cast as the user schema casts
    the filter of the query: lowercased and trimmed). When a user is found
    under the cast email and the writes are accepted, it resolves with
    true; the users and orders that remain are exactly those of other user
    ids, in their order; no record is touched, so copies held in the user's
    cart are not returned to the stock; and a cart is deleted exactly when
    [user.cartId] is its [_id] (a cart whose id the user document does not
    carry stays). *)
Theorem deleteUser_removes (w : Storage) (db : DB) (email : string) :
  (asciiText email = true ->
   List.find (fun u => String.eqb (user_userEmail u) (castEmail email)) (users db) = None ->
     userService.deleteUser w email db = (db, userService.Resolved false)) /\
  (forall user,
     List.find (fun u => String.eqb (user_userEmail u) (castEmail email)) (users db) = Some user ->
     w Orders = true -> w Carts = true -> w Users = true ->
     snd (userService.deleteUser w email db) = userService.Resolved true /\
     users (fst (userService.deleteUser w email db))
     = List.filter (fun u => negb (user_id u =? user_id user)%N) (users db) /\
     orders (fst (userService.deleteUser w email db))
     = List.filter (fun o => negb (order_userId o =? user_id user)%N) (orders db) /\
     records (fst (userService.deleteUser w email db)) = records db /\
     (forall k c,
        carts (fst (userService.deleteUser w email db)) !! k = Some c <->
        carts db !! k = Some c /\ user_cartId user <> Some (cart_id c))).
Proof.
  unfold userService.deleteUser. unfold_M. simpl. split.
  - intros _ ->. reflexivity.
  - intros user -> HwO HwC HwU. simpl. rewrite HwO. simpl.
    destruct (user_cartId user) as [cartId|] eqn:Hid; simpl.
    + rewrite HwC. simpl. rewrite HwU. simpl.
      do 4 (split; [reflexivity|]).
      intros k c. rewrite map_lookup_filter_Some. simpl.
      split; intros [H1 H2]; (split; [exact H1|]); congruence.
    + rewrite HwU. simpl. do 4 (split; [reflexivity|]).
      intros k c. split; [intros H; split; [exact H|discriminate]|tauto].
Qed.

Lemma deleteUser_removes_witness :
  userService.deleteUser allWrites "BOB@EXAMPLE.COM" shopWithCart
  = (shopWithCart, userService.Resolved false) /\
  snd (userService.deleteUser allWrites " Alice@Example.com " shopWithCart)
  = userService.Resolved true /\
  users (fst (userService.deleteUser allWrites " Alice@Example.com " shopWithCart))
  = List.filter (fun u => negb (user_id u =? user_id alice)%N) (users shopWithCart) /\
  orders (fst (userService.deleteUser allWrites " Alice@Example.com " shopWithCart))
  = List.filter (fun o => negb (order_userId o =? user_id alice)%N) (orders shopWithCart) /\
  records (fst (userService.deleteUser allWrites " Alice@Example.com " shopWithCart))
  = records shopWithCart /\
  (forall k c,
     carts (fst (userService.deleteUser allWrites " Alice@Example.com " shopWithCart)) !! k
     = Some c <->
     carts shopWithCart !! k = Some c /\ user_cartId alice <> Some (cart_id c)).
Proof.
  split.
  - apply (deleteUser_removes allWrites shopWithCart "BOB@EXAMPLE.COM"); reflexivity.
  - apply (deleteUser_removes allWrites shopWithCart " Alice@Example.com "); reflexivity.
Defined.

(** Alice's cart came from [addItemToCart], which does not set her
    [cartId]: deleting her leaves the cart, and the stock stays at 3. *)
Example deleteUser_leaves_cart :
  snd (userService.deleteUser allWrites "alice@example.com" shopWithCart)
  = userService.Resolved true /\
  users (fst (userService.deleteUser allWrites "alice@example.com" shopWithCart)) = [] /\
  carts (fst (userService.deleteUser allWrites "alice@example.com" shopWithCart)) !! 1%N
  = Some aliceCart /\
  rec_stock <$>
    records (fst (userService.deleteUser allWrites "alice@example.com" shopWithCart)) !! 7%N
  = Some 3.
Proof. vm_compute. repeat split. Qed.

(** The email is cast before the user is looked up: Alice is deleted under
    her email in capitals, with spaces around it. *)
Example deleteUser_email_in_capitals :
  userService.deleteUser allWrites " ALICE@EXAMPLE.COM " shopWithCart
  = userService.deleteUser allWrites "alice@example.com" shopWithCart /\
  snd (userService.deleteUser allWrites " ALICE@EXAMPLE.COM " shopWithCart)
  = userService.Resolved true.
Proof. vm_compute. split; reflexivity. Qed.

(** A cart made by [createCart] is named by [cartId] and goes with the user. *)
Example deleteUser_deletes_cart :
  carts (fst (userService.deleteUser allWrites "alice@example.com"
                (fst (createCart allWrites 1 shop)))) !! 1%N = None /\
  userService.deleteUser allWrites "bob@example.com" shop
  = (shop, userService.Resolved false).
Proof. vm_compute. repeat split. Qed.
